(** * A shallow embedding of the bar-sequential backtest engine
    (engine.py), the EMA crossover strategy it is run with (strategy.py)
    and the walk-forward optimiser (forward_test.py).

    Numbers.  Prices, equity and PnL are Python/numpy floats in the source;
    they are idealised here as exact rationals [Q].  An indicator column
    may hold NaN on warm-up bars: such a cell is an [option Q], [None]
    standing for NaN.  Timestamps (the DataFrame index) are integers. *)

From Stdlib Require Import String ZArith QArith Qabs List Bool Lia Lqa.
Import ListNotations.

Open Scope Z_scope.

(** ** Exceptions and the error monad *)

Inductive exn : Type :=
| IndexError | KeyError | TypeError | ValueError | OverflowError
| ZeroDivisionError | AttributeError.

Inductive result (A : Type) : Type :=
| Ok (a : A)
| Raise (e : exn).
Arguments Ok {A} a.
Arguments Raise {A} e.

Definition bind {A B : Type} (m : result A) (k : A -> result B) : result B :=
  match m with
  | Ok a => k a
  | Raise e => Raise e
  end.

Notation "x <- m ;; k" := (bind m (fun x => k))
  (at level 61, m at next level, right associativity).
Notation "' p <- m ;; k" := (bind m (fun x => match x with p => k end))
  (at level 61, p pattern, m at next level, right associativity).

(** ** Numeric helpers *)

Definition Qltb (a b : Q) : bool := negb (Qle_bool b a).
Definition Qgtb (a b : Q) : bool := Qltb b a.
Definition Qgeb (a b : Q) : bool := Qle_bool b a.

(** Python's [int(x)] on a finite float: truncation towards zero. *)
Definition int_of (q : Q) : Z := Z.quot (Qnum q) (Zpos (Qden q)).

(** Comparisons between possibly-NaN cells: any comparison with NaN is
    [False]. *)
Definition cell := option Q.

Definition cmp2 (f : Q -> Q -> bool) (a b : cell) : bool :=
  match a, b with
  | Some x, Some y => f x y
  | _, _ => false
  end.
Definition fgt := cmp2 Qgtb.
Definition flt := cmp2 Qltb.
Definition fge := cmp2 Qgeb.
Definition fle := cmp2 Qle_bool.

(** [n / d < bound] and [n / d > bound] on numpy floats with finite [n] and
    [d]: a zero divisor gives an infinity of the sign of [n] (NaN when [n]
    is zero too) instead of raising. *)
Definition div_lt (n d bound : Q) : bool :=
  if Qeq_bool d 0 then Qltb n 0 else Qltb (n / d) bound.
Definition div_gt (n d bound : Q) : bool :=
  if Qeq_bool d 0 then Qgtb n 0 else Qgtb (n / d) bound.

(** ** Bars and the DataFrame (data_pipeline.py) *)

Record Bar : Type := mkBar {
  name : Z;               (* the index value: the bar's timestamp *)
  close : Q;
  high : Q;
  low : Q;
  open : Q;
  volume : Q;
  atr_14 : cell;
  atr_avg : cell;
  ema_9 : cell;
  ema_21 : cell;
  sma_20 : cell;
  sma_50 : cell;
  rsi : cell;
  momentum_10 : cell
}.

Definition DataFrame := list Bar.

(** [data.iloc[i]]: a negative position counts from the end, a position out
    of range raises IndexError. *)
Definition iloc (data : DataFrame) (i : Z) : result Bar :=
  let n := Z.of_nat (length data) in
  let j := if i <? 0 then n + i else i in
  if (0 <=? j) && (j <? n) then
    match nth_error data (Z.to_nat j) with
    | Some b => Ok b
    | None => Raise IndexError
    end
  else Raise IndexError.

(** [data.iloc[a:b]] for [0 <= a <= b]. *)
Definition iloc_slice (data : DataFrame) (a b : nat) : DataFrame :=
  firstn (b - a) (skipn a data).

(** [data.index[0]] and [data.index[-1]]. *)
Definition index_first (data : DataFrame) : result Z :=
  match data with
  | [] => Raise IndexError
  | b :: _ => Ok (name b)
  end.
Definition index_last (data : DataFrame) : result Z :=
  match rev data with
  | [] => Raise IndexError
  | b :: _ => Ok (name b)
  end.

(** ** Instrument table (strategy.py) *)

Record spec : Type := mkSpec {
  tick_size : Q;
  point_value : Q;
  spec_name : string
}.

Definition symbol_specs : list (string * spec) :=
  [ ("NQ"%string, mkSpec (1 # 4) 20 "E-mini Nasdaq-100");
    ("ES"%string, mkSpec (1 # 4) 50 "E-mini S&P 500");
    ("EURUSD"%string, mkSpec (1 # 100000) 10 "EURUSD") ].

Fixpoint dict_get {V : Type} (d : list (string * V)) (k : string) : result V :=
  match d with
  | [] => Raise KeyError
  | (k', v) :: d' => if String.eqb k k' then Ok v else dict_get d' k
  end.

Definition symbol_point_value (sym : string) : result Q :=
  s <- dict_get symbol_specs sym ;; Ok (point_value s).

(** ** Positions, trades and equity points (engine.py) *)

Record Position : Type := mkPosition {
  p_entry_time : Z;
  p_entry_price : Q;
  p_position_size : Z;
  p_stop_loss : Q;
  p_take_profit : Q;
  p_entry_equity : Q
}.

(** [pnl_pct] is [None] when the entry equity is zero (the float quotient
    is then an infinity or NaN). *)
Record Trade : Type := mkTrade {
  entry_time : Z;
  exit_time : Z;
  entry_price : Q;
  exit_price : Q;
  position_size : Z;
  pnl : Q;
  pnl_pct : option Q;
  exit_reason : option string;
  equity_after : Q
}.

Record EquityPoint : Type := mkEquityPoint {
  timestamp : Z;
  equity : Q;
  position : Z
}.

(** ** The strategy contract

    What the engine uses of a strategy object: the attributes [symbol],
    [risk_per_trade], [atr_stop_multiplier] and [reward_risk_ratio], and the
    methods [should_enter] and [should_exit], which may update the
    instance (the returned [S]).  [setattr] is the
    [if hasattr(...): setattr(...)] of the grid search.
    [calculate_position_size] is the same function in strategy.py,
    strategy_sma.py and strategy_mrp.py and is defined once below. *)

Record StrategyClass (S : Type) : Type := mkStrategyClass {
  symbol : S -> string;
  risk_per_trade : S -> Q;
  atr_stop_multiplier : S -> Q;
  reward_risk_ratio : S -> Q;
  should_enter : S -> DataFrame -> nat -> result (bool * S);
  should_exit : S -> DataFrame -> nat -> Position ->
                result (bool * option string * S);
  setattr : S -> string -> Q -> S
}.
Arguments symbol {S}.
Arguments risk_per_trade {S}.
Arguments atr_stop_multiplier {S}.
Arguments reward_risk_ratio {S}.
Arguments should_enter {S}.
Arguments should_exit {S}.
Arguments setattr {S}.

Section StrategyCommon.
Context {S : Type} (C : StrategyClass S).

(** [int(risk_amount / (stop_distance * point_value))] raises ValueError
    on NaN and OverflowError on an infinity, that is whenever the ATR is
    NaN or the divisor is zero. *)
Definition calculate_position_size (s : S) (data : DataFrame) (idx : nat)
           (account_value : Q) : result Z :=
  current <- iloc data (Z.of_nat idx) ;;
  let risk_amount := (account_value * risk_per_trade C s)%Q in
  pv <- symbol_point_value (symbol C s) ;;
  match atr_14 current with
  | None => Raise ValueError
  | Some atr =>
      let stop_distance := (atr * atr_stop_multiplier C s)%Q in
      let d := (stop_distance * pv)%Q in
      if Qeq_bool d 0 then
        (if Qeq_bool risk_amount 0 then Raise ValueError
         else Raise OverflowError)
      else Ok (Z.max 1 (int_of (risk_amount / d)))
  end.
End StrategyCommon.

(** ** class Engine (engine.py) *)

Record Engine (S : Type) : Type := mkEngine {
  strategy : S;
  initial_capital : Q;
  account_value : Q;
  trades : list Trade;
  equity_curve : list EquityPoint;
  current_position : option Position
}.
Arguments mkEngine {S}.
Arguments strategy {S}.
Arguments initial_capital {S}.
Arguments account_value {S}.
Arguments trades {S}.
Arguments equity_curve {S}.
Arguments current_position {S}.

(** [Engine.__init__] *)
Definition Engine_init {S : Type} (strat : S) (capital : Q) : Engine S :=
  mkEngine strat capital capital [] [] None.

Definition set_strategy {S} (e : Engine S) (s : S) : Engine S :=
  mkEngine s (initial_capital e) (account_value e) (trades e)
           (equity_curve e) (current_position e).

Definition is_reason (r : option string) (s : string) : bool :=
  match r with
  | Some r' => String.eqb r' s
  | None => false
  end.

Section EngineDef.
Context {S : Type} (C : StrategyClass S).

(** [Engine._enter_trade] *)
Definition _enter_trade (e : Engine S) (data : DataFrame) (idx : nat)
  : result (Engine S) :=
  bar <- iloc data (Z.of_nat idx) ;;
  size <- calculate_position_size C (strategy e) data idx (account_value e) ;;
  match atr_14 bar with
  | None => Raise ValueError  (* unreachable: the sizing has raised *)
  | Some atr =>
      let entry_price := close bar in
      let stop_distance := (atr * atr_stop_multiplier C (strategy e))%Q in
      let stop_loss := (entry_price - stop_distance)%Q in
      let take_profit :=
        (entry_price + stop_distance * reward_risk_ratio C (strategy e))%Q in
      Ok (mkEngine (strategy e) (initial_capital e) (account_value e)
                   (trades e) (equity_curve e)
                   (Some (mkPosition (name bar) entry_price size stop_loss
                                     take_profit (account_value e))))
  end.

(** The price at which [_exit_trade] fills, by exit reason. *)
Definition resolve_exit_price (reason : option string) (pos : Position)
           (bar : Bar) : Q :=
  if is_reason reason "stop_loss" then p_stop_loss pos
  else if is_reason reason "take_profit" then p_take_profit pos
  else close bar.

(** [Engine._exit_trade]; with no open position the subscript on [None]
    raises TypeError. *)
Definition _exit_trade (e : Engine S) (data : DataFrame) (idx : Z)
           (reason : option string) : result (Engine S) :=
  bar <- iloc data idx ;;
  match current_position e with
  | None => Raise TypeError
  | Some pos =>
      let exit_price := resolve_exit_price reason pos bar in
      pv <- symbol_point_value (symbol C (strategy e)) ;;
      let price_change := (exit_price - p_entry_price pos)%Q in
      let pnl := (price_change * inject_Z (p_position_size pos) * pv)%Q in
      let pnl_pct :=
        if Qeq_bool (p_entry_equity pos) 0 then None
        else Some ((pnl / p_entry_equity pos) * 100)%Q in
      let account := (account_value e + pnl)%Q in
      let trade := mkTrade (p_entry_time pos) (name bar) (p_entry_price pos)
                           exit_price (p_position_size pos) pnl pnl_pct
                           reason account in
      Ok (mkEngine (strategy e) (initial_capital e) account
                   (trades e ++ [trade]) (equity_curve e) None)
  end.

(** One iteration of the bar loop of [Engine.run_backtest]. *)
Definition bar_step (e : Engine S) (data : DataFrame) (idx : nat)
  : result (Engine S) :=
  bar <- iloc data (Z.of_nat idx) ;;
  let pt := mkEquityPoint (name bar) (account_value e)
                          (match current_position e with Some _ => 1 | None => 0 end) in
  let e1 := mkEngine (strategy e) (initial_capital e) (account_value e)
                     (trades e) (equity_curve e ++ [pt])
                     (current_position e) in
  match current_position e1 with
  | Some pos =>
      '(ex, exit_reason, s') <- should_exit C (strategy e1) data idx pos ;;
      let e2 := set_strategy e1 s' in
      if (ex : bool) then _exit_trade e2 data (Z.of_nat idx) exit_reason
      else Ok e2
  | None =>
      '(en, s') <- should_enter C (strategy e1) data idx ;;
      let e2 := set_strategy e1 s' in
      if (en : bool) then _enter_trade e2 data idx else Ok e2
  end.

(** [for idx in ...: ...] over the given indices. *)
Fixpoint bar_loop (e : Engine S) (data : DataFrame) (idxs : list nat)
  : result (Engine S) :=
  match idxs with
  | [] => Ok e
  | idx :: rest => e' <- bar_step e data idx ;; bar_loop e' data rest
  end.

(** [Engine.run_backtest], on the frame the pipeline has loaded.  The
    printing and saving of the results do not touch the engine. *)
Definition run_backtest (e : Engine S) (data : DataFrame)
  : result (Engine S) :=
  e1 <- bar_loop e data (seq 0 (length data)) ;;
  match current_position e1 with
  | Some _ =>
      _exit_trade e1 data (Z.of_nat (length data) - 1)
                  (Some "end_of_data"%string)
  | None => Ok e1
  end.
End EngineDef.

(** ** class Strategy (strategy.py): the 9/21 EMA crossover *)

Module Strategy.

(** The attributes of an instance.  [timeframe], the two EMA periods and
    [position] are never read and are left out. *)
Record t : Type := mk {
  symbol : string;
  risk_per_trade : Q;
  atr_stop_multiplier : Q;
  reward_risk_ratio : Q;
  use_trend_filter : bool;
  use_volatility_filter : bool;
  use_momentum_filter : bool;
  use_ema_slope_filter : bool;
  use_pullback_filter : bool;
  min_atr_multiplier : Q;
  pullback_lookback : nat;
  use_trailing_stop : bool;
  trailing_stop_activation : Q;
  trailing_stop_distance : Q;
  highest_profit : Q
}.

(** [Strategy()]: the class attributes and [__init__]. *)
Definition init : t :=
  mk "EURUSD" (5 # 1000) (25 # 10) (15 # 10)
     true true true true true 1 3%nat true (12 # 10) (12 # 10) 0.

Definition set_highest_profit (s : t) (hp : Q) : t :=
  mk (symbol s) (risk_per_trade s) (atr_stop_multiplier s)
     (reward_risk_ratio s) (use_trend_filter s) (use_volatility_filter s)
     (use_momentum_filter s) (use_ema_slope_filter s) (use_pullback_filter s)
     (min_atr_multiplier s) (pullback_lookback s) (use_trailing_stop s)
     (trailing_stop_activation s) (trailing_stop_distance s) hp.

(** The crossover scan: [for lookback in range(0, 6)]. *)
Fixpoint recent_crossover_loop (data : DataFrame) (idx : Z)
         (lookbacks : list Z) : result bool :=
  match lookbacks with
  | [] => Ok false
  | lookback :: rest =>
      if idx - lookback <? 0 then Ok false
      else
        prev <- iloc data (idx - lookback) ;;
        prev_prev <- iloc data (idx - lookback - 1) ;;
        if fle (ema_9 prev_prev) (ema_21 prev_prev)
           && fgt (ema_9 prev) (ema_21 prev)
        then Ok true
        else recent_crossover_loop data idx rest
  end.

(** The pullback scan: [for lookback in range(1, pullback_lookback + 1)]. *)
Fixpoint had_pullback_loop (data : DataFrame) (idx : Z)
         (lookbacks : list Z) : result bool :=
  match lookbacks with
  | [] => Ok false
  | lookback :: rest =>
      if idx - lookback <? 0 then Ok false
      else
        past_bar <- iloc data (idx - lookback) ;;
        if flt (Some (low past_bar)) (ema_9 past_bar) then Ok true
        else
          before <- iloc data (idx - lookback - 1) ;;
          if Qltb (close past_bar) (close before) then Ok true
          else had_pullback_loop data idx rest
  end.

Definition should_enter (s : t) (data : DataFrame) (idx : nat)
  : result (bool * t) :=
  if (idx <? 60)%nat then Ok (false, s)
  else
    let i := Z.of_nat idx in
    current <- iloc data i ;;
    previous <- iloc data (i - 1) ;;
    match ema_9 current, ema_21 current, atr_14 current,
          sma_50 current, atr_avg current with
    | Some e9, Some e21, Some atr, Some s50, Some aavg =>
        recent_crossover <-
          (if Qgtb e9 e21
           then recent_crossover_loop data i [0; 1; 2; 3; 4; 5]
           else Ok false) ;;
        if negb recent_crossover then Ok (false, s)
        else if use_trend_filter s
                && negb (Qgtb (close current) s50 && Qgtb e21 s50)
        then Ok (false, s)
        else if use_volatility_filter s
                && negb (Qgeb atr (aavg * min_atr_multiplier s))
        then Ok (false, s)
        else if use_momentum_filter s
                && negb (fgt (momentum_10 current) (Some 0%Q)
                         && fgt (momentum_10 current) (momentum_10 previous))
        then Ok (false, s)
        else if use_ema_slope_filter s
                && negb (fgt (Some e9) (ema_9 previous)
                         && fgt (Some e21) (ema_21 previous))
        then Ok (false, s)
        else
          had_pullback <-
            (if use_pullback_filter s
             then had_pullback_loop data i
                    (map Z.of_nat (seq 1 (pullback_lookback s)))
             else Ok true) ;;
          if negb had_pullback then Ok (false, s)
          else
            let price_above_emas :=
              Qgtb (close current) e9 && Qgtb (close current) e21 in
            let not_overextended := div_lt (close current - e9) atr 2 in
            if negb (price_above_emas && not_overextended) then Ok (false, s)
            else
              let sufficient_separation := div_gt (e9 - e21) atr (1 # 10) in
              if negb sufficient_separation then Ok (false, s)
              else Ok (true, set_highest_profit s 0)
    | _, _, _, _, _ => Ok (false, s)
    end.

Definition should_exit (s : t) (data : DataFrame) (idx : nat)
           (position : Position) : result (bool * option string * t) :=
  let i := Z.of_nat idx in
  current <- iloc data i ;;
  previous <- iloc data (i - 1) ;;
  pv <- symbol_point_value (symbol s) ;;
  let current_profit :=
    ((close current - p_entry_price position)
     * inject_Z (p_position_size position) * pv)%Q in
  let hp := if Qgtb current_profit (highest_profit s)
            then current_profit else highest_profit s in
  let s' := set_highest_profit s hp in
  if Qle_bool (low current) (p_stop_loss position)
  then Ok (true, Some "stop_loss"%string, s')
  else if Qgeb (high current) (p_take_profit position)
  then Ok (true, Some "take_profit"%string, s')
  else
    let risk_amount :=
      ((p_entry_price position - p_stop_loss position)
       * inject_Z (p_position_size position) * pv)%Q in
    let trailing_hit :=
      use_trailing_stop s
      && Qgtb hp (risk_amount * trailing_stop_activation s)
      && match atr_14 current with
         | None => false
         | Some atr =>
             let trailing_stop_level :=
               (close current - atr * trailing_stop_distance s)%Q in
             Qgtb trailing_stop_level (p_stop_loss position)
             && Qle_bool (low current) trailing_stop_level
         end in
    if trailing_hit then Ok (true, Some "trailing_stop"%string, s')
    else
      let was_above := fge (ema_9 previous) (ema_21 previous) in
      let is_below := flt (ema_9 current) (ema_21 current) in
      if was_above && is_below
      then Ok (true, Some "opposite_crossover"%string, s')
      else Ok (false, None, s').

(** [if hasattr(self.strategy, param): setattr(self.strategy, param, value)]
    for the float-valued attributes, the ones the grids of forward_test.py
    range over; any other name is skipped, as a name that is no attribute
    is in the source. *)
Definition setattr (s : t) (param : string) (value : Q) : t :=
  if String.eqb param "risk_per_trade" then
    mk (symbol s) value (atr_stop_multiplier s)
       (reward_risk_ratio s) (use_trend_filter s) (use_volatility_filter s)
       (use_momentum_filter s) (use_ema_slope_filter s) (use_pullback_filter s)
       (min_atr_multiplier s) (pullback_lookback s) (use_trailing_stop s)
       (trailing_stop_activation s) (trailing_stop_distance s)
       (highest_profit s)
  else if String.eqb param "atr_stop_multiplier" then
    mk (symbol s) (risk_per_trade s) value
       (reward_risk_ratio s) (use_trend_filter s) (use_volatility_filter s)
       (use_momentum_filter s) (use_ema_slope_filter s) (use_pullback_filter s)
       (min_atr_multiplier s) (pullback_lookback s) (use_trailing_stop s)
       (trailing_stop_activation s) (trailing_stop_distance s)
       (highest_profit s)
  else if String.eqb param "reward_risk_ratio" then
    mk (symbol s) (risk_per_trade s) (atr_stop_multiplier s)
       value (use_trend_filter s) (use_volatility_filter s)
       (use_momentum_filter s) (use_ema_slope_filter s) (use_pullback_filter s)
       (min_atr_multiplier s) (pullback_lookback s) (use_trailing_stop s)
       (trailing_stop_activation s) (trailing_stop_distance s)
       (highest_profit s)
  else if String.eqb param "min_atr_multiplier" then
    mk (symbol s) (risk_per_trade s) (atr_stop_multiplier s)
       (reward_risk_ratio s) (use_trend_filter s) (use_volatility_filter s)
       (use_momentum_filter s) (use_ema_slope_filter s) (use_pullback_filter s)
       value (pullback_lookback s) (use_trailing_stop s)
       (trailing_stop_activation s) (trailing_stop_distance s)
       (highest_profit s)
  else if String.eqb param "trailing_stop_activation" then
    mk (symbol s) (risk_per_trade s) (atr_stop_multiplier s)
       (reward_risk_ratio s) (use_trend_filter s) (use_volatility_filter s)
       (use_momentum_filter s) (use_ema_slope_filter s) (use_pullback_filter s)
       (min_atr_multiplier s) (pullback_lookback s) (use_trailing_stop s)
       value (trailing_stop_distance s) (highest_profit s)
  else if String.eqb param "trailing_stop_distance" then
    mk (symbol s) (risk_per_trade s) (atr_stop_multiplier s)
       (reward_risk_ratio s) (use_trend_filter s) (use_volatility_filter s)
       (use_momentum_filter s) (use_ema_slope_filter s) (use_pullback_filter s)
       (min_atr_multiplier s) (pullback_lookback s) (use_trailing_stop s)
       (trailing_stop_activation s) value (highest_profit s)
  else if String.eqb param "highest_profit" then set_highest_profit s value
  else s.

Definition class : StrategyClass t :=
  mkStrategyClass t symbol risk_per_trade atr_stop_multiplier
                  reward_risk_ratio should_enter should_exit setattr.

End Strategy.

(** ** class ForwardTestEngine (forward_test.py) *)

Definition params := list (string * Q).

Record Results : Type := mkResults {
  total_trades : nat;
  win_rate : Q;
  total_pnl : Q;
  profit_factor : Q;
  final_capital : Q;
  result_trades : list Trade
}.

(** The fitness of a trial; [best_score] starts at [-float('inf')]. *)
Inductive score : Type :=
| NegInf
| Score (q : Q).

Definition score_gt (s : Q) (best : score) : bool :=
  match best with
  | NegInf => true
  | Score b => Qgtb s b
  end.

Record Window : Type := mkWindow {
  window : nat;
  is_start : Z;
  is_end : Z;
  oos_start : Z;
  oos_end : Z;
  best_params : params;
  is_score : score;
  oos_results : Results
}.

(** The engine attributes ([strategy], [initial_capital], [account_value],
    [current_position], [trades]) are kept in [base]; its [equity_curve] is
    not an attribute of this class and stays empty. *)
Record ForwardTestEngine (S : Type) : Type := mkForwardTestEngine {
  base : Engine S;
  in_sample_bars : nat;
  out_sample_bars : nat;
  step_size : nat;
  all_windows : list Window;
  combined_trades : list Trade;
  oos_trades : list Trade
}.
Arguments mkForwardTestEngine {S}.
Arguments base {S}.
Arguments in_sample_bars {S}.
Arguments out_sample_bars {S}.
Arguments step_size {S}.
Arguments all_windows {S}.
Arguments combined_trades {S}.
Arguments oos_trades {S}.

(** [ForwardTestEngine.__init__] *)
Definition ForwardTestEngine_init {S : Type} (strat : S) (capital : Q)
  : ForwardTestEngine S :=
  mkForwardTestEngine (Engine_init strat capital)
                      10000%nat 5000%nat 2500%nat [] [] [].

Definition set_base {S} (ft : ForwardTestEngine S) (e : Engine S)
  : ForwardTestEngine S :=
  mkForwardTestEngine e (in_sample_bars ft) (out_sample_bars ft)
                      (step_size ft) (all_windows ft) (combined_trades ft)
                      (oos_trades ft).

(** Division that raises on a zero divisor, as Python's does on floats
    (numpy would give an infinity or NaN): the guards of the source then
    show in the model. *)
Definition pydiv (a b : Q) : result Q :=
  if Qeq_bool b 0 then Raise ZeroDivisionError else Ok (a / b)%Q.

Definition sum_pnl (ts : list Trade) : Q := fold_left Qplus (map pnl ts) 0%Q.
Definition winners (ts : list Trade) : list Trade :=
  filter (fun t => Qgtb (pnl t) 0) ts.
Definition losers (ts : list Trade) : list Trade :=
  filter (fun t => Qle_bool (pnl t) 0) ts.
Definition len (ts : list Trade) : Q := inject_Z (Z.of_nat (length ts)).
Definition mean_pnl (ts : list Trade) : result Q := pydiv (sum_pnl ts) (len ts).

(** The profit-factor lines of [_run_single_backtest]. *)
Definition compute_profit_factor (ts : list Trade) : result Q :=
  match ts with
  | [] => Ok 0%Q
  | _ :: _ =>
      avg_win <- (if (0 <? length (winners ts))%nat
                  then mean_pnl (winners ts) else Ok 0%Q) ;;
      avg_loss <- (if (0 <? length (losers ts))%nat
                   then mean_pnl (losers ts) else Ok 0%Q) ;;
      if negb (Qeq_bool avg_loss 0) && (0 <? length (losers ts))%nat then
        q <- pydiv (avg_win * len (winners ts)) (avg_loss * len (losers ts)) ;;
        Ok (Qabs q)
      else Ok 0%Q
  end.

Definition compute_win_rate (ts : list Trade) : result Q :=
  match ts with
  | [] => Ok 0%Q
  | _ :: _ =>
      if (0 <? length ts)%nat then
        q <- pydiv (len (winners ts)) (len ts) ;; Ok (q * 100)%Q
      else Ok 0%Q
  end.

Definition compute_total_pnl (ts : list Trade) : Q :=
  match ts with
  | [] => 0%Q
  | _ :: _ => sum_pnl ts
  end.

(** [_calculate_fitness_score] *)
Definition _calculate_fitness_score (r : Results) : Q :=
  (total_pnl r * (4 # 10)
   + profit_factor r * 1000 * (3 # 10)
   + win_rate r * 10 * (2 # 10)
   + inject_Z (Z.of_nat (total_trades r)) * (1 # 10))%Q.

(** [itertools.product] over the value lists: the last list varies
    fastest. *)
Fixpoint product (values : list (list Q)) : list (list Q) :=
  match values with
  | [] => [[]]
  | v :: rest => flat_map (fun x => map (cons x) (product rest)) v
  end.

(** [_generate_param_combinations] *)
Definition _generate_param_combinations (param_grid : list (string * list Q))
  : list params :=
  map (combine (map fst param_grid)) (product (map snd param_grid)).

Section ForwardTestDef.
Context {S : Type} (C : StrategyClass S).

(** Modelled from the spec: backtest.BacktestEngine, the base class of
    ForwardTestEngine, is not among the sources.  The spec knows one
    Backtest Engine, so its [_enter_trade] and [_exit_trade] are taken to
    be those of engine.Engine, [_exit_trade] handing back the Trade it has
    just recorded, which the caller appends to the list of its run. *)
Definition BacktestEngine_exit_trade (e : Engine S) (data : DataFrame)
           (idx : Z) (reason : option string) : result (Trade * Engine S) :=
  e' <- _exit_trade C e data idx reason ;;
  match rev (trades e') with
  | t :: _ => Ok (t, e')
  | [] => Raise TypeError
  end.

Definition BacktestEngine_enter_trade := _enter_trade C.

(** The loop over [params.items()]. *)
Definition set_params (s : S) (ps : params) : S :=
  fold_left (fun s' pv => setattr C s' (fst pv) (snd pv)) ps s.

(** One iteration of the bar loop of [_run_single_backtest]; [run_trades] is
    the local list [trades]. *)
Definition single_step (st : Engine S * list Trade) (data : DataFrame)
           (idx : nat) : result (Engine S * list Trade) :=
  let '(e, run_trades) := st in
  bar <- iloc data (Z.of_nat idx) ;;
  match current_position e with
  | Some pos =>
      '(ex, exit_reason, s') <- should_exit C (strategy e) data idx pos ;;
      let e1 := set_strategy e s' in
      if (ex : bool) then
        '(t, e2) <- BacktestEngine_exit_trade e1 data (Z.of_nat idx)
                                              exit_reason ;;
        Ok (e2, run_trades ++ [t])
      else Ok (e1, run_trades)
  | None =>
      '(en, s') <- should_enter C (strategy e) data idx ;;
      let e1 := set_strategy e s' in
      if (en : bool) then
        e2 <- BacktestEngine_enter_trade e1 data idx ;; Ok (e2, run_trades)
      else Ok (e1, run_trades)
  end.

Fixpoint single_loop (st : Engine S * list Trade) (data : DataFrame)
         (idxs : list nat) : result (Engine S * list Trade) :=
  match idxs with
  | [] => Ok st
  | idx :: rest => st' <- single_step st data idx ;; single_loop st' data rest
  end.

(** [ForwardTestEngine._run_single_backtest] *)
Definition _run_single_backtest (ft : ForwardTestEngine S) (data : DataFrame)
           (ps : params) : result (Results * ForwardTestEngine S) :=
  let e0 := set_strategy (base ft) (set_params (strategy (base ft)) ps) in
  '(e, run_trades) <- single_loop (e0, []) data (seq 0 (length data)) ;;
  wr <- compute_win_rate run_trades ;;
  pf <- compute_profit_factor run_trades ;;
  Ok (mkResults (length run_trades) wr (compute_total_pnl run_trades) pf
                (account_value e) run_trades,
      set_base ft e).

(** The loop of [_optimize_parameters] over the combinations. *)
Fixpoint optimize_loop (ft : ForwardTestEngine S) (data : DataFrame)
         (combos : list params) (best : option params * score)
  : result (option params * score * ForwardTestEngine S) :=
  match combos with
  | [] => Ok (best, ft)
  | ps :: rest =>
      '(results, ft') <- _run_single_backtest ft data ps ;;
      let sc := _calculate_fitness_score results in
      let best' := if score_gt sc (snd best) then (Some ps, Score sc)
                   else best in
      optimize_loop ft' data rest best'
  end.

(** [ForwardTestEngine._optimize_parameters] *)
Definition _optimize_parameters (ft : ForwardTestEngine S) (data : DataFrame)
           (param_grid : list (string * list Q))
  : result (option params * score * ForwardTestEngine S) :=
  optimize_loop ft data (_generate_param_combinations param_grid)
                (None, NegInf).

(** The body of the [while] loop of [run_walk_forward] for one window. *)
Definition window_step (ft : ForwardTestEngine S) (data : DataFrame)
           (param_grid : list (string * list Q)) (window_start : nat)
           (window_num : nat) : result (ForwardTestEngine S) :=
  let is_start := window_start in
  let is_end := (window_start + in_sample_bars ft)%nat in
  let oos_start := is_end in
  let oos_end := (oos_start + out_sample_bars ft)%nat in
  let is_data := iloc_slice data is_start is_end in
  let oos_data := iloc_slice data oos_start oos_end in
  is_first <- index_first is_data ;;
  is_last <- index_last is_data ;;
  oos_first <- index_first oos_data ;;
  oos_last <- index_last oos_data ;;
  '(best, best_score, ft1) <- _optimize_parameters ft is_data param_grid ;;
  match best with
  | None => Raise AttributeError
  | Some best_params =>
      '(oos_results, ft2) <- _run_single_backtest ft1 oos_data best_params ;;
      Ok (mkForwardTestEngine
            (base ft2) (in_sample_bars ft2) (out_sample_bars ft2)
            (step_size ft2)
            (all_windows ft2 ++
               [mkWindow window_num is_first is_last oos_first oos_last
                         best_params best_score oos_results])
            (combined_trades ft2)
            (oos_trades ft2 ++ result_trades oos_results))
  end.

(** The [while] loop of [run_walk_forward]; [None] when the fuel runs out
    (a zero [step_size] never leaves the loop). *)
Fixpoint walk_loop (fuel : nat) (ft : ForwardTestEngine S) (data : DataFrame)
         (param_grid : list (string * list Q)) (window_start : nat)
         (window_num : nat) : option (result (ForwardTestEngine S)) :=
  match fuel with
  | O => None
  | Datatypes.S fuel' =>
      if (window_start + in_sample_bars ft + out_sample_bars ft
          <=? length data)%nat then
        match window_step ft data param_grid window_start window_num with
        | Raise x => Some (Raise x)
        | Ok ft' =>
            walk_loop fuel' ft' data param_grid
                      (window_start + step_size ft')%nat
                      (Datatypes.S window_num)
        end
      else Some (Ok ft)
  end.

Definition default_param_grid : list (string * list Q) :=
  [ ("risk_per_trade"%string, [15 # 1000; 2 # 100; 25 # 1000]);
    ("atr_stop_multiplier"%string, [2; 25 # 10; 3]);
    ("reward_risk_ratio"%string, [3; 4; 5]) ]%Q.

(** [ForwardTestEngine.run_walk_forward], on the frame the pipeline has
    loaded; the summary printing and the saving are left out. *)
Definition run_walk_forward (ft : ForwardTestEngine S) (data : DataFrame)
           (param_grid : option (list (string * list Q)))
  : option (result (ForwardTestEngine S)) :=
  match index_first data with
  | Raise x => Some (Raise x)
  | Ok _ =>
      let grid := match param_grid with
                  | Some g => g
                  | None => default_param_grid
                  end in
      walk_loop (Datatypes.S (length data)) ft data grid 0%nat 1%nat
  end.
End ForwardTestDef.

(** ** A recording proxy around a strategy

    [spy C] behaves as [C] and appends to a log, kept beside the instance,
    which of the two decision methods the engine has called and for which
    bar. *)

Inductive call : Type :=
| CallEnter (idx : nat)
| CallExit (idx : nat).

Definition call_idx (c : call) : nat :=
  match c with
  | CallEnter idx => idx
  | CallExit idx => idx
  end.

Definition spy {S : Type} (C : StrategyClass S) : StrategyClass (S * list call) :=
  mkStrategyClass (S * list call)
    (fun s => symbol C (fst s))
    (fun s => risk_per_trade C (fst s))
    (fun s => atr_stop_multiplier C (fst s))
    (fun s => reward_risk_ratio C (fst s))
    (fun s data idx =>
       '(en, s') <- should_enter C (fst s) data idx ;;
       Ok (en, (s', snd s ++ [CallEnter idx])))
    (fun s data idx pos =>
       '(ex, reason, s') <- should_exit C (fst s) data idx pos ;;
       Ok (ex, reason, (s', snd s ++ [CallExit idx])))
    (fun s param value => (setattr C (fst s) param value, snd s)).


(** Timestamps in strictly ascending order. *)
Fixpoint strictly_increasing (ts : list Z) : bool :=
  match ts with
  | [] => true
  | t :: rest =>
      forallb (fun u => t <? u) rest && strictly_increasing rest
  end.

(** ** Concrete bars

    Sixty quiet bars followed by one bar on which every entry filter of
    [Strategy.should_enter] passes (a 9/21 crossover on the bar itself).
    [lo] is the low of the quiet bars. *)

Definition quiet_bar (lo : Q) (t : nat) : Bar :=
  mkBar (Z.of_nat t) 100 101 lo 100 1000
        (Some 2%Q) (Some 2%Q) (Some 100%Q) (Some 100%Q)
        (Some 100%Q) (Some 99%Q) (Some 50%Q) (Some 0%Q).

Definition signal_bar (t : nat) : Bar :=
  mkBar (Z.of_nat t) 103 104 100 100 1000
        (Some 2%Q) (Some 2%Q) (Some 101%Q) (Some (201 # 2)%Q)
        (Some 100%Q) (Some 99%Q) (Some 60%Q) (Some 3%Q).

Definition bars61 (lo : Q) : DataFrame :=
  map (quiet_bar lo) (seq 0 60) ++ [signal_bar 60].

(** The same sixty-one bars twice over, with timestamps 0..121. *)
Definition bars122 (lo : Q) : DataFrame :=
  bars61 lo
  ++ map (quiet_bar lo) (seq 61 60) ++ [signal_bar 121].

Definition engine0 : Engine Strategy.t := Engine_init Strategy.init 100000.

Definition wf0 : ForwardTestEngine Strategy.t :=
  ForwardTestEngine_init Strategy.init 100000.

(** [wf0] after [in_sample_bars], [out_sample_bars] and [step_size] have
    been set to 61. *)
Definition wf61 : ForwardTestEngine Strategy.t :=
  mkForwardTestEngine (base wf0) 61%nat 61%nat 61%nat [] [] [].

Definition risk (q : Q) : params := [("risk_per_trade"%string, q)].


(** ** Predicates used in the statements *)

(** How a call changes the books: not at all, or by one trade whose PnL is
    added to the account. *)
Definition books_kept {S : Type} (e e' : Engine S) : Prop :=
  account_value e' = account_value e /\ trades e' = trades e.

Definition books_one_trade {S : Type} (e e' : Engine S) : Prop :=
  exists t, trades e' = trades e ++ [t]
            /\ account_value e' = (account_value e + pnl t)%Q
            /\ equity_after t = account_value e'.

(** The invariant of equity conservation. *)
Definition conserved {S : Type} (e : Engine S) : Prop :=
  (account_value e == initial_capital e + sum_pnl (trades e))%Q.

(** [engine0] once it has entered on the last of the sixty-one bars. *)
Definition engine_in_trade : Engine Strategy.t :=
  match _enter_trade Strategy.class engine0 (bars61 99) 60 with
  | Ok e => e
  | Raise _ => engine0
  end.

Definition position_in_trade : Position :=
  mkPosition 60 103 10 (980 # 10) (11050 # 100) 100000.

(** [engine_in_trade] once the forced closure has been applied. *)
Definition engine_closed : Engine Strategy.t :=
  match _exit_trade Strategy.class engine_in_trade (bars61 99) 60
                    (Some "end_of_data"%string) with
  | Ok e => e
  | Raise _ => engine_in_trade
  end.

(** The open position, if any, was entered on one of the first [k] bars. *)
Definition entered_before {S : Type} (data : DataFrame) (k : nat)
           (e : Engine S) : Prop :=
  forall p, current_position e = Some p ->
    exists j b, (j < k)%nat /\ nth_error data j = Some b
                /\ p_entry_time p = name b.

(** Every recorded trade left strictly after it entered. *)
Definition trades_ordered {S : Type} (e : Engine S) : Prop :=
  forall t, In t (trades e) -> entry_time t < exit_time t.

(** [engine0] after [run_backtest] on the sixty-one bars. *)
Definition engine_closed_run : Engine Strategy.t :=
  match run_backtest Strategy.class engine0 (bars61 99) with
  | Ok e => e
  | Raise _ => engine0
  end.

(** Three trials in a row on one engine, as the grid search of
    [_optimize_parameters] runs them for
    [{'risk_per_trade': [0.01, 0.02, 0.03]}]. *)
Definition three_trials
  : result (Results * Results * Results * ForwardTestEngine Strategy.t) :=
  '(r1, ft1) <- _run_single_backtest Strategy.class wf0 (bars61 97)
                                     (risk (1 # 100)) ;;
  '(r2, ft2) <- _run_single_backtest Strategy.class ft1 (bars61 97)
                                     (risk (2 # 100)) ;;
  '(r3, ft3) <- _run_single_backtest Strategy.class ft2 (bars61 97)
                                     (risk (3 # 100)) ;;
  Ok (r1, r2, r3, ft3).

Definition risk_grid : list (string * list Q) :=
  [("risk_per_trade"%string, [1 # 100; 2 # 100])].

Definition stop_grid : list (string * list Q) :=
  [("atr_stop_multiplier"%string, [0%Q; (25 # 10)%Q])].

Definition stop_zero : params := [("atr_stop_multiplier"%string, 0%Q)].
Definition stop_wide : params := [("atr_stop_multiplier"%string, (25 # 10)%Q)].

(** ** The profit factor in the spec's words

    [mean] is the arithmetic mean; in [Q] the quotient by zero is zero, so
    the mean of no trades is zero. *)
Definition mean (ts : list Trade) : Q := (sum_pnl ts / len ts)%Q.








(** The trade that run has recorded. *)
Definition closing_trade : Trade :=
  nth 0 (trades engine_closed_run) (mkTrade 0 0 0 0 0 0 None None 0).

(** The sizing scenario of the spec: risk 2 percent of 100000 with an ATR
    of 10 and a stop multiplier of 2. *)
Definition sizing_strategy : Strategy.t :=
  Strategy.setattr (Strategy.setattr Strategy.init "risk_per_trade" (2 # 100))
                   "atr_stop_multiplier" 2.

Definition sizing_bar : Bar :=
  mkBar 0 100 101 99 100 1000
        (Some 10%Q) (Some 10%Q) (Some 100%Q) (Some 100%Q)
        (Some 100%Q) (Some 99%Q) (Some 50%Q) (Some 0%Q).

(** The grid of the main block of forward_test.py. *)
Definition main_param_grid : list (string * list Q) :=
  [ ("risk_per_trade"%string, [1 # 100; 2 # 100]);
    ("atr_stop_multiplier"%string, [15 # 10; 35 # 10]);
    ("reward_risk_ratio"%string, [2; 5]) ]%Q.

(** A hundred bars: the sixty-one above and thirty-nine more quiet ones, on
    which neither the stop nor the target nor a crossover is hit. *)
Definition bars100 : DataFrame :=
  bars61 99 ++ map (quiet_bar 99) (seq 61 39).

(** ** Predicates for runs of the EMA strategy

    [m] and [rr] are the stop multiplier and the reward/risk ratio of the
    strategy, [pv] the point value of its symbol. *)
Definition sound_position (m rr : Q) (pos : Position) : Prop :=
  1 <= p_position_size pos
  /\ ((0 < m)%Q -> (p_stop_loss pos < p_entry_price pos)%Q)
  /\ ((0 < m)%Q -> (0 < rr)%Q -> (p_entry_price pos < p_take_profit pos)%Q).

Definition sound_trade (m rr pv : Q) (t : Trade) : Prop :=
  1 <= position_size t
  /\ pnl t = ((exit_price t - entry_price t)
              * inject_Z (position_size t) * pv)%Q
  /\ ((0 < m)%Q -> exit_reason t = Some "stop_loss"%string -> (pnl t < 0)%Q)
  /\ ((0 < m)%Q -> (0 < rr)%Q ->
      exit_reason t = Some "take_profit"%string -> (0 < pnl t)%Q).

Definition ema_inv (sym : string) (m rr pv : Q) (e : Engine Strategy.t)
  : Prop :=
  Strategy.symbol (strategy e) = sym
  /\ Strategy.atr_stop_multiplier (strategy e) = m
  /\ Strategy.reward_risk_ratio (strategy e) = rr
  /\ (forall pos, current_position e = Some pos -> sound_position m rr pos)
  /\ Forall (sound_trade m rr pv) (trades e).

(** The position [engine_in_trade] holds, for the stop-loss checks. *)
Definition stop_bar : Bar :=
  mkBar 61 97 99 96 98 1000
        (Some 2%Q) (Some 2%Q) (Some 100%Q) (Some 100%Q)
        (Some 100%Q) (Some 99%Q) (Some 40%Q) (Some (- (3))%Q).

(** The sixty-one bars and one more whose low is under the stop of the
    position entered on bar 60. *)
Definition bars62 : DataFrame := bars61 99 ++ [stop_bar].

Definition engine_stopped_run : Engine Strategy.t :=
  match run_backtest Strategy.class engine0 bars62 with
  | Ok e => e
  | Raise _ => engine0
  end.

(** ** Running balances

    [balances start ts]: the [equity_after] of each trade is the balance
    before it plus its PnL, starting from [start]; [final_balance] is the
    balance after the last trade. *)
Fixpoint balances (start : Q) (ts : list Trade) : Prop :=
  match ts with
  | [] => True
  | t :: rest =>
      equity_after t = (start + pnl t)%Q /\ balances (equity_after t) rest
  end.

Definition final_balance (start : Q) (ts : list Trade) : Q :=
  fold_left (fun _ t => equity_after t) ts start.

(** ** The trials of a grid search

    The fitness of each combination in turn, each trial run on the engine
    as the trial before has left it. *)
Fixpoint trial_runs {S : Type} (C : StrategyClass S)
         (ft : ForwardTestEngine S) (data : DataFrame) (combos : list params)
  : result (list (params * Q)) :=
  match combos with
  | [] => Ok []
  | ps :: rest =>
      '(r, ft') <- _run_single_backtest C ft data ps ;;
      runs <- trial_runs C ft' data rest ;;
      Ok ((ps, _calculate_fitness_score r) :: runs)
  end.

(** The number of points of a grid: the product of the lengths of its
    value lists. *)
Definition grid_size (param_grid : list (string * list Q)) : nat :=
  fold_right (fun kv n => (length (snd kv) * n)%nat) 1%nat param_grid.

(** The grid search over [risk_grid] on the sixty-one bars. *)
Definition risk_search
  : option params * score * ForwardTestEngine Strategy.t :=
  match _optimize_parameters Strategy.class wf0 (bars61 97) risk_grid with
  | Ok x => x
  | Raise _ => (None, NegInf, wf0)
  end.

(** ** The windows of a walk-forward run

    [window_at data ft a num w]: [w] is the record of the window numbered
    [num] whose in-sample span starts at position [a] of the frame: its four
    timestamps are those of the first and last in-sample bar and of the
    first and last out-of-sample bar, the out-of-sample span starting right
    after the in-sample one. *)
Definition window_at {S : Type} (data : DataFrame) (ft : ForwardTestEngine S)
           (a num : nat) (w : Window) : Prop :=
  window w = num
  /\ (0 < in_sample_bars ft)%nat /\ (0 < out_sample_bars ft)%nat
  /\ exists b1 b2 b3 b4,
       nth_error data a = Some b1 /\ is_start w = name b1
       /\ nth_error data (a + in_sample_bars ft - 1) = Some b2
       /\ is_end w = name b2
       /\ nth_error data (a + in_sample_bars ft) = Some b3
       /\ oos_start w = name b3
       /\ nth_error data (a + in_sample_bars ft + out_sample_bars ft - 1)
          = Some b4
       /\ oos_end w = name b4.

Definition window_trades (ws : list Window) : list Trade :=
  concat (map (fun w => result_trades (oos_results w)) ws).

(** Two states of a ForwardTestEngine that differ in the engine attributes
    only. *)
Definition same_setup {S : Type} (ft ft' : ForwardTestEngine S) : Prop :=
  in_sample_bars ft' = in_sample_bars ft
  /\ out_sample_bars ft' = out_sample_bars ft
  /\ step_size ft' = step_size ft
  /\ all_windows ft' = all_windows ft
  /\ oos_trades ft' = oos_trades ft
  /\ combined_trades ft' = combined_trades ft.

(** [r] is what some call of [_run_single_backtest] has returned. *)
Definition produced {S : Type} (C : StrategyClass S) (r : Results) : Prop :=
  exists ft data ps ft', _run_single_backtest C ft data ps = Ok (r, ft').

(** The totals of [_print_summary]. *)
Definition total_oos_pnl {S : Type} (ft : ForwardTestEngine S) : Q :=
  fold_left Qplus (map (fun w => total_pnl (oos_results w)) (all_windows ft))
            0%Q.

Definition total_oos_trades {S : Type} (ft : ForwardTestEngine S) : nat :=
  fold_left Nat.add
            (map (fun w => total_trades (oos_results w)) (all_windows ft))
            0%nat.

(** The third of the three trials: its results, the engine it started
    from and the engine it left. *)
Definition three_trials_result
  : Results * ForwardTestEngine Strategy.t * ForwardTestEngine Strategy.t :=
  match _run_single_backtest Strategy.class wf0 (bars61 97) (risk (1 # 100)) with
  | Ok (_, ft1) =>
      match _run_single_backtest Strategy.class ft1 (bars61 97)
                                 (risk (2 # 100)) with
      | Ok (r2, ft2) =>
          match _run_single_backtest Strategy.class ft2 (bars61 97)
                                     (risk (3 # 100)) with
          | Ok (r3, ft3) => (r3, ft2, ft3)
          | Raise _ => (r2, wf0, wf0)
          end
      | Raise _ => (mkResults 0 0 0 0 0 [], wf0, wf0)
      end
  | Raise _ => (mkResults 0 0 0 0 0 [], wf0, wf0)
  end.

(** The walk-forward run of [wf61] on the 122 bars. *)
Definition walked : ForwardTestEngine Strategy.t :=
  match run_walk_forward Strategy.class wf61 (bars122 97) (Some risk_grid) with
  | Some (Ok ft) => ft
  | _ => wf61
  end.

(** A grid with a parameter that has no candidate value. *)
Definition hollow_grid : list (string * list Q) :=
  [ ("risk_per_trade"%string, [(1 # 100)%Q]);
    ("atr_stop_multiplier"%string, []) ].

(** [pd.isna] on a cell. *)
Definition isna_cell (a : cell) : bool :=
  match a with
  | None => true
  | Some _ => false
  end.

(** ** class Strategy of strategy_sma.py: the 20/50 SMA golden cross *)

Module StrategySMA.

(** The attributes of an instance; [timeframe] and [position] are never
    read. *)
Record t : Type := mk {
  symbol : string;
  fast_sma_period : nat;
  slow_sma_period : nat;
  risk_per_trade : Q;
  atr_stop_multiplier : Q;
  reward_risk_ratio : Q;
  exit_on_cross : bool;
  use_stop_loss : bool;
  use_take_profit : bool
}.

Definition init : t :=
  mk "EURUSD" 20 50 (15 # 1000) 3 4 true true false.

Definition should_enter (s : t) (data : DataFrame) (idx : nat)
  : result (bool * t) :=
  if (idx <? Nat.max (fast_sma_period s) (slow_sma_period s) + 5)%nat
  then Ok (false, s)
  else
    let i := Z.of_nat idx in
    current <- iloc data i ;;
    previous <- iloc data (i - 1) ;;
    if isna_cell (sma_20 current) || isna_cell (sma_50 current)
    then Ok (false, s)
    else
      let was_below := fle (sma_20 previous) (sma_50 previous) in
      let is_above := fgt (sma_20 current) (sma_50 current) in
      let golden_cross := was_below && is_above in
      if negb golden_cross then Ok (false, s)
      else
        let price_above_smas :=
          fgt (Some (close current)) (sma_20 current)
          && fgt (Some (close current)) (sma_50 current) in
        if negb price_above_smas then Ok (false, s)
        else Ok (true, s).

(** The key ['take_profit'] is in every position the engine builds. *)
Definition should_exit (s : t) (data : DataFrame) (idx : nat)
           (position : Position) : result (bool * option string * t) :=
  let i := Z.of_nat idx in
  current <- iloc data i ;;
  previous <- iloc data (i - 1) ;;
  if use_stop_loss s && Qle_bool (low current) (p_stop_loss position)
  then Ok (true, Some "stop_loss"%string, s)
  else if use_take_profit s
          && Qgeb (high current) (p_take_profit position)
  then Ok (true, Some "take_profit"%string, s)
  else if exit_on_cross s
          && (fge (sma_20 previous) (sma_50 previous)
              && flt (sma_20 current) (sma_50 current))
  then Ok (true, Some "death_cross"%string, s)
  else if flt (Some (close current)) (sma_50 current)
  then Ok (true, Some "sma_breakdown"%string, s)
  else Ok (false, None, s).

(** As for the EMA strategy: the float-valued attributes. *)
Definition setattr (s : t) (param : string) (value : Q) : t :=
  if String.eqb param "risk_per_trade" then
    mk (symbol s) (fast_sma_period s) (slow_sma_period s) value
       (atr_stop_multiplier s) (reward_risk_ratio s) (exit_on_cross s)
       (use_stop_loss s) (use_take_profit s)
  else if String.eqb param "atr_stop_multiplier" then
    mk (symbol s) (fast_sma_period s) (slow_sma_period s) (risk_per_trade s)
       value (reward_risk_ratio s) (exit_on_cross s)
       (use_stop_loss s) (use_take_profit s)
  else if String.eqb param "reward_risk_ratio" then
    mk (symbol s) (fast_sma_period s) (slow_sma_period s) (risk_per_trade s)
       (atr_stop_multiplier s) value (exit_on_cross s)
       (use_stop_loss s) (use_take_profit s)
  else s.

Definition class : StrategyClass t :=
  mkStrategyClass t symbol risk_per_trade atr_stop_multiplier
                  reward_risk_ratio should_enter should_exit setattr.

End StrategySMA.

(** ** class Strategy of strategy_mrp.py: the mean-reversion pullback *)

Module StrategyMRP.

Record t : Type := mk {
  symbol : string;
  risk_per_trade : Q;
  atr_stop_multiplier : Q;
  rsi_oversold : Q;
  use_ema_target : bool;
  use_fixed_target : bool;
  reward_risk_ratio : Q
}.

Definition init : t :=
  mk "EURUSD" (2 # 100) 2 40 true false 2.

Definition should_enter (s : t) (data : DataFrame) (idx : nat)
  : result (bool * t) :=
  if (idx <? 60)%nat then Ok (false, s)
  else
    let i := Z.of_nat idx in
    current <- iloc data i ;;
    previous <- iloc data (i - 1) ;;
    match ema_9 current, ema_21 current, sma_50 current,
          atr_14 current, rsi current with
    | Some e9, Some e21, Some s50, Some atr, Some r =>
        let in_uptrend := Qgtb (close current) s50 in
        if negb in_uptrend then Ok (false, s)
        else
          let at_or_below_ema21 := Qle_bool (close current) e21 in
          let not_too_far := Qgtb (close current) (e21 - 2 * atr) in
          if negb (at_or_below_ema21 && not_too_far) then Ok (false, s)
          else
            let is_oversold := Qltb r (rsi_oversold s) in
            if negb is_oversold then Ok (false, s)
            else
              let bullish_close := Qgtb (close current) (close previous) in
              let candle_range := (high current - low current)%Q in
              let close_position :=
                if Qgtb candle_range 0
                then ((close current - low current) / candle_range)%Q
                else 0%Q in
              let bullish_candle := Qgtb close_position (6 # 10) in
              let reversal_signal := bullish_close || bullish_candle in
              if negb reversal_signal then Ok (false, s)
              else Ok (true, s)
    | _, _, _, _, _ => Ok (false, s)
    end.

Definition should_exit (s : t) (data : DataFrame) (idx : nat)
           (position : Position) : result (bool * option string * t) :=
  current <- iloc data (Z.of_nat idx) ;;
  if Qle_bool (low current) (p_stop_loss position)
  then Ok (true, Some "stop_loss"%string, s)
  else if use_ema_target s && fge (Some (high current)) (ema_9 current)
  then Ok (true, Some "ema_target"%string, s)
  else if use_fixed_target s
          && Qgeb (high current) (p_take_profit position)
  then Ok (true, Some "take_profit"%string, s)
  else if fgt (rsi current) (Some 70%Q)
  then Ok (true, Some "overbought"%string, s)
  else if flt (Some (close current))
              (match ema_21 current, atr_14 current with
               | Some e21, Some atr => Some (e21 - atr)%Q
               | _, _ => None
               end)
  then Ok (true, Some "breakdown"%string, s)
  else Ok (false, None, s).

Definition setattr (s : t) (param : string) (value : Q) : t :=
  if String.eqb param "risk_per_trade" then
    mk (symbol s) value (atr_stop_multiplier s) (rsi_oversold s)
       (use_ema_target s) (use_fixed_target s) (reward_risk_ratio s)
  else if String.eqb param "atr_stop_multiplier" then
    mk (symbol s) (risk_per_trade s) value (rsi_oversold s)
       (use_ema_target s) (use_fixed_target s) (reward_risk_ratio s)
  else if String.eqb param "rsi_oversold" then
    mk (symbol s) (risk_per_trade s) (atr_stop_multiplier s) value
       (use_ema_target s) (use_fixed_target s) (reward_risk_ratio s)
  else if String.eqb param "reward_risk_ratio" then
    mk (symbol s) (risk_per_trade s) (atr_stop_multiplier s) (rsi_oversold s)
       (use_ema_target s) (use_fixed_target s) value
  else s.

Definition class : StrategyClass t :=
  mkStrategyClass t symbol risk_per_trade atr_stop_multiplier
                  reward_risk_ratio should_enter should_exit setattr.

End StrategyMRP.

(** Bars for the SMA strategy: fifty-five bars with the 20 SMA on the 50
    SMA, then a golden cross with the close above both; [atr] is the ATR
    cell of the crossing bar. *)
Definition level_bar (t : nat) : Bar :=
  mkBar (Z.of_nat t) 100 101 99 100 1000
        (Some 2%Q) (Some 2%Q) (Some 100%Q) (Some 100%Q)
        (Some 100%Q) (Some 100%Q) (Some 50%Q) (Some 0%Q).

Definition cross_bar (atr : cell) (t : nat) : Bar :=
  mkBar (Z.of_nat t) 103 104 100 100 1000
        atr (Some 2%Q) (Some 101%Q) (Some (201 # 2)%Q)
        (Some 101%Q) (Some 100%Q) (Some 60%Q) (Some 3%Q).

Definition sma_bars (atr : cell) : DataFrame :=
  map level_bar (seq 0 55) ++ [cross_bar atr 55].

(** Bars for the pullback strategy: sixty quiet bars, then a close above
    the 50 SMA and under the 21 EMA with an RSI of 30 and a bullish
    close. *)
Definition pullback_bar (t : nat) : Bar :=
  mkBar (Z.of_nat t) 101 (203 # 2) 100 100 1000
        (Some 2%Q) (Some 2%Q) (Some 103%Q) (Some 102%Q)
        (Some 100%Q) (Some 99%Q) (Some 30%Q) (Some 1%Q).

Definition mrp_bars : DataFrame :=
  map (quiet_bar 99) (seq 0 60) ++ [pullback_bar 60].

(** ** DataPipeline._add_indicators (data_pipeline.py)

    The frame before the indicators are added: the index and the five
    columns that [load_data_local] names. *)
Record Row : Type := mkRow {
  row_name : Z;
  row_close : Q;
  row_high : Q;
  row_low : Q;
  row_open : Q;
  row_volume : Q
}.

(** [Series.shift(k)]: the first [k] cells become NaN. *)
Definition shift (k : nat) (xs : list cell) : list cell :=
  repeat None (Nat.min k (length xs)) ++ firstn (length xs - k) xs.

(** The cells of a list when none is NaN. *)
Fixpoint all_cells (l : list cell) : option (list Q) :=
  match l with
  | [] => Some []
  | None :: _ => None
  | Some x :: rest =>
      match all_cells rest with
      | Some xs => Some (x :: xs)
      | None => None
      end
  end.

Definition mean_cells (l : list cell) : cell :=
  match all_cells l with
  | Some xs =>
      Some (fold_left Qplus xs 0 / inject_Z (Z.of_nat (length xs)))%Q
  | None => None
  end.

(** The [w] cells that end at position [i]. *)
Definition window_cells (w i : nat) (xs : list cell) : list cell :=
  firstn w (skipn (Datatypes.S i - w) xs).

(** [Series.rolling(window=w).mean()]: NaN until [w] cells are there and
    whenever one of the [w] cells is NaN. *)
Definition rolling_mean (w : nat) (xs : list cell) : list cell :=
  map (fun i => if (Datatypes.S i <? w)%nat then None
                else mean_cells (window_cells w i xs))
      (seq 0 (length xs)).

(** [Series.ewm(span=span, adjust=False).mean()] on a column without NaN:
    y_0 = x_0 and y_t = (1 - a) y_(t-1) + a x_t with a = 2 / (span + 1). *)
Fixpoint ewm_from (a prev : Q) (xs : list Q) : list Q :=
  match xs with
  | [] => []
  | x :: rest =>
      let y := ((1 - a) * prev + a * x)%Q in
      y :: ewm_from a y rest
  end.

Definition ewm (span : Z) (xs : list Q) : list Q :=
  match xs with
  | [] => []
  | x :: rest => x :: ewm_from (2 / (inject_Z span + 1)) x rest
  end.

(** A binary operation on cells, NaN when either side is. *)
Definition cell_op (f : Q -> Q -> Q) (a b : cell) : cell :=
  match a, b with
  | Some x, Some y => Some (f x y)
  | _, _ => None
  end.

(** The maximum over a row of cells that skips NaN ([max(axis=1)]). *)
Definition cell_max (a b : cell) : cell :=
  match a, b with
  | Some x, Some y => Some (if Qle_bool x y then y else x)
  | Some x, None => Some x
  | None, b' => b'
  end.

Definition zip_with {A B D : Type} (f : A -> B -> D) (l1 : list A)
           (l2 : list B) : list D :=
  map (fun p => f (fst p) (snd p)) (combine l1 l2).

(** [100 - 100 / (1 + gain / loss)] on floats: a zero loss gives an
    infinite ratio and an RSI of 100, or NaN when the gain is zero too. *)
Definition rsi_cell (gain loss : cell) : cell :=
  match gain, loss with
  | Some g, Some l =>
      if Qeq_bool l 0 then (if Qeq_bool g 0 then None else Some 100%Q)
      else Some (100 - 100 / (1 + g / l))%Q
  | _, _ => None
  end.

Definition nth_cell (l : list cell) (i : nat) : cell :=
  match nth_error l i with
  | Some c => c
  | None => None
  end.

Definition _add_indicators (rows : list Row) : DataFrame :=
  let close_c := map (fun r => Some (row_close r)) rows in
  let high_c := map (fun r => Some (row_high r)) rows in
  let low_c := map (fun r => Some (row_low r)) rows in
  let high_low := zip_with (cell_op Qminus) high_c low_c in
  let high_close :=
    map (option_map Qabs) (zip_with (cell_op Qminus) high_c (shift 1 close_c)) in
  let low_close :=
    map (option_map Qabs) (zip_with (cell_op Qminus) low_c (shift 1 close_c)) in
  let true_range :=
    zip_with cell_max (zip_with cell_max high_low high_close) low_close in
  let atr_14_c := rolling_mean 14 true_range in
  let atr_avg_c := rolling_mean 50 atr_14_c in
  let ema_9_c := map Some (ewm 9 (map row_close rows)) in
  let ema_21_c := map Some (ewm 21 (map row_close rows)) in
  let sma_20_c := rolling_mean 20 close_c in
  let sma_50_c := rolling_mean 50 close_c in
  let delta := zip_with (cell_op Qminus) close_c (shift 1 close_c) in
  let gains :=
    map (fun d => match d with
                  | Some x => if Qgtb x 0 then Some x else Some 0%Q
                  | None => Some 0%Q
                  end) delta in
  let losses :=
    map (fun d => match d with
                  | Some x => if Qltb x 0 then Some (- x)%Q else Some (- 0)%Q
                  | None => Some (- 0)%Q
                  end) delta in
  let gain := rolling_mean 14 gains in
  let loss := rolling_mean 14 losses in
  let rsi_c := zip_with rsi_cell gain loss in
  let momentum_c := zip_with (cell_op Qminus) close_c (shift 10 close_c) in
  map (fun ir =>
         let i := fst ir in
         let r := snd ir in
         mkBar (row_name r) (row_close r) (row_high r) (row_low r)
               (row_open r) (row_volume r)
               (nth_cell atr_14_c i) (nth_cell atr_avg_c i)
               (nth_cell ema_9_c i) (nth_cell ema_21_c i)
               (nth_cell sma_20_c i) (nth_cell sma_50_c i)
               (nth_cell rsi_c i) (nth_cell momentum_c i))
      (combine (seq 0 (length rows)) rows).

(** Seventy rows of a slowly rising market. *)
Definition rising_rows : list Row :=
  map (fun i => mkRow (Z.of_nat i)
                      (100 + inject_Z (Z.of_nat i))
                      (101 + inject_Z (Z.of_nat i))
                      (99 + inject_Z (Z.of_nat i))
                      (100 + inject_Z (Z.of_nat i)) 1000)
      (seq 0 70).

(** A column whose NaN cells are exactly its first [k]. *)
Definition nan_prefix (k : nat) (xs : list cell) : Prop :=
  forall j c, nth_error xs j = Some c -> (c = None <-> (j < k)%nat).

(** A column without NaN. *)
Definition full (xs : list cell) : Prop := Forall (fun c => c <> None) xs.

(** The frame of [rising_rows] with its indicator columns. *)
Definition rising_frame : DataFrame := _add_indicators rising_rows.

Definition rising_bar (i : nat) : Bar := nth i rising_frame (quiet_bar 0 0).

(** A column of cells that are all numbers, none negative. *)
Definition nonneg_col (xs : list cell) : Prop :=
  Forall (fun c => exists x, c = Some x /\ (0 <= x)%Q) xs.

(** Every close of the rows lies between [lo] and [hi]. *)
Definition closes_within (lo hi : Q) (rows : list Row) : bool :=
  forallb (fun r => Qle_bool lo (row_close r) && Qle_bool (row_close r) hi)
          rows.

(** ** diagnostics.py: the consistency check of [run_diagnostics]

    The check works on the column [is_win = pnl > 0] of the trades; it
    is reached only when there is at least one trade. *)

(** The loop over [range(1, len(trades_df))]: [prev] is the flag of the
    trade before. *)
Fixpoint streaks_loop (is_win : list bool) (prev : bool)
         (current_streak : nat) (streaks : list nat) : list nat * nat :=
  match is_win with
  | [] => (streaks, current_streak)
  | w :: rest =>
      if Bool.eqb w prev
      then streaks_loop rest w (Datatypes.S current_streak) streaks
      else streaks_loop rest w 1%nat (streaks ++ [current_streak])
  end.

Definition streaks_of (is_win : list bool) : list nat :=
  match is_win with
  | [] => [1%nat]
  | w :: rest =>
      let '(streaks, current_streak) := streaks_loop rest w 1%nat [] in
      streaks ++ [current_streak]
  end.

(** [[s for i, s in enumerate(streaks) if trades_df.iloc[i]['is_win']]]
    (and its negation for [keep = false]): streak number [i] is kept by
    the flag of trade number [i]. *)
Fixpoint select_streaks (keep : bool) (is_win : list bool) (i : nat)
         (streaks : list nat) : result (list nat) :=
  match streaks with
  | [] => Ok []
  | s :: rest =>
      match nth_error is_win i with
      | None => Raise IndexError
      | Some w =>
          rest' <- select_streaks keep is_win (Datatypes.S i) rest ;;
          Ok (if Bool.eqb w keep then s :: rest' else rest')
      end
  end.

(** [max] of a list: ValueError on the empty list. *)
Definition py_max (l : list nat) : result nat :=
  match l with
  | [] => Raise ValueError
  | x :: rest => Ok (fold_left Nat.max rest x)
  end.

(** The two lines printed: the longest winning and the longest losing
    streak. *)
Definition streak_report (trades : list Trade) : result (nat * nat) :=
  let is_win := map (fun t => Qgtb (pnl t) 0) trades in
  let streaks := streaks_of is_win in
  winning <- select_streaks true is_win 0 streaks ;;
  longest_winning <- py_max winning ;;
  losing <- select_streaks false is_win 0 streaks ;;
  longest_losing <- py_max losing ;;
  Ok (longest_winning, longest_losing).

Definition trade_of_pnl (p : Q) : Trade :=
  mkTrade 0 1 100 101 1 p None None 100000.
(** * Properties *)

(** ** The error monad *)

Lemma bind_Ok {A B : Type} (m : result A) (k : A -> result B) (b : B) :
  bind m k = Ok b -> exists a, m = Ok a /\ k a = Ok b.
Proof.
  destruct m as [a | x]; simpl; intros H.
  - exists a. split; [reflexivity | exact H].
  - discriminate H.
Qed.

Lemma bind_Raise {A B : Type} (m : result A) (k : A -> result B) (x : exn) :
  m = Raise x -> bind m k = Raise x.
Proof. intros ->. reflexivity. Qed.

Ltac bind_inv H :=
  let a := fresh "a" in
  let Ha := fresh "Ha" in
  apply bind_Ok in H; destruct H as [a [Ha H]].

(** ** What entering and leaving a trade change *)

Section EngineFacts.
Context {S : Type} (C : StrategyClass S).

Lemma _enter_trade_Ok (e e' : Engine S) (data : DataFrame) (idx : nat) :
  _enter_trade C e data idx = Ok e' ->
  exists bar pos,
    iloc data (Z.of_nat idx) = Ok bar
    /\ p_entry_time pos = name bar
    /\ p_entry_price pos = close bar
    /\ p_entry_equity pos = account_value e
    /\ e' = mkEngine (strategy e) (initial_capital e) (account_value e)
                     (trades e) (equity_curve e) (Some pos).
Proof.
  unfold _enter_trade. intros H.
  bind_inv H. rename a into bar. bind_inv H. rename a into size.
  destruct (atr_14 bar) as [atr |]; [| discriminate H].
  match type of H with
  | context [Some ?p] => exists bar, p
  end.
  injection H as <-.
  repeat split; try reflexivity. exact Ha.
Qed.

Lemma _exit_trade_Ok (e e' : Engine S) (data : DataFrame) (idx : Z)
      (reason : option string) :
  _exit_trade C e data idx reason = Ok e' ->
  exists bar pos t,
    iloc data idx = Ok bar
    /\ current_position e = Some pos
    /\ entry_time t = p_entry_time pos
    /\ exit_time t = name bar
    /\ exit_price t = resolve_exit_price reason pos bar
    /\ exit_reason t = reason
    /\ equity_after t = (account_value e + pnl t)%Q
    /\ e' = mkEngine (strategy e) (initial_capital e)
                     (account_value e + pnl t)%Q (trades e ++ [t])
                     (equity_curve e) None.
Proof.
  unfold _exit_trade. intros H.
  bind_inv H. rename a into bar.
  destruct (current_position e) as [pos |]; [| discriminate H].
  bind_inv H. rename a into pv.
  match type of H with
  | context [trades e ++ [?tr]] => exists bar, pos, tr
  end.
  injection H as <-.
  repeat split; try reflexivity. exact Ha.
Qed.

(** The bar step with a position open, and with none. *)
Lemma bar_step_open (e e' : Engine S) (data : DataFrame) (idx : nat)
      (pos : Position) :
  current_position e = Some pos ->
  bar_step C e data idx = Ok e' ->
  exists bar ex reason s',
    iloc data (Z.of_nat idx) = Ok bar
    /\ should_exit C (strategy e) data idx pos = Ok (ex, reason, s')
    /\ let e2 := mkEngine s' (initial_capital e) (account_value e) (trades e)
                   (equity_curve e ++ [mkEquityPoint (name bar)
                                         (account_value e) 1])
                   (Some pos) in
       if ex then _exit_trade C e2 data (Z.of_nat idx) reason = Ok e'
       else e' = e2.
Proof.
  unfold bar_step. intros Hp H.
  bind_inv H. rename a into bar. rewrite Hp in H. simpl in H.
  bind_inv H. destruct a as [[ex reason] s'].
  exists bar, ex, reason, s'. split; [exact Ha |]. split; [exact Ha0 |].
  unfold set_strategy in H. simpl in H.
  destruct ex; simpl; [exact H | now injection H as <-].
Qed.

Lemma bar_step_flat (e e' : Engine S) (data : DataFrame) (idx : nat) :
  current_position e = None ->
  bar_step C e data idx = Ok e' ->
  exists bar en s',
    iloc data (Z.of_nat idx) = Ok bar
    /\ should_enter C (strategy e) data idx = Ok (en, s')
    /\ let e2 := mkEngine s' (initial_capital e) (account_value e) (trades e)
                   (equity_curve e ++ [mkEquityPoint (name bar)
                                         (account_value e) 0])
                   None in
       if en then _enter_trade C e2 data idx = Ok e'
       else e' = e2.
Proof.
  unfold bar_step. intros Hp H.
  bind_inv H. rename a into bar. rewrite Hp in H. simpl in H.
  bind_inv H. destruct a as [en s'].
  exists bar, en, s'. split; [exact Ha |]. split; [exact Ha0 |].
  unfold set_strategy in H. simpl in H.
  destruct en; simpl; [exact H | now injection H as <-].
Qed.

End EngineFacts.

(** ** Account bookkeeping *)

Lemma sum_pnl_snoc (ts : list Trade) (t : Trade) :
  sum_pnl (ts ++ [t]) = (sum_pnl ts + pnl t)%Q.
Proof. unfold sum_pnl. rewrite map_app, fold_left_app. reflexivity. Qed.

Section Account.
Context {S : Type} (C : StrategyClass S).

Lemma _exit_trade_books (e e' : Engine S) data idx reason :
  _exit_trade C e data idx reason = Ok e' ->
  books_one_trade e e' /\ initial_capital e' = initial_capital e.
Proof.
  intros H. apply _exit_trade_Ok in H.
  destruct H as (bar & pos & t & _ & _ & _ & _ & _ & _ & Heq & ->).
  split; [exists t; simpl; auto | reflexivity].
Qed.

Lemma bar_step_books (e e' : Engine S) data idx :
  bar_step C e data idx = Ok e' ->
  (books_kept e e' \/ books_one_trade e e')
  /\ initial_capital e' = initial_capital e.
Proof.
  intros H. destruct (current_position e) as [pos |] eqn:Hp.
  - apply (bar_step_open C _ _ _ _ pos Hp) in H.
    destruct H as (bar & ex & reason & s' & _ & _ & H). simpl in H.
    destruct ex.
    + apply _exit_trade_books in H. destruct H as [H Hi].
      split; [right; exact H | exact Hi].
    + subst e'. split; [left; split; reflexivity | reflexivity].
  - apply (bar_step_flat C _ _ _ _ Hp) in H.
    destruct H as (bar & en & s' & _ & _ & H). simpl in H.
    destruct en.
    + apply _enter_trade_Ok in H.
      destruct H as (b & p & _ & _ & _ & _ & ->).
      split; [left; split; reflexivity | reflexivity].
    + subst e'. split; [left; split; reflexivity | reflexivity].
Qed.

Lemma conserved_step (e e' : Engine S) :
  (books_kept e e' \/ books_one_trade e e') ->
  initial_capital e' = initial_capital e ->
  conserved e -> conserved e'.
Proof.
  unfold conserved. intros [[Ha Ht] | (t & Ht & Ha & _)] Hi Hc;
    rewrite Ha, Ht, Hi.
  - exact Hc.
  - rewrite sum_pnl_snoc, Hc. ring.
Qed.

Lemma bar_loop_conserved (idxs : list nat) (e e' : Engine S) data :
  bar_loop C e data idxs = Ok e' -> conserved e -> conserved e'.
Proof.
  revert e. induction idxs as [| idx rest IH]; simpl; intros e H Hc.
  - now injection H as <-.
  - bind_inv H. apply bar_step_books in Ha. destruct Ha as [Hb Hi].
    apply (IH a H). now apply (conserved_step e).
Qed.

(** Equity conservation for [Engine.run_backtest]: a run keeps the account
    equal to the initial capital plus the PnL of the recorded trades. *)
Lemma run_backtest_conserved (e e' : Engine S) data :
  run_backtest C e data = Ok e' -> conserved e -> conserved e'.
Proof.
  unfold run_backtest. intros H Hc. bind_inv H.
  apply bar_loop_conserved in Ha; [| exact Hc].
  destruct (current_position a).
  - apply _exit_trade_books in H. destruct H as [Hb Hi].
    apply (conserved_step a); auto.
  - now injection H as <-.
Qed.

Lemma run_backtest_fresh_conserved (strat : S) (capital : Q) (e' : Engine S)
      data :
  run_backtest C (Engine_init strat capital) data = Ok e' ->
  (account_value e' == capital + sum_pnl (trades e'))%Q
  /\ initial_capital e' = capital.
Proof.
  intros H. assert (Hc : conserved (Engine_init strat capital)).
  { unfold conserved, Engine_init, sum_pnl. simpl. ring. }
  pose proof (run_backtest_conserved _ _ _ H Hc) as Hc'.
  unfold conserved in Hc'.
  assert (Hi : initial_capital e' = capital).
  { unfold run_backtest in H. bind_inv H.
    assert (Hl : forall idxs (e1 e2 : Engine S),
               bar_loop C e1 data idxs = Ok e2 ->
               initial_capital e2 = initial_capital e1).
    { induction idxs as [| i r IH]; simpl; intros e1 e2 H1.
      - now injection H1 as <-.
      - bind_inv H1. apply bar_step_books in Ha0. destruct Ha0 as [_ Hi].
        rewrite (IH _ _ H1). exact Hi. }
    apply Hl in Ha. simpl in Ha.
    destruct (current_position a).
    - apply _exit_trade_books in H. destruct H as [_ Hi]. congruence.
    - injection H as <-. exact Ha. }
  rewrite Hi in Hc'. split; [exact Hc' | exact Hi].
Qed.

End Account.

(** ** C10: the frame of an entry, and where the account changes *)

(** C10.  Opening a position ([_enter_trade]) changes [current_position]
    only: the account value, the list of trades, the equity curve, the
    strategy and the initial capital are as before.  [_exit_trade] appends
    one trade and adds exactly that trade's PnL to the account value, and a
    step of the bar loop changes the account in no other way. *)
Theorem entry_frame {S : Type} (C : StrategyClass S) (e : Engine S)
        (data : DataFrame) (idx : nat) :
  (forall e', _enter_trade C e data idx = Ok e' ->
     account_value e' = account_value e
     /\ trades e' = trades e
     /\ equity_curve e' = equity_curve e
     /\ strategy e' = strategy e
     /\ initial_capital e' = initial_capital e
     /\ current_position e' <> None)
  /\ (forall i reason e', _exit_trade C e data i reason = Ok e' ->
        books_one_trade e e')
  /\ (forall e', bar_step C e data idx = Ok e' ->
        books_kept e e' \/ books_one_trade e e').
Proof.
  split; [| split].
  - intros e' H. apply _enter_trade_Ok in H.
    destruct H as (bar & pos & _ & _ & _ & _ & ->). simpl.
    repeat split; discriminate.
  - intros i reason e' H. now apply _exit_trade_books in H.
  - intros e' H. now apply bar_step_books in H.
Qed.

Lemma entry_frame_witness :
  account_value engine_in_trade = account_value engine0
  /\ trades engine_in_trade = trades engine0
  /\ equity_curve engine_in_trade = equity_curve engine0
  /\ strategy engine_in_trade = strategy engine0
  /\ initial_capital engine_in_trade = initial_capital engine0
  /\ current_position engine_in_trade <> None.
Proof.
  apply (proj1 (entry_frame Strategy.class engine0 (bars61 99) 60)).
  vm_compute. reflexivity.
Defined.

(** ** C5: the price an exit fills at *)

(** C5.  The trade that [_exit_trade] records carries the reason it was
    called with, and its exit price is the position's stored stop-loss for
    ['stop_loss'], the stored take-profit for ['take_profit'], and the close
    of the current bar for every other reason: [should_exit] hands back a
    flag and a reason and no price, so for ['trailing_stop'],
    ['opposite_crossover'] and the forced ['end_of_data'] alike the close is
    what is used. *)
Theorem exit_price_resolution {S : Type} (C : StrategyClass S)
        (e e' : Engine S) (data : DataFrame) (idx : Z)
        (reason : option string) (pos : Position) (bar : Bar) :
  current_position e = Some pos ->
  iloc data idx = Ok bar ->
  _exit_trade C e data idx reason = Ok e' ->
  exists t,
    trades e' = trades e ++ [t]
    /\ exit_reason t = reason
    /\ (reason = Some "stop_loss"%string -> exit_price t = p_stop_loss pos)
    /\ (reason = Some "take_profit"%string ->
        exit_price t = p_take_profit pos)
    /\ (reason <> Some "stop_loss"%string ->
        reason <> Some "take_profit"%string ->
        exit_price t = close bar)
    /\ (reason = Some "end_of_data"%string -> exit_price t = close bar).
Proof.
  intros Hp Hb H. apply _exit_trade_Ok in H.
  destruct H as (bar' & pos' & t & Hb' & Hp' & _ & _ & Hx & Hr & _ & ->).
  assert (bar' = bar) by congruence. assert (pos' = pos) by congruence.
  subst bar' pos'. exists t. simpl.
  split; [reflexivity |]. split; [exact Hr |].
  rewrite Hx. unfold resolve_exit_price.
  split; [intros -> ; reflexivity |].
  split; [intros -> ; reflexivity |].
  assert (Hother : reason <> Some "stop_loss"%string ->
                   reason <> Some "take_profit"%string ->
                   (if is_reason reason "stop_loss" then p_stop_loss pos
                    else if is_reason reason "take_profit"
                         then p_take_profit pos else close bar) = close bar).
  { intros H1 H2. destruct reason as [r |]; simpl; [| reflexivity].
    destruct (String.eqb_spec r "stop_loss") as [-> | _];
      [now elim H1 |].
    destruct (String.eqb_spec r "take_profit") as [-> | _];
      [now elim H2 | reflexivity]. }
  split; [exact Hother |].
  intros ->. reflexivity.
Qed.

Lemma exit_price_resolution_witness :
  exists t,
    trades engine_closed = trades engine_in_trade ++ [t]
    /\ exit_reason t = Some "end_of_data"%string
    /\ (Some "end_of_data"%string = Some "stop_loss"%string ->
        exit_price t = p_stop_loss position_in_trade)
    /\ (Some "end_of_data"%string = Some "take_profit"%string ->
        exit_price t = p_take_profit position_in_trade)
    /\ (Some "end_of_data"%string <> Some "stop_loss"%string ->
        Some "end_of_data"%string <> Some "take_profit"%string ->
        exit_price t = close (signal_bar 60))
    /\ (Some "end_of_data"%string = Some "end_of_data"%string ->
        exit_price t = close (signal_bar 60)).
Proof.
  apply (exit_price_resolution Strategy.class engine_in_trade engine_closed
           (bars61 99) 60 (Some "end_of_data"%string)).
  - vm_compute. reflexivity.
  - vm_compute. reflexivity.
  - vm_compute. reflexivity.
Defined.

(** ** Positions in the frame *)

Lemma iloc_nat (data : DataFrame) (idx : nat) (bar : Bar) :
  iloc data (Z.of_nat idx) = Ok bar -> nth_error data idx = Some bar.
Proof.
  unfold iloc. destruct (Z.of_nat idx <? 0) eqn:Hn; [apply Z.ltb_lt in Hn; lia |].
  destruct ((0 <=? Z.of_nat idx) && (Z.of_nat idx <? Z.of_nat (length data)));
    [| discriminate].
  rewrite Nat2Z.id. destruct (nth_error data idx); [| discriminate].
  now intros [= ->].
Qed.

Lemma iloc_last (data : DataFrame) (bar : Bar) :
  iloc data (Z.of_nat (length data) - 1) = Ok bar ->
  (0 < length data)%nat /\ nth_error data (length data - 1) = Some bar.
Proof.
  unfold iloc. destruct (length data) as [| n] eqn:Hlen.
  - simpl. discriminate.
  - replace (Z.of_nat (Datatypes.S n) - 1) with (Z.of_nat n) by lia.
    destruct (Z.of_nat n <? 0) eqn:Hn; [apply Z.ltb_lt in Hn; lia |].
    destruct ((0 <=? Z.of_nat n) && (Z.of_nat n <? Z.of_nat (Datatypes.S n)));
      [| discriminate].
    rewrite Nat2Z.id. replace (Datatypes.S n - 1)%nat with n by lia.
    destruct (nth_error data n); [| discriminate].
    intros [= ->]. split; [lia | reflexivity].
Qed.

Lemma index_last_nth (data : DataFrame) (bar : Bar) :
  nth_error data (length data - 1) = Some bar ->
  index_last data = Ok (name bar).
Proof.
  intros H. unfold index_last.
  induction data as [| b0 rest _] using rev_ind; [discriminate H |].
  rewrite rev_app_distr. simpl.
  rewrite length_app in H. simpl in H.
  replace (length rest + 1 - 1)%nat with (length rest) in H by lia.
  rewrite nth_error_app2 in H by lia.
  rewrite Nat.sub_diag in H. simpl in H. now injection H as ->.
Qed.

Lemma strictly_increasing_nth (ts : list Z) :
  strictly_increasing ts = true ->
  forall i j ti tj, (i < j)%nat ->
    nth_error ts i = Some ti -> nth_error ts j = Some tj -> ti < tj.
Proof.
  induction ts as [| t rest IH]; simpl; intros H i j ti tj Hij Hi Hj.
  - destruct i; discriminate Hi.
  - apply andb_true_iff in H. destruct H as [Hall Hrest].
    destruct j as [| j]; [lia |]. simpl in Hj.
    destruct i as [| i]; simpl in Hi.
    + injection Hi as ->. rewrite forallb_forall in Hall.
      apply Z.ltb_lt. apply Hall. eapply nth_error_In. exact Hj.
    + apply (IH Hrest i j); auto. lia.
Qed.

Lemma bars_increasing (data : DataFrame) :
  strictly_increasing (map name data) = true ->
  forall i j bi bj, (i < j)%nat ->
    nth_error data i = Some bi -> nth_error data j = Some bj ->
    name bi < name bj.
Proof.
  intros H i j bi bj Hij Hi Hj.
  apply (strictly_increasing_nth _ H i j); auto.
  - rewrite nth_error_map, Hi. reflexivity.
  - rewrite nth_error_map, Hj. reflexivity.
Qed.

(** ** C9: entry and exit times of a trade *)

Section TradeTimes.
Context {S : Type} (C : StrategyClass S).
Variable data : DataFrame.
Hypothesis Hsorted : strictly_increasing (map name data) = true.

Lemma bar_step_times (k : nat) (e e' : Engine S) :
  bar_step C e data k = Ok e' ->
  trades_ordered e -> entered_before data k e ->
  trades_ordered e' /\ entered_before data (Datatypes.S k) e'.
Proof.
  intros H Hord Hent. destruct (current_position e) as [pos |] eqn:Hp.
  - apply (bar_step_open C _ _ _ _ pos Hp) in H.
    destruct H as (bar & ex & reason & s' & Hb & _ & H). simpl in H.
    destruct (Hent pos Hp) as (j & bj & Hj & Hnj & Htj).
    destruct ex.
    + apply _exit_trade_Ok in H.
      destruct H as (bar' & pos' & t & Hb' & Hp' & Het & Hxt & _ & _ & _ & ->).
      simpl in Hp'. injection Hp' as <-.
      assert (bar' = bar) by congruence. subst bar'.
      split.
      * intros t' Hin. simpl in Hin. apply in_app_or in Hin.
        destruct Hin as [Hin | [<- | []]]; [now apply Hord |].
        rewrite Het, Hxt, Htj.
        apply (bars_increasing data Hsorted j k); auto.
        now apply iloc_nat.
      * intros p Hp'. discriminate Hp'.
    + subst e'. split; [exact Hord |].
      intros p Hp'. simpl in Hp'. injection Hp' as <-.
      exists j, bj. repeat split; auto.
  - apply (bar_step_flat C _ _ _ _ Hp) in H.
    destruct H as (bar & en & s' & Hb & _ & H). simpl in H.
    destruct en.
    + apply _enter_trade_Ok in H.
      destruct H as (bar' & pos & Hb' & Het & _ & _ & ->).
      assert (bar' = bar) by congruence. subst bar'.
      split; [exact Hord |].
      intros p Hp'. simpl in Hp'. injection Hp' as <-.
      exists k, bar. repeat split; auto. now apply iloc_nat.
    + subst e'. split; [exact Hord |].
      intros p Hp'. discriminate Hp'.
Qed.

Lemma bar_loop_times (m k : nat) (e e' : Engine S) :
  bar_loop C e data (seq k m) = Ok e' ->
  trades_ordered e -> entered_before data k e ->
  trades_ordered e' /\ entered_before data (k + m) e'.
Proof.
  revert k e. induction m as [| m IH]; simpl; intros k e H Hord Hent.
  - injection H as <-. rewrite Nat.add_0_r. now split.
  - bind_inv H. apply bar_step_times in Ha; auto.
    destruct Ha as [Hord1 Hent1].
    replace (k + Datatypes.S m)%nat with (Datatypes.S k + m)%nat by lia.
    now apply (IH _ a).
Qed.

End TradeTimes.

(** C9, as the engine has it.  Over bars with strictly increasing
    timestamps, every trade of a run of [Engine.run_backtest] from a fresh
    engine leaves no earlier than it entered.  The two times are equal only
    for a trade closed by the forced ['end_of_data'] exit on the last bar, the
    bar it had entered on; every other trade leaves strictly later. *)
Theorem trade_time_order {S : Type} (C : StrategyClass S) (strat : S)
        (capital : Q) (data : DataFrame) (e' : Engine S) :
  strictly_increasing (map name data) = true ->
  run_backtest C (Engine_init strat capital) data = Ok e' ->
  forall t, In t (trades e') ->
    entry_time t <= exit_time t
    /\ (entry_time t = exit_time t ->
        exit_reason t = Some "end_of_data"%string
        /\ index_last data = Ok (exit_time t)).
Proof.
  intros Hs H. unfold run_backtest in H. bind_inv H. rename a into e1.
  apply (bar_loop_times C data Hs) in Ha.
  2: { intros t []. }
  2: { intros p Hp. discriminate Hp. }
  destruct Ha as [Hord Hent]. simpl in Hent.
  destruct (current_position e1) as [pos |] eqn:Hp.
  - apply _exit_trade_Ok in H.
    destruct H as (bar & pos' & t & Hb & Hp' & Het & Hxt & _ & Hr & _ & ->).
    rewrite Hp in Hp'. injection Hp' as <-.
    apply iloc_last in Hb. destruct Hb as [Hlen Hb].
    destruct (Hent pos Hp) as (j & bj & Hj & Hnj & Htj).
    intros t' Hin. simpl in Hin. apply in_app_or in Hin.
    destruct Hin as [Hin | [<- | []]].
    + specialize (Hord _ Hin). split; [lia |]. intros Heq. lia.
    + rewrite Het, Hxt, Htj.
      destruct (Nat.eq_dec j (length data - 1)) as [-> | Hne].
      * assert (bj = bar) by congruence. subst bj.
        split; [lia |]. intros _. split; [exact Hr |].
        now apply index_last_nth.
      * assert (name bj < name bar).
        { apply (bars_increasing data Hs j (length data - 1)); auto. lia. }
        split; [lia |]. intros Heq. lia.
  - injection H as <-. intros t Hin. specialize (Hord _ Hin).
    split; [lia |]. intros Heq. lia.
Qed.

Lemma trade_time_order_witness :
  entry_time closing_trade <= exit_time closing_trade
  /\ (entry_time closing_trade = exit_time closing_trade ->
      exit_reason closing_trade = Some "end_of_data"%string
      /\ index_last (bars61 99) = Ok (exit_time closing_trade)).
Proof.
  apply (trade_time_order Strategy.class Strategy.init 100000 (bars61 99)
           engine_closed_run).
  - vm_compute. reflexivity.
  - vm_compute. reflexivity.
  - vm_compute. left. reflexivity.
Defined.

(** C9 as stated fails: on the sixty-one bars the strategy enters on the
    last bar, and the forced closure records a trade whose exit time is its
    entry time. *)
Lemma trade_time_order_counterexample :
  strictly_increasing (map name (bars61 99)) = true
  /\ exists e' t,
       run_backtest Strategy.class engine0 (bars61 99) = Ok e'
       /\ trades e' = [t]
       /\ exit_reason t = Some "end_of_data"%string
       /\ entry_time t = 60 /\ exit_time t = 60
       /\ ~ entry_time t < exit_time t.
Proof.
  split; [vm_compute; reflexivity |].
  eexists _, _. split; [vm_compute; reflexivity |].
  split; [reflexivity |]. simpl.
  split; [reflexivity |]. split; [reflexivity |]. split; [reflexivity |].
  lia.
Qed.

(** ** C7: an empty bar sequence *)



(** ** C4: closure at the end of the data *)

(** [Engine.run_backtest] leaves no position open, and a position left by
    the bar loop is closed for ['end_of_data'] at the close of the last
    bar. *)
Lemma run_backtest_closes {S : Type} (C : StrategyClass S) (e e' : Engine S)
      (data : DataFrame) :
  run_backtest C e data = Ok e' ->
  current_position e' = None
  /\ forall e1 pos,
       bar_loop C e data (seq 0 (length data)) = Ok e1 ->
       current_position e1 = Some pos ->
       exists bar t,
         nth_error data (length data - 1) = Some bar
         /\ trades e' = trades e1 ++ [t]
         /\ exit_reason t = Some "end_of_data"%string
         /\ exit_price t = close bar
         /\ exit_time t = name bar.
Proof.
  unfold run_backtest. intros H. bind_inv H. rename a into e1.
  destruct (current_position e1) as [pos |] eqn:Hp.
  - apply _exit_trade_Ok in H.
    destruct H as (bar & pos' & t & Hb & _ & _ & Hxt & Hx & Hr & _ & ->).
    split; [reflexivity |].
    intros e1' pos1 Hl _. assert (e1' = e1) by congruence. subst e1'.
    apply iloc_last in Hb. destruct Hb as [_ Hb].
    exists bar, t. simpl. repeat split; auto.
  - injection H as <-. split; [exact Hp |].
    intros e1' pos1 Hl Hp1. assert (e1' = e1) by congruence. subst e1'.
    congruence.
Qed.

(** C4 at the failing input: [_run_single_backtest] on the sixty-one bars
    returns with the position entered on the last bar still open and with
    no trade recorded for it. *)
Theorem single_backtest_leaves_position_open :
  exists r ft',
    _run_single_backtest Strategy.class wf0 (bars61 97) (risk (1 # 100))
    = Ok (r, ft')
    /\ result_trades r = []
    /\ exists pos, current_position (base ft') = Some pos
                   /\ p_entry_time pos = 60.
Proof.
  eexists _, _. split; [vm_compute; reflexivity |].
  split; [reflexivity |]. eexists. split; reflexivity.
Qed.

(** ** C1: equity conservation *)

(** C1 at the failing input: the third of three trials on one
    ForwardTestEngine reports a final capital of 97050 with trades whose PnL
    sums to -1950, against an initial capital of 100000. *)
Theorem forward_test_equity_not_conserved :
  exists r1 r2 r3 ft3,
    three_trials = Ok (r1, r2, r3, ft3)
    /\ initial_capital (base ft3) = 100000%Q
    /\ (final_capital r3 == 97050)%Q
    /\ (sum_pnl (result_trades r3) == - (1950))%Q
    /\ ~ (final_capital r3
          == initial_capital (base ft3) + sum_pnl (result_trades r3))%Q.
Proof.
  eexists _, _, _, _. split; [vm_compute; reflexivity |].
  split; [reflexivity |].
  split; [vm_compute; reflexivity |].
  split; [vm_compute; reflexivity |].
  intros H. vm_compute in H. discriminate H.
Qed.

(** ** C2: independence of the walk-forward runs *)

(** C2 at the failing input.  The first trial ends with a position open and
    the second starts from it; the second ends with the account off the
    initial capital and the third starts from that.  In a walk-forward run
    with 61-bar windows the out-of-sample result holds a trade that was
    entered on an in-sample bar, and its final capital is not the initial
    capital plus that trade's PnL. *)
Theorem walk_forward_state_carries_over :
  (exists r1 ft1 pos r2 ft2,
      _run_single_backtest Strategy.class wf0 (bars61 97) (risk (1 # 100))
      = Ok (r1, ft1)
      /\ current_position (base ft1) = Some pos
      /\ _run_single_backtest Strategy.class ft1 (bars61 97) (risk (2 # 100))
         = Ok (r2, ft2)
      /\ ~ (account_value (base ft2) == initial_capital (base ft2))%Q
      /\ current_position (base ft2) <> None)
  /\ exists ft' w t,
       run_walk_forward Strategy.class wf61 (bars122 97) (Some risk_grid)
       = Some (Ok ft')
       /\ all_windows ft' = [w]
       /\ is_start w = 0 /\ is_end w = 60 /\ oos_start w = 61
       /\ result_trades (oos_results w) = [t]
       /\ entry_time t = 60 /\ exit_time t = 61
       /\ ~ (final_capital (oos_results w) == 100000 + pnl t)%Q.
Proof.
  split.
  - eexists _, _, _, _, _. split; [vm_compute; reflexivity |].
    split; [reflexivity |]. split; [vm_compute; reflexivity |].
    split; [| discriminate].
    intros H. vm_compute in H. discriminate H.
  - eexists _, _, _. split; [vm_compute; reflexivity |].
    split; [reflexivity |]. simpl.
    repeat (split; [reflexivity |]).
    intros H. vm_compute in H. discriminate H.
Qed.

(** ** C6: a failing trial in the grid search *)

Section GridSearch.
Context {S : Type} (C : StrategyClass S).

Lemma optimize_loop_app (data : DataFrame) (pre post : list params)
      (ft : ForwardTestEngine S) (best : option params * score) :
  optimize_loop C ft data (pre ++ post) best
  = ('(best1, ft1) <- optimize_loop C ft data pre best ;;
     optimize_loop C ft1 data post best1).
Proof.
  revert ft best. induction pre as [| ps pre IH]; simpl; intros ft best.
  - reflexivity.
  - destruct (_run_single_backtest C ft data ps) as [[r ft'] | x]; simpl.
    + apply IH.
    + reflexivity.
Qed.

(** A score that the scan has recorded is a finite number: minus infinity
    is the starting value of [best_score] and nothing else. *)
Lemma optimize_loop_score (data : DataFrame) (combos : list params)
      (ft ft' : ForwardTestEngine S) (best : option params * score)
      (ps : params) (sc : score) :
  optimize_loop C ft data combos best = Ok (Some ps, sc, ft') ->
  (fst best = None <-> snd best = NegInf) ->
  sc <> NegInf.
Proof.
  revert ft best. induction combos as [| c rest IH]; simpl; intros ft best H Hb.
  - injection H as -> _. simpl in Hb. intros Hn.
    apply Hb in Hn. discriminate Hn.
  - bind_inv H. destruct a as [r ft1].
    apply (IH _ _ H).
    destruct (score_gt (_calculate_fitness_score r) (snd best)); simpl.
    + split; discriminate.
    + exact Hb.
Qed.

End GridSearch.

(** C6, as the optimiser has it.  When the run for one parameter
    combination fails, the failure leaves the grid search as it is: the
    optimisation of the window raises the same exception, whatever
    combinations were still to come. *)
Theorem grid_search_failure_propagates {S : Type} (C : StrategyClass S)
        (ft ft1 : ForwardTestEngine S) (data : DataFrame)
        (pre post : list params) (ps : params)
        (best best1 : option params * score) (x : exn) :
  optimize_loop C ft data pre best = Ok (best1, ft1) ->
  _run_single_backtest C ft1 data ps = Raise x ->
  optimize_loop C ft data (pre ++ ps :: post) best = Raise x.
Proof.
  intros Hpre Hfail. rewrite optimize_loop_app, Hpre. simpl.
  rewrite Hfail. reflexivity.
Qed.

Lemma grid_search_failure_propagates_witness :
  optimize_loop Strategy.class wf0 (bars61 99) ([] ++ stop_zero :: [stop_wide])
                (None, NegInf)
  = Raise OverflowError.
Proof.
  apply (grid_search_failure_propagates Strategy.class wf0 wf0 (bars61 99)
           [] [stop_wide] stop_zero (None, NegInf) (None, NegInf)).
  - reflexivity.
  - vm_compute. reflexivity.
Defined.

(** C6 as stated fails: with a stop multiplier of zero the sizing of the
    entry divides by zero and the trial raises; the grid search raises with
    it, although the other combination runs through on its own. *)
Lemma grid_search_counterexample :
  _generate_param_combinations stop_grid = [stop_zero; stop_wide]
  /\ _run_single_backtest Strategy.class wf0 (bars61 99) stop_zero
     = Raise OverflowError
  /\ (exists r ft', _run_single_backtest Strategy.class wf0 (bars61 99)
                                         stop_wide = Ok (r, ft'))
  /\ _optimize_parameters Strategy.class wf0 (bars61 99) stop_grid
     = Raise OverflowError.
Proof.
  split; [reflexivity |].
  split; [vm_compute; reflexivity |].
  split; [eexists _, _; vm_compute; reflexivity |].
  vm_compute. reflexivity.
Qed.

(** ** C8: the profit factor *)

Lemma len_nonzero (ts : list Trade) :
  (0 < length ts)%nat -> ~ (len ts == 0)%Q.
Proof.
  intros H. unfold len, Qeq. simpl. lia.
Qed.

Lemma pydiv_nonzero (a b : Q) :
  ~ (b == 0)%Q -> pydiv a b = Ok (a / b)%Q.
Proof.
  intros H. unfold pydiv.
  destruct (Qeq_bool b 0) eqn:Hb; [| reflexivity].
  apply Qeq_bool_eq in Hb. contradiction.
Qed.


Lemma mean_empty : (mean [] == 0)%Q.
Proof. reflexivity. Qed.






(** ** C3: one position, one decision per bar *)



Section Spy.
Context {S : Type} (C : StrategyClass S).

Lemma spy_should_exit_log (s s' : S * list call) data idx pos ex reason :
  should_exit (spy C) s data idx pos = Ok (ex, reason, s') ->
  snd s' = snd s ++ [CallExit idx].
Proof.
  simpl. intros H. bind_inv H. destruct a as [[ex0 r0] s0].
  now injection H as _ _ <-.
Qed.

Lemma spy_should_enter_log (s s' : S * list call) data idx en :
  should_enter (spy C) s data idx = Ok (en, s') ->
  snd s' = snd s ++ [CallEnter idx].
Proof.
  simpl. intros H. bind_inv H. destruct a as [en0 s0].
  now injection H as _ <-.
Qed.




End Spy.



(** ** The bar loop of [_run_single_backtest] *)

Section SingleBacktest.
Context {S : Type} (C : StrategyClass S).

Lemma BacktestEngine_exit_trade_Ok (e e' : Engine S) data idx reason t :
  BacktestEngine_exit_trade C e data idx reason = Ok (t, e') ->
  _exit_trade C e data idx reason = Ok e'
  /\ e' = mkEngine (strategy e) (initial_capital e)
                   (account_value e + pnl t)%Q (trades e ++ [t])
                   (equity_curve e) None.
Proof.
  unfold BacktestEngine_exit_trade. intros H. bind_inv H.
  pose proof Ha as Hx. apply _exit_trade_Ok in Hx.
  destruct Hx as (b & p & t0 & _ & _ & _ & _ & _ & _ & _ & ->).
  simpl in H. rewrite rev_app_distr in H. simpl in H.
  injection H as <- <-. split; [exact Ha | reflexivity].
Qed.

(** A step of the loop: which decision method it calls, what it does to
    the account and to the list of trades of the run. *)
Lemma single_step_Ok (e e' : Engine S) (ts ts' : list Trade) data idx :
  single_step C (e, ts) data idx = Ok (e', ts') ->
  match current_position e with
  | Some pos =>
      exists ex reason s',
        should_exit C (strategy e) data idx pos = Ok (ex, reason, s')
        /\ strategy e' = s'
        /\ if ex then
             exists t, ts' = ts ++ [t]
                       /\ account_value e' = (account_value e + pnl t)%Q
                       /\ current_position e' = None
           else ts' = ts /\ account_value e' = account_value e
                /\ current_position e' = Some pos
  | None =>
      exists en s',
        should_enter C (strategy e) data idx = Ok (en, s')
        /\ strategy e' = s'
        /\ ts' = ts /\ account_value e' = account_value e
        /\ if en then current_position e' <> None
           else current_position e' = None
  end.
Proof.
  unfold single_step. intros H. bind_inv H. rename a into bar.
  destruct (current_position e) as [pos |] eqn:Hp.
  - bind_inv H. destruct a as [[ex reason] s'].
    exists ex, reason, s'. split; [exact Ha0 |].
    destruct ex.
    + bind_inv H. destruct a as [t e2]. injection H as <- <-.
      apply BacktestEngine_exit_trade_Ok in Ha1. destruct Ha1 as [_ ->].
      simpl. split; [reflexivity |]. exists t. auto.
    + injection H as <- <-. simpl. auto.
  - bind_inv H. destruct a as [en s'].
    exists en, s'. split; [exact Ha0 |].
    destruct en.
    + bind_inv H. injection H as <- <-.
      apply _enter_trade_Ok in Ha1.
      destruct Ha1 as (b & p & _ & _ & _ & _ & ->). simpl.
      repeat split. discriminate.
    + injection H as <- <-. simpl. auto.
Qed.

Lemma single_step_account (e e' : Engine S) (ts ts' : list Trade) data idx :
  single_step C (e, ts) data idx = Ok (e', ts') ->
  (account_value e' + sum_pnl ts == account_value e + sum_pnl ts')%Q.
Proof.
  intros H. apply single_step_Ok in H.
  destruct (current_position e) as [pos |].
  - destruct H as (ex & reason & s' & _ & _ & H). destruct ex.
    + destruct H as (t & -> & -> & _). rewrite sum_pnl_snoc. ring.
    + destruct H as (-> & -> & _). reflexivity.
  - destruct H as (en & s' & _ & _ & -> & -> & _). reflexivity.
Qed.

Lemma single_loop_account (idxs : list nat) (e e' : Engine S)
      (ts ts' : list Trade) data :
  single_loop C (e, ts) data idxs = Ok (e', ts') ->
  (account_value e' + sum_pnl ts == account_value e + sum_pnl ts')%Q.
Proof.
  revert e ts. induction idxs as [| idx rest IH]; simpl; intros e ts H.
  - injection H as <- <-. reflexivity.
  - bind_inv H. destruct a as [e1 ts1].
    apply single_step_account in Ha. apply IH in H.
    apply (Qplus_inj_r _ _ (sum_pnl ts1)).
    transitivity (account_value e' + sum_pnl ts1 + sum_pnl ts)%Q; [ring |].
    rewrite H.
    transitivity (account_value e1 + sum_pnl ts + sum_pnl ts')%Q; [ring |].
    rewrite Ha. ring.
Qed.

Lemma _run_single_backtest_Ok (ft ft' : ForwardTestEngine S) data ps r :
  _run_single_backtest C ft data ps = Ok (r, ft') ->
  exists e,
    single_loop C (set_strategy (base ft)
                                (set_params C (strategy (base ft)) ps), [])
                data (seq 0 (length data))
    = Ok (e, result_trades r)
    /\ final_capital r = account_value e
    /\ total_trades r = length (result_trades r)
    /\ compute_profit_factor (result_trades r) = Ok (profit_factor r)
    /\ ft' = set_base ft e.
Proof.
  unfold _run_single_backtest. intros H. bind_inv H.
  destruct a as [e ts]. bind_inv H. bind_inv H.
  injection H as <- <-. exists e. simpl. auto.
Qed.

(** What a run of [_run_single_backtest] conserves: the final capital it
    reports is the account value the engine had when the run began plus the
    PnL of the trades of the run. *)
Lemma single_backtest_conserved_from_start (ft ft' : ForwardTestEngine S)
      data ps r :
  _run_single_backtest C ft data ps = Ok (r, ft') ->
  (final_capital r == account_value (base ft) + sum_pnl (result_trades r))%Q
  /\ account_value (base ft') = final_capital r.
Proof.
  intros H. apply _run_single_backtest_Ok in H.
  destruct H as (e & Hl & -> & _ & _ & ->).
  apply single_loop_account in Hl. simpl in Hl.
  split; [| reflexivity].
  unfold sum_pnl at 1 in Hl. simpl in Hl. rewrite <- Hl. ring.
Qed.

End SingleBacktest.

(** On a bar, [_run_single_backtest] calls exactly one of the two decision
    methods: the log of a recording proxy grows by one call per bar, in the
    order of the bars. *)
Lemma single_loop_one_call_per_bar {S : Type} (C : StrategyClass S)
      (idxs : list nat) (e e' : Engine (S * list call))
      (ts ts' : list Trade) data :
  single_loop (spy C) (e, ts) data idxs = Ok (e', ts') ->
  exists l, snd (strategy e') = snd (strategy e) ++ l
            /\ map call_idx l = idxs.
Proof.
  revert e ts. induction idxs as [| idx rest IH]; cbn [single_loop]; intros e ts H.
  - injection H as <- <-. exists []. rewrite app_nil_r. now split.
  - bind_inv H. destruct a as [e1 ts1].
    apply IH in H. destruct H as (l & Hl & Hm).
    apply single_step_Ok in Ha.
    destruct (current_position e) as [pos |].
    + destruct Ha as (ex & reason & s' & Hx & Hs & _).
      apply spy_should_exit_log in Hx.
      exists (CallExit idx :: l). rewrite Hl, Hs, Hx, <- app_assoc.
      split; [reflexivity | simpl; now rewrite Hm].
    + destruct Ha as (en & s' & Hn & Hs & _).
      apply spy_should_enter_log in Hn.
      exists (CallEnter idx :: l). rewrite Hl, Hs, Hn, <- app_assoc.
      split; [reflexivity | simpl; now rewrite Hm].
Qed.

Lemma set_params_spy_log {S : Type} (C : StrategyClass S) (ps : params)
      (s : S * list call) :
  snd (set_params (spy C) s ps) = snd s.
Proof.
  unfold set_params. revert s.
  induction ps as [| p rest IH]; simpl; intros s; [reflexivity |].
  rewrite IH. reflexivity.
Qed.

Lemma single_backtest_one_call_per_bar {S : Type} (C : StrategyClass S)
      (ft ft' : ForwardTestEngine (S * list call)) data ps r :
  _run_single_backtest (spy C) ft data ps = Ok (r, ft') ->
  exists l, snd (strategy (base ft')) = snd (strategy (base ft)) ++ l
            /\ map call_idx l = seq 0 (length data).
Proof.
  intros H. apply _run_single_backtest_Ok in H.
  destruct H as (e & Hl & _ & _ & _ & ->).
  apply single_loop_one_call_per_bar in Hl.
  destruct Hl as (l & Hl & Hm). exists l. simpl in *.
  rewrite set_params_spy_log in Hl. now split.
Qed.

(** ** The scenarios of the spec *)

Example sizing_scenario :
  calculate_position_size Strategy.class sizing_strategy [sizing_bar] 0 100000
  = Ok 10.
Proof. reflexivity. Qed.

Example grid_of_eight :
  length (_generate_param_combinations main_param_grid) = 8%nat.
Proof. reflexivity. Qed.

Example grid_order :
  map (map snd) (_generate_param_combinations risk_grid)
  = [[1 # 100]; [2 # 100]]%Q.
Proof. reflexivity. Qed.

Example end_of_data_scenario :
  exists e' t,
    run_backtest Strategy.class engine0 bars100 = Ok e'
    /\ trades e' = [t]
    /\ entry_time t = 60 /\ exit_time t = 99
    /\ exit_reason t = Some "end_of_data"%string
    /\ (pnl t == (100 - 103) * inject_Z (position_size t) * 10)%Q
    /\ length (equity_curve e') = 100%nat
    /\ current_position e' = None.
Proof.
  eexists _, _. split; [vm_compute; reflexivity |].
  split; [reflexivity |]. simpl.
  repeat (split; [reflexivity |]). reflexivity.
Qed.

(** * Further properties of the code *)

(** ** Comparisons *)

Lemma Qltb_lt (a b : Q) : Qltb a b = true <-> (a < b)%Q.
Proof.
  unfold Qltb. rewrite negb_true_iff. split; intros H.
  - apply Qnot_le_lt. intros Hle. apply Qle_bool_iff in Hle. congruence.
  - destruct (Qle_bool b a) eqn:Hb; [| reflexivity].
    apply Qle_bool_iff in Hb. exfalso. apply (Qlt_not_le _ _ H Hb).
Qed.

Lemma Qgtb_gt (a b : Q) : Qgtb a b = true <-> (b < a)%Q.
Proof. unfold Qgtb. apply Qltb_lt. Qed.

Lemma Qgeb_ge (a b : Q) : Qgeb a b = true <-> (b <= a)%Q.
Proof. unfold Qgeb. apply Qle_bool_iff. Qed.

Lemma div_gt_pos (n d bound : Q) :
  (0 < n)%Q -> (0 <= bound)%Q -> ~ (d == 0)%Q ->
  div_gt n d bound = true -> (0 < d)%Q.
Proof.
  intros Hn Hb Hd H. unfold div_gt in H.
  destruct (Qeq_bool d 0) eqn:Hz.
  { apply Qeq_bool_eq in Hz. contradiction. }
  apply Qgtb_gt in H.
  destruct (Qlt_le_dec 0 d) as [Hpos | Hneg]; [exact Hpos |].
  exfalso.
  assert (Hdneg : (0 < - d)%Q).
  { apply Qle_lteq in Hneg. destruct Hneg as [Hlt | Heq].
    - lra.
    - elim Hd. exact Heq. }
  assert (Hq : (0 < n / d)%Q) by lra.
  pose proof (Qmult_lt_0_compat _ _ Hq Hdneg) as Hprod.
  assert (Heq : (n / d * - d == - n)%Q) by (field; exact Hd).
  rewrite Heq in Hprod. lra.
Qed.

(** ** The EMA crossover strategy (strategy.py) *)

Ltac split_ifs H :=
  repeat match type of H with
         | (if ?c then _ else _) = _ =>
             let E := fresh "E" in destruct c eqn:E; try discriminate H
         end.

(** What [Strategy.should_enter] has checked when it signals, and what it
    does to the instance. *)
Lemma should_enter_true_inv (s s' : Strategy.t) (data : DataFrame) (idx : nat) :
  Strategy.should_enter s data idx = Ok (true, s') ->
  (60 <= idx)%nat
  /\ s' = Strategy.set_highest_profit s 0
  /\ exists cur e9 e21 atr,
       iloc data (Z.of_nat idx) = Ok cur
       /\ ema_9 cur = Some e9 /\ ema_21 cur = Some e21
       /\ atr_14 cur = Some atr
       /\ (e21 < e9)%Q /\ (e9 < close cur)%Q /\ (0 < atr)%Q.
Proof.
  unfold Strategy.should_enter. intros H.
  destruct (idx <? 60)%nat eqn:Hidx; [discriminate H |].
  apply Nat.ltb_ge in Hidx. split; [exact Hidx |].
  bind_inv H. rename a into cur. bind_inv H. rename a into prev.
  destruct (ema_9 cur) as [e9 |] eqn:He9; [| discriminate H].
  destruct (ema_21 cur) as [e21 |] eqn:He21; [| discriminate H].
  destruct (atr_14 cur) as [atr |] eqn:Hatr; [| discriminate H].
  destruct (sma_50 cur) as [s50 |]; [| discriminate H].
  destruct (atr_avg cur) as [aavg |]; [| discriminate H].
  bind_inv H. rename a into crossed.
  destruct crossed; simpl negb in H; cbv iota in H; [| discriminate H].
  split_ifs H.
  bind_inv H. rename a into pulled.
  destruct pulled; simpl negb in H; cbv iota in H; [| discriminate H].
  cbv zeta in H. split_ifs H.
  injection H as <-. split; [reflexivity |].
  exists cur, e9, e21, atr. repeat split; auto.
  - destruct (Qgtb e9 e21) eqn:Hx; [now apply Qgtb_gt | discriminate Ha1].
  - apply negb_false_iff, andb_true_iff in E3. destruct E3 as [Hp _].
    apply andb_true_iff in Hp. destruct Hp as [Hp _]. now apply Qgtb_gt.
  - apply negb_false_iff in E4.
    apply negb_false_iff, andb_true_iff in E3. destruct E3 as [Hp Hover].
    apply andb_true_iff in Hp. destruct Hp as [Hp _]. apply Qgtb_gt in Hp.
    assert (Hx : (e21 < e9)%Q).
    { destruct (Qgtb e9 e21) eqn:Hx; [now apply Qgtb_gt | discriminate Ha1]. }
    assert (Hnz : ~ (atr == 0)%Q).
    { intros Hz. unfold div_lt in Hover.
      apply Qeq_bool_iff in Hz. rewrite Hz in Hover.
      apply Qltb_lt in Hover. lra. }
    apply (div_gt_pos (e9 - e21) atr (1 # 10)); auto; lra.
Qed.

Lemma should_enter_state (s s' : Strategy.t) (data : DataFrame) (idx : nat)
      (b : bool) :
  Strategy.should_enter s data idx = Ok (b, s') ->
  s' = if b then Strategy.set_highest_profit s 0 else s.
Proof.
  destruct b.
  - intros H. now apply should_enter_true_inv in H.
  - unfold Strategy.should_enter. intros H.
    destruct (idx <? 60)%nat; [now injection H as <- |].
    bind_inv H. bind_inv H.
    destruct (ema_9 a); [| now injection H as <-].
    destruct (ema_21 a); [| now injection H as <-].
    destruct (atr_14 a); [| now injection H as <-].
    destruct (sma_50 a); [| now injection H as <-].
    destruct (atr_avg a); [| now injection H as <-].
    bind_inv H.
    repeat match type of H with
           | (if ?c then _ else _) = _ =>
               destruct c; [now injection H as <- |]
           end.
    bind_inv H. cbv zeta in H.
    repeat match type of H with
           | (if ?c then _ else _) = _ =>
               destruct c; [now injection H as <- |]
           end.
    discriminate H.
Qed.

Lemma iloc_in_range (data : DataFrame) (j : Z) :
  - Z.of_nat (length data) <= j < Z.of_nat (length data) ->
  exists b, iloc data j = Ok b.
Proof.
  intros Hj. unfold iloc.
  set (n := Z.of_nat (length data)) in *.
  set (k := if j <? 0 then n + j else j).
  assert (Hk : 0 <= k < n).
  { unfold k. destruct (j <? 0) eqn:Hneg.
    - apply Z.ltb_lt in Hneg. lia.
    - apply Z.ltb_ge in Hneg. lia. }
  replace ((0 <=? k) && (k <? n)) with true.
  - destruct (nth_error data (Z.to_nat k)) as [b |] eqn:Hn.
    + now exists b.
    + apply nth_error_None in Hn. unfold n in Hk. lia.
  - symmetry. apply andb_true_iff. split.
    + apply Z.leb_le. lia.
    + apply Z.ltb_lt. lia.
Qed.

Lemma recent_crossover_loop_total (data : DataFrame) (i : Z)
      (lookbacks : list Z) :
  i < Z.of_nat (length data) ->
  Forall (fun lb => 0 <= lb) lookbacks ->
  exists b, Strategy.recent_crossover_loop data i lookbacks = Ok b.
Proof.
  intros Hi Hl.
  induction Hl as [| lb rest Hlb _ IH]; cbn [Strategy.recent_crossover_loop].
  - now exists false.
  - destruct (i - lb <? 0) eqn:Hneg; [now exists false |].
    apply Z.ltb_ge in Hneg.
    destruct (iloc_in_range data (i - lb)) as [b1 ->]; [lia |].
    destruct (iloc_in_range data (i - lb - 1)) as [b2 ->]; [lia |].
    cbn [bind].
    match goal with
    | |- exists b, (if ?c then _ else _) = _ => destruct c
    end; [now exists true | exact IH].
Qed.

Lemma had_pullback_loop_total (data : DataFrame) (i : Z)
      (lookbacks : list Z) :
  i < Z.of_nat (length data) ->
  Forall (fun lb => 0 <= lb) lookbacks ->
  exists b, Strategy.had_pullback_loop data i lookbacks = Ok b.
Proof.
  intros Hi Hl.
  induction Hl as [| lb rest Hlb _ IH]; cbn [Strategy.had_pullback_loop].
  - now exists false.
  - destruct (i - lb <? 0) eqn:Hneg; [now exists false |].
    apply Z.ltb_ge in Hneg.
    destruct (iloc_in_range data (i - lb)) as [b1 ->]; [lia |].
    cbn [bind].
    match goal with
    | |- exists b, (if ?c then _ else _) = _ => destruct c
    end; [now exists true |].
    destruct (iloc_in_range data (i - lb - 1)) as [b2 ->]; [lia |].
    cbn [bind].
    match goal with
    | |- exists b, (if ?c then _ else _) = _ => destruct c
    end; [now exists true | exact IH].
Qed.

(** On a bar of the frame [Strategy.should_enter] returns: no lookup of
    its scans leaves the frame. *)
Lemma should_enter_total (s : Strategy.t) (data : DataFrame) (idx : nat) :
  (idx < length data)%nat ->
  exists b s', Strategy.should_enter s data idx = Ok (b, s').
Proof.
  intros Hidx. unfold Strategy.should_enter.
  destruct (idx <? 60)%nat eqn:H60; [now eexists _, _ |].
  apply Nat.ltb_ge in H60.
  destruct (iloc_in_range data (Z.of_nat idx)) as [cur ->]; [lia |].
  destruct (iloc_in_range data (Z.of_nat idx - 1)) as [prev ->]; [lia |].
  cbn [bind].
  destruct (ema_9 cur); [| now eexists _, _].
  destruct (ema_21 cur); [| now eexists _, _].
  destruct (atr_14 cur); [| now eexists _, _].
  destruct (sma_50 cur); [| now eexists _, _].
  destruct (atr_avg cur); [| now eexists _, _].
  assert (Hc : exists b,
             (if Qgtb q q0
              then Strategy.recent_crossover_loop data (Z.of_nat idx)
                     [0; 1; 2; 3; 4; 5]
              else Ok false) = Ok b).
  { destruct (Qgtb q q0); [| now exists false].
    apply recent_crossover_loop_total; [lia |].
    repeat constructor; lia. }
  destruct Hc as [c ->]. cbn [bind].
  repeat match goal with
         | |- exists b s', (if ?c then _ else _) = _ =>
             destruct c; [now eexists _, _ |]
         end.
  assert (Hp : exists b,
             (if Strategy.use_pullback_filter s
              then Strategy.had_pullback_loop data (Z.of_nat idx)
                     (map Z.of_nat (seq 1 (Strategy.pullback_lookback s)))
              else Ok true) = Ok b).
  { destruct (Strategy.use_pullback_filter s); [| now exists true].
    apply had_pullback_loop_total; [lia |].
    apply Forall_forall. intros lb Hin. apply in_map_iff in Hin.
    destruct Hin as (k & <- & _). lia. }
  destruct Hp as [p ->]. cbn [bind]. cbv zeta.
  repeat match goal with
         | |- exists b s', (if ?c then _ else _) = _ =>
             destruct c; [now eexists _, _ |]
         end.
  now eexists _, _.
Qed.

(** What a decision of [Strategy.should_exit] rests on. *)
Lemma should_exit_inv (s s' : Strategy.t) (data : DataFrame) (idx : nat)
      (pos : Position) (ex : bool) (r : option string) :
  Strategy.should_exit s data idx pos = Ok (ex, r, s') ->
  exists cur pv,
    iloc data (Z.of_nat idx) = Ok cur
    /\ symbol_point_value (Strategy.symbol s) = Ok pv
    /\ s' = Strategy.set_highest_profit s
              (let profit := ((close cur - p_entry_price pos)
                              * inject_Z (p_position_size pos) * pv)%Q in
               if Qgtb profit (Strategy.highest_profit s) then profit
               else Strategy.highest_profit s)
    /\ (ex = false -> r = None)
    /\ (ex = true ->
        r = Some "stop_loss"%string \/ r = Some "take_profit"%string
        \/ r = Some "trailing_stop"%string
        \/ r = Some "opposite_crossover"%string)
    /\ ((low cur <= p_stop_loss pos)%Q <-> r = Some "stop_loss"%string)
    /\ (r = Some "take_profit"%string -> (p_take_profit pos <= high cur)%Q).
Proof.
  unfold Strategy.should_exit. intros H.
  bind_inv H. rename a into cur. bind_inv H. rename a into prev.
  bind_inv H. rename a into pv. cbv zeta in H.
  exists cur, pv. split; [exact Ha |]. split; [exact Ha1 |].
  destruct (Qle_bool (low cur) (p_stop_loss pos)) eqn:Hstop.
  { injection H as <- <- <-. apply Qle_bool_iff in Hstop.
    repeat split; auto; discriminate. }
  assert (Hns : ~ (low cur <= p_stop_loss pos)%Q).
  { intros Hle. apply Qle_bool_iff in Hle. congruence. }
  destruct (Qgeb (high cur) (p_take_profit pos)) eqn:Htp.
  { injection H as <- <- <-. apply Qgeb_ge in Htp.
    repeat split; auto; try discriminate; try contradiction. }
  match type of H with
  | (if ?c then _ else _) = _ => destruct c
  end.
  { injection H as <- <- <-.
    repeat split; auto; try discriminate; try contradiction. }
  match type of H with
  | (if ?c then _ else _) = _ => destruct c
  end; injection H as <- <- <-;
    repeat split; auto; try discriminate; try contradiction.
Qed.

Lemma should_exit_total (s : Strategy.t) (data : DataFrame) (idx : nat)
      (pos : Position) (pv : Q) :
  (idx < length data)%nat ->
  symbol_point_value (Strategy.symbol s) = Ok pv ->
  exists ex r s', Strategy.should_exit s data idx pos = Ok (ex, r, s').
Proof.
  intros Hidx Hpv. unfold Strategy.should_exit.
  destruct (iloc_in_range data (Z.of_nat idx)) as [cur ->]; [lia |].
  destruct (iloc_in_range data (Z.of_nat idx - 1)) as [prev ->]; [lia |].
  rewrite Hpv. cbn [bind]. cbv zeta.
  repeat match goal with
         | |- exists ex r s', (if ?c then _ else _) = _ =>
             destruct c; [now eexists _, _, _ |]
         end.
  now eexists _, _, _.
Qed.

Lemma symbol_point_value_pos (sym : string) (pv : Q) :
  symbol_point_value sym = Ok pv -> (0 < pv)%Q.
Proof.
  unfold symbol_point_value, symbol_specs. simpl.
  destruct (String.eqb sym "NQ"); [intros [= <-]; reflexivity |].
  destruct (String.eqb sym "ES"); [intros [= <-]; reflexivity |].
  destruct (String.eqb sym "EURUSD"); [intros [= <-]; reflexivity |].
  discriminate.
Qed.

(** ** Runs of the engine with the EMA strategy *)

Lemma _exit_trade_run {S : Type} (C : StrategyClass S) (e : Engine S)
      (data : DataFrame) (idx : Z) (reason : option string) (bar : Bar)
      (pos : Position) (pv : Q) :
  iloc data idx = Ok bar ->
  current_position e = Some pos ->
  symbol_point_value (symbol C (strategy e)) = Ok pv ->
  exists t,
    _exit_trade C e data idx reason
    = Ok (mkEngine (strategy e) (initial_capital e)
                   (account_value e + pnl t)%Q (trades e ++ [t])
                   (equity_curve e) None)
    /\ entry_price t = p_entry_price pos
    /\ exit_price t = resolve_exit_price reason pos bar
    /\ position_size t = p_position_size pos
    /\ exit_reason t = reason
    /\ pnl t = ((exit_price t - entry_price t)
                * inject_Z (position_size t) * pv)%Q.
Proof.
  intros Hb Hp Hpv. unfold _exit_trade. rewrite Hb, Hp. cbn [bind].
  rewrite Hpv. cbn [bind]. cbv zeta.
  match goal with
  | |- context [trades e ++ [?tr]] => exists tr
  end.
  split; [reflexivity |]. simpl. repeat split; reflexivity.
Qed.

Lemma _enter_trade_run {S : Type} (C : StrategyClass S) (e : Engine S)
      (data : DataFrame) (idx : nat) (bar : Bar) (atr pv : Q) :
  iloc data (Z.of_nat idx) = Ok bar ->
  atr_14 bar = Some atr ->
  symbol_point_value (symbol C (strategy e)) = Ok pv ->
  ~ (atr * atr_stop_multiplier C (strategy e) * pv == 0)%Q ->
  exists size,
    1 <= size
    /\ _enter_trade C e data idx
       = Ok (mkEngine (strategy e) (initial_capital e) (account_value e)
               (trades e) (equity_curve e)
               (Some (mkPosition (name bar) (close bar) size
                        (close bar - atr * atr_stop_multiplier C (strategy e))
                        (close bar
                         + atr * atr_stop_multiplier C (strategy e)
                           * reward_risk_ratio C (strategy e))
                        (account_value e)))).
Proof.
  intros Hb Hatr Hpv Hd. unfold _enter_trade, calculate_position_size.
  rewrite Hb. cbn [bind]. rewrite Hpv. cbn [bind]. rewrite Hatr.
  destruct (Qeq_bool _ 0) eqn:Hz.
  { apply Qeq_bool_eq in Hz. contradiction. }
  cbn [bind]. eexists. split; [| reflexivity]. lia.
Qed.

Section EmaRun.
Variables (sym : string) (m rr pv : Q).
Hypothesis Hpv : symbol_point_value sym = Ok pv.
Hypothesis Hm : ~ (m == 0)%Q.

Lemma ema_bar_step (e : Engine Strategy.t) (data : DataFrame) (idx : nat) :
  (idx < length data)%nat ->
  ema_inv sym m rr pv e ->
  exists e', bar_step Strategy.class e data idx = Ok e'
             /\ ema_inv sym m rr pv e'.
Proof.
  intros Hidx (Hsym & Hmul & Hrr & Hpos & Htr).
  pose proof (symbol_point_value_pos _ _ Hpv) as Hpvpos.
  unfold bar_step.
  destruct (iloc_in_range data (Z.of_nat idx)) as [bar Hbar]; [lia |].
  rewrite Hbar. cbn [bind]. cbv zeta. cbn [current_position strategy].
  destruct (current_position e) as [pos |] eqn:Hp.
  - destruct (should_exit_total (strategy e) data idx pos pv Hidx)
      as (ex & r & s' & Hx); [now rewrite Hsym |].
    change (should_exit Strategy.class) with Strategy.should_exit.
    rewrite Hx. cbn [bind].
    apply should_exit_inv in Hx.
    destruct Hx as (cur & pv' & Hcur & _ & Hs' & _ & _ & Hstop & Htp).
    assert (cur = bar) by congruence. subst cur.
    destruct (Hpos pos eq_refl) as (Hsize & Hsl & Htk).
    destruct ex.
    + destruct (_exit_trade_run Strategy.class
                  (set_strategy
                     (mkEngine (strategy e) (initial_capital e)
                        (account_value e) (trades e)
                        (equity_curve e
                         ++ [mkEquityPoint (name bar) (account_value e) 1])
                        (Some pos)) s')
                  data (Z.of_nat idx) r bar pos pv Hbar eq_refl)
        as (t & Hrun & Hep & Hxp & Hps & Hr & Hpnl).
      { simpl. rewrite Hs'. simpl. now rewrite Hsym. }
      rewrite Hrun. eexists. split; [reflexivity |].
      unfold ema_inv. simpl. rewrite Hs'. simpl.
      repeat split; auto; try discriminate.
      apply Forall_app. split; [exact Htr |]. constructor; [| constructor].
      assert (Hsz : (0 < inject_Z (position_size t))%Q).
      { rewrite Hps. unfold Qlt. simpl. lia. }
      unfold sound_trade. split; [lia |]. split; [exact Hpnl |].
      rewrite Hpnl, Hxp, Hep. split.
      * intros Hmp Hreason. rewrite Hr in Hreason. rewrite Hreason.
        unfold resolve_exit_price. simpl.
        specialize (Hsl Hmp).
        assert (Hneg : (0 < (p_entry_price pos - p_stop_loss pos)
                            * inject_Z (position_size t) * pv)%Q).
        { repeat apply Qmult_lt_0_compat; auto. lra. }
        lra.
      * intros Hmp Hrp Hreason. rewrite Hr in Hreason. rewrite Hreason.
        unfold resolve_exit_price. simpl.
        specialize (Htk Hmp Hrp).
        repeat apply Qmult_lt_0_compat; auto. lra.
    + eexists. split; [reflexivity |].
      unfold ema_inv. simpl. rewrite Hs'. simpl.
      repeat split; auto; injection H as <-; auto.
  - destruct (should_enter_total (strategy e) data idx Hidx)
      as (b & s' & Hn).
    change (should_enter Strategy.class) with Strategy.should_enter.
    rewrite Hn. cbn [bind].
    pose proof (should_enter_state _ _ _ _ _ Hn) as Hs'.
    destruct b.
    + apply should_enter_true_inv in Hn.
      destruct Hn as (_ & _ & cur & e9 & e21 & atr & Hcur & _ & _ & Hatr
                      & _ & _ & Hatrpos).
      assert (cur = bar) by congruence. subst cur.
      destruct (_enter_trade_run Strategy.class
                  (set_strategy
                     (mkEngine (strategy e) (initial_capital e)
                        (account_value e) (trades e)
                        (equity_curve e
                         ++ [mkEquityPoint (name bar) (account_value e) 0])
                        None) s')
                  data idx bar atr pv Hbar Hatr)
        as (size & Hsize & Hrun).
      { simpl. rewrite Hs'. simpl. now rewrite Hsym. }
      { simpl. rewrite Hs'. simpl. rewrite Hmul. intros Hz.
        apply Qmult_integral in Hz. destruct Hz as [Hz | Hz]; [| lra].
        apply Qmult_integral in Hz. destruct Hz as [Hz | Hz]; [lra |].
        contradiction. }
      rewrite Hrun. eexists. split; [reflexivity |].
      unfold ema_inv. simpl. rewrite Hs'. simpl.
      repeat split; auto; injection H as <-; simpl.
      * exact Hsize.
      * rewrite Hmul. intros Hmp.
        assert (0 < atr * m)%Q by now apply Qmult_lt_0_compat. lra.
      * rewrite Hmul, Hrr. intros Hmp Hrp.
        assert (0 < atr * m * rr)%Q by now repeat apply Qmult_lt_0_compat.
        lra.
    + eexists. split; [reflexivity |].
      unfold ema_inv. simpl. rewrite Hs'.
      repeat split; auto; discriminate.
Qed.

Lemma ema_bar_loop (data : DataFrame) (n k : nat) (e : Engine Strategy.t) :
  (k + n <= length data)%nat ->
  ema_inv sym m rr pv e ->
  exists e', bar_loop Strategy.class e data (seq k n) = Ok e'
             /\ ema_inv sym m rr pv e'.
Proof.
  revert k e. induction n as [| n IH]; intros k e Hk Hinv; cbn [seq bar_loop].
  - now exists e.
  - destruct (ema_bar_step e data k) as (e1 & -> & Hinv1); [lia | exact Hinv |].
    cbn [bind]. apply IH; [lia | exact Hinv1].
Qed.

Lemma ema_run_backtest (data : DataFrame) (e : Engine Strategy.t) :
  ema_inv sym m rr pv e ->
  (data = [] -> current_position e = None) ->
  exists e', run_backtest Strategy.class e data = Ok e'
             /\ ema_inv sym m rr pv e'.
Proof.
  intros Hinv Hempty. unfold run_backtest.
  destruct (ema_bar_loop data (length data) 0 e) as (e1 & Hloop & Hinv1);
    [lia | exact Hinv |].
  rewrite Hloop. cbn [bind].
  destruct (current_position e1) as [pos |] eqn:Hp;
    [| exists e1; now split].
  assert (Hne : (0 < length data)%nat).
  { destruct data; [| simpl; lia]. simpl in Hloop. injection Hloop as <-.
    rewrite (Hempty eq_refl) in Hp. discriminate Hp. }
  destruct (iloc_in_range data (Z.of_nat (length data) - 1)) as [bar Hbar];
    [lia |].
  destruct Hinv1 as (Hsym & Hmul & Hrr & Hpos & Htr).
  pose proof (symbol_point_value_pos _ _ Hpv) as Hpvpos.
  destruct (_exit_trade_run Strategy.class e1 data
              (Z.of_nat (length data) - 1) (Some "end_of_data"%string)
              bar pos pv Hbar Hp)
    as (t & Hrun & Hep & Hxp & Hps & Hr & Hpnl).
  { simpl. now rewrite Hsym. }
  rewrite Hrun. eexists. split; [reflexivity |].
  unfold ema_inv. simpl. repeat split; auto; try discriminate.
  apply Forall_app. split; [exact Htr |]. constructor; [| constructor].
  destruct (Hpos pos Hp) as (Hsize & _ & _).
  unfold sound_trade. split; [lia |]. split; [exact Hpnl |].
  rewrite Hr. split; intros; discriminate.
Qed.

End EmaRun.

Lemma ema_inv_init (s : Strategy.t) (capital pv : Q) :
  ema_inv (Strategy.symbol s) (Strategy.atr_stop_multiplier s)
          (Strategy.reward_risk_ratio s) pv (Engine_init s capital).
Proof.
  unfold ema_inv. simpl.
  split; [reflexivity |]. split; [reflexivity |]. split; [reflexivity |].
  split; [intros pos H; discriminate H | constructor].
Qed.



(** X2.  In a run of [Engine.run_backtest] with the EMA strategy, every
    recorded trade has a size of at least one contract and its PnL is
    (exit price - entry price) * size * point value of the strategy's
    symbol: the recomputation that diagnostics.py compares against never
    differs. *)
Theorem ema_trades_pnl_formula (s : Strategy.t) (capital pv : Q)
        (data : DataFrame) (e' : Engine Strategy.t) :
  symbol_point_value (Strategy.symbol s) = Ok pv ->
  ~ (Strategy.atr_stop_multiplier s == 0)%Q ->
  run_backtest Strategy.class (Engine_init s capital) data = Ok e' ->
  Forall (fun t =>
            1 <= position_size t
            /\ pnl t = ((exit_price t - entry_price t)
                        * inject_Z (position_size t) * pv)%Q)
         (trades e').
Proof.
  intros Hpv Hm Hrun.
  destruct (ema_run_backtest (Strategy.symbol s)
              (Strategy.atr_stop_multiplier s) (Strategy.reward_risk_ratio s)
              pv Hpv Hm data (Engine_init s capital))
    as (e1 & Hrun1 & (_ & _ & _ & _ & Htr)).
  - apply ema_inv_init.
  - reflexivity.
  - assert (e1 = e') by congruence. subst e1.
    eapply Forall_impl; [| exact Htr].
    intros t (Hsz & Hpnl & _). now split.
Qed.

Lemma ema_trades_pnl_formula_witness :
  Forall (fun t =>
            1 <= position_size t
            /\ pnl t = ((exit_price t - entry_price t)
                        * inject_Z (position_size t) * 10)%Q)
         (trades engine_closed_run).
Proof.
  apply (ema_trades_pnl_formula Strategy.init 100000 10 (bars61 99)).
  - reflexivity.
  - vm_compute. discriminate.
  - vm_compute. reflexivity.
Defined.

(** X3.  With a positive stop multiplier and a positive reward/risk ratio,
    every trade of a run with the EMA strategy that was closed for
    ['stop_loss'] has a negative PnL and every trade closed for
    ['take_profit'] a positive one: the stop is stored below the entry
    price and the target above it. *)
Theorem ema_stop_loses_target_wins (s : Strategy.t) (capital pv : Q)
        (data : DataFrame) (e' : Engine Strategy.t) :
  symbol_point_value (Strategy.symbol s) = Ok pv ->
  (0 < Strategy.atr_stop_multiplier s)%Q ->
  (0 < Strategy.reward_risk_ratio s)%Q ->
  run_backtest Strategy.class (Engine_init s capital) data = Ok e' ->
  Forall (fun t =>
            (exit_reason t = Some "stop_loss"%string -> (pnl t < 0)%Q)
            /\ (exit_reason t = Some "take_profit"%string -> (0 < pnl t)%Q))
         (trades e').
Proof.
  intros Hpv Hm Hrr Hrun.
  assert (Hm0 : ~ (Strategy.atr_stop_multiplier s == 0)%Q) by lra.
  destruct (ema_run_backtest (Strategy.symbol s)
              (Strategy.atr_stop_multiplier s) (Strategy.reward_risk_ratio s)
              pv Hpv Hm0 data (Engine_init s capital))
    as (e1 & Hrun1 & (_ & _ & _ & _ & Htr)).
  - apply ema_inv_init.
  - reflexivity.
  - assert (e1 = e') by congruence. subst e1.
    eapply Forall_impl; [| exact Htr].
    intros t (_ & _ & Hsl & Htp). split; auto.
Qed.

Lemma ema_stop_loses_target_wins_witness :
  Forall (fun t =>
            (exit_reason t = Some "stop_loss"%string -> (pnl t < 0)%Q)
            /\ (exit_reason t = Some "take_profit"%string -> (0 < pnl t)%Q))
         (trades engine_stopped_run).
Proof.
  apply (ema_stop_loses_target_wins Strategy.init 100000 10 bars62).
  - reflexivity.
  - reflexivity.
  - reflexivity.
  - vm_compute. reflexivity.
Defined.

Example stopped_run_trade :
  map exit_reason (trades engine_stopped_run) = [Some "stop_loss"%string]
  /\ (sum_pnl (trades engine_stopped_run) == - (500))%Q.
Proof. split; vm_compute; reflexivity. Qed.

(** X4.  [Strategy.should_enter] signals an entry only from bar 60 on, on
    a bar inside the frame whose ATR is positive and whose close is above
    the 9 EMA, itself above the 21 EMA.  A signal resets [highest_profit]
    to zero and changes nothing else of the instance; without a signal the
    instance is unchanged. *)
Theorem ema_entry_signal (s s' : Strategy.t) (data : DataFrame) (idx : nat)
        (b : bool) :
  Strategy.should_enter s data idx = Ok (b, s') ->
  s' = (if b then Strategy.set_highest_profit s 0 else s)
  /\ (b = true ->
      (60 <= idx < length data)%nat
      /\ exists cur e9 e21 atr,
           nth_error data idx = Some cur
           /\ ema_9 cur = Some e9 /\ ema_21 cur = Some e21
           /\ atr_14 cur = Some atr
           /\ (e21 < e9)%Q /\ (e9 < close cur)%Q /\ (0 < atr)%Q).
Proof.
  intros H. split; [now apply should_enter_state in H |].
  intros ->. apply should_enter_true_inv in H.
  destruct H as (H60 & _ & cur & e9 & e21 & atr & Hcur & Hrest).
  apply iloc_nat in Hcur.
  assert (idx < length data)%nat.
  { apply nth_error_Some. congruence. }
  split; [lia |]. exists cur, e9, e21, atr. now split.
Qed.

Lemma ema_entry_signal_witness :
  Strategy.set_highest_profit Strategy.init 0
  = (if true then Strategy.set_highest_profit Strategy.init 0
     else Strategy.init)
  /\ (true = true ->
      (60 <= 60 < length (bars61 99))%nat
      /\ exists cur e9 e21 atr,
           nth_error (bars61 99) 60 = Some cur
           /\ ema_9 cur = Some e9 /\ ema_21 cur = Some e21
           /\ atr_14 cur = Some atr
           /\ (e21 < e9)%Q /\ (e9 < close cur)%Q /\ (0 < atr)%Q).
Proof.
  apply (ema_entry_signal Strategy.init _ (bars61 99) 60 true).
  vm_compute. reflexivity.
Defined.

(** X5.  A decision of [Strategy.should_exit]: the stop-loss is reported
    exactly when the bar's low is at or under the stored stop, before any
    other exit; a take-profit only when the high has reached the target; a
    reported exit carries one of the four reasons of the strategy and no
    exit carries none.  The call changes [highest_profit] only, and never
    lowers it. *)
Theorem ema_exit_decision (s s' : Strategy.t) (data : DataFrame) (idx : nat)
        (pos : Position) (ex : bool) (r : option string) :
  Strategy.should_exit s data idx pos = Ok (ex, r, s') ->
  exists cur,
    nth_error data idx = Some cur
    /\ ((low cur <= p_stop_loss pos)%Q <-> r = Some "stop_loss"%string)
    /\ (r = Some "take_profit"%string -> (p_take_profit pos <= high cur)%Q)
    /\ (ex = false -> r = None)
    /\ (ex = true ->
        r = Some "stop_loss"%string \/ r = Some "take_profit"%string
        \/ r = Some "trailing_stop"%string
        \/ r = Some "opposite_crossover"%string)
    /\ s' = Strategy.set_highest_profit s (Strategy.highest_profit s')
    /\ (Strategy.highest_profit s <= Strategy.highest_profit s')%Q.
Proof.
  intros H. apply should_exit_inv in H.
  destruct H as (cur & pv & Hcur & _ & Hs' & Hnone & Hreasons & Hstop & Htp).
  exists cur. split; [now apply iloc_nat |].
  split; [exact Hstop |]. split; [exact Htp |].
  split; [exact Hnone |]. split; [exact Hreasons |].
  rewrite Hs'. simpl. split; [reflexivity |].
  destruct (Qgtb _ _) eqn:Hg.
  - apply Qgtb_gt in Hg. lra.
  - lra.
Qed.

Lemma ema_exit_decision_witness :
  exists cur,
    nth_error bars62 61 = Some cur
    /\ ((low cur <= p_stop_loss position_in_trade)%Q
        <-> Some "stop_loss"%string = Some "stop_loss"%string)
    /\ (Some "stop_loss"%string = Some "take_profit"%string ->
        (p_take_profit position_in_trade <= high cur)%Q)
    /\ (true = false -> Some "stop_loss"%string = None)
    /\ (true = true ->
        Some "stop_loss"%string = Some "stop_loss"%string
        \/ Some "stop_loss"%string = Some "take_profit"%string
        \/ Some "stop_loss"%string = Some "trailing_stop"%string
        \/ Some "stop_loss"%string = Some "opposite_crossover"%string)
    /\ Strategy.init
       = Strategy.set_highest_profit Strategy.init
           (Strategy.highest_profit Strategy.init)
    /\ (Strategy.highest_profit Strategy.init
        <= Strategy.highest_profit Strategy.init)%Q.
Proof.
  apply (ema_exit_decision Strategy.init Strategy.init bars62 61
           position_in_trade true (Some "stop_loss"%string)).
  vm_compute. reflexivity.
Defined.

(** ** Runs of the engine with any strategy *)

Lemma balances_snoc (ts : list Trade) (t : Trade) (start : Q) :
  balances start ts ->
  equity_after t = (final_balance start ts + pnl t)%Q ->
  balances start (ts ++ [t]).
Proof.
  revert start. induction ts as [| t0 rest IH]; simpl; intros start Hb Ht.
  - now split.
  - destruct Hb as [H0 Hrest]. split; [exact H0 |]. now apply IH.
Qed.

Lemma final_balance_snoc (ts : list Trade) (t : Trade) (start : Q) :
  final_balance start (ts ++ [t]) = equity_after t.
Proof. unfold final_balance. rewrite fold_left_app. reflexivity. Qed.

Section Balances.
Context {S : Type} (C : StrategyClass S).

Lemma books_balances (e e' : Engine S) :
  (books_kept e e' \/ books_one_trade e e') ->
  initial_capital e' = initial_capital e ->
  balances (initial_capital e) (trades e)
  /\ account_value e = final_balance (initial_capital e) (trades e) ->
  balances (initial_capital e') (trades e')
  /\ account_value e' = final_balance (initial_capital e') (trades e').
Proof.
  intros [[Ha Ht] | (t & Ht & Ha & Heq)] Hi [Hb Hacc]; rewrite Hi, Ht.
  - rewrite Ha. now split.
  - rewrite final_balance_snoc. split; [| congruence].
    apply balances_snoc; [exact Hb |]. congruence.
Qed.

Lemma bar_loop_balances (idxs : list nat) (e e' : Engine S) data :
  bar_loop C e data idxs = Ok e' ->
  balances (initial_capital e) (trades e)
  /\ account_value e = final_balance (initial_capital e) (trades e) ->
  balances (initial_capital e') (trades e')
  /\ account_value e' = final_balance (initial_capital e') (trades e').
Proof.
  revert e. induction idxs as [| idx rest IH]; cbn [bar_loop]; intros e H Hb.
  - now injection H as <-.
  - bind_inv H. apply bar_step_books in Ha. destruct Ha as [Hk Hi].
    apply (IH a H). now apply (books_balances e).
Qed.

Lemma firstn_snoc_nth {A : Type} (l : list A) (k : nat) (x : A) :
  nth_error l k = Some x -> firstn (Datatypes.S k) l = firstn k l ++ [x].
Proof.
  revert k. induction l as [| a l IH]; intros k H.
  - destruct k; discriminate H.
  - destruct k as [| k]; simpl in *.
    + now injection H as ->.
    + f_equal. now apply IH.
Qed.

Lemma bar_step_curve (e e' : Engine S) data (k : nat) :
  bar_step C e data k = Ok e' ->
  exists bar,
    nth_error data k = Some bar
    /\ equity_curve e'
       = equity_curve e
         ++ [mkEquityPoint (name bar) (account_value e)
               (match current_position e with Some _ => 1 | None => 0 end)].
Proof.
  intros H. destruct (current_position e) as [pos |] eqn:Hp.
  - apply (bar_step_open C _ _ _ _ pos Hp) in H.
    destruct H as (bar & ex & reason & s' & Hb & _ & H). cbv zeta in H.
    exists bar. split; [now apply iloc_nat |].
    destruct ex.
    + apply _exit_trade_Ok in H.
      destruct H as (b & p & t & _ & _ & _ & _ & _ & _ & _ & ->). reflexivity.
    + now subst e'.
  - apply (bar_step_flat C _ _ _ _ Hp) in H.
    destruct H as (bar & en & s' & Hb & _ & H). cbv zeta in H.
    exists bar. split; [now apply iloc_nat |].
    destruct en.
    + apply _enter_trade_Ok in H.
      destruct H as (b & p & _ & _ & _ & _ & ->). reflexivity.
    + now subst e'.
Qed.

Lemma bar_loop_curve (data : DataFrame) (n k : nat) (e e' : Engine S) :
  bar_loop C e data (seq k n) = Ok e' ->
  map timestamp (equity_curve e) = map name (firstn k data) ->
  map timestamp (equity_curve e') = map name (firstn (k + n) data).
Proof.
  revert k e. induction n as [| n IH]; cbn [seq bar_loop]; intros k e H Ht.
  - injection H as <-. now rewrite Nat.add_0_r.
  - bind_inv H. apply bar_step_curve in Ha.
    destruct Ha as (bar & Hn & Hc).
    replace (k + Datatypes.S n)%nat with (Datatypes.S k + n)%nat by lia.
    apply (IH _ a H).
    rewrite Hc, map_app, Ht, (firstn_snoc_nth _ _ _ Hn), map_app.
    reflexivity.
Qed.

End Balances.

(** X6.  The books of a run of [Engine.run_backtest] from a fresh engine,
    for any strategy: the final account value is the initial capital plus
    the PnL of the recorded trades; the [equity_after] of each trade is the
    balance before it plus its PnL, the first balance being the initial
    capital; and the final account value is the [equity_after] of the last
    trade. *)
Theorem engine_running_balance {S : Type} (C : StrategyClass S) (strat : S)
        (capital : Q) (data : DataFrame) (e' : Engine S) :
  run_backtest C (Engine_init strat capital) data = Ok e' ->
  (account_value e' == capital + sum_pnl (trades e'))%Q
  /\ balances capital (trades e')
  /\ account_value e' = final_balance capital (trades e').
Proof.
  intros H. pose proof (run_backtest_fresh_conserved C _ _ _ _ H) as [Hc Hi].
  split; [exact Hc |].
  unfold run_backtest in H. bind_inv H. rename a into e1.
  apply bar_loop_balances in Ha; [| simpl; now split].
  simpl in Ha.
  assert (He1 : initial_capital e1 = capital).
  { destruct (current_position e1).
    - apply _exit_trade_books in H. destruct H as [_ Hi']. congruence.
    - injection H as <-. exact Hi. }
  rewrite He1 in Ha.
  destruct (current_position e1).
  - apply _exit_trade_books in H. destruct H as [Hb Hi'].
    pose proof (books_balances e1 e' (or_intror Hb) Hi') as Hbb.
    rewrite He1, Hi in Hbb. now apply Hbb.
  - now injection H as <-.
Qed.

Lemma engine_running_balance_witness :
  (account_value engine_stopped_run
   == 100000 + sum_pnl (trades engine_stopped_run))%Q
  /\ balances 100000 (trades engine_stopped_run)
  /\ account_value engine_stopped_run
     = final_balance 100000 (trades engine_stopped_run).
Proof.
  apply (engine_running_balance Strategy.class Strategy.init 100000 bars62).
  vm_compute. reflexivity.
Defined.

(** X7.  [Engine.run_backtest] records one equity point per bar, in the
    order of the bars and under the bar's timestamp, for any strategy; a
    run from a fresh engine ends with no position open, and a position
    that the bar loop has left is closed in a last trade for
    ['end_of_data'] at the close and timestamp of the last bar. *)
Theorem engine_curve_and_closure {S : Type} (C : StrategyClass S) (strat : S)
        (capital : Q) (data : DataFrame) (e' : Engine S) :
  run_backtest C (Engine_init strat capital) data = Ok e' ->
  map timestamp (equity_curve e') = map name data
  /\ current_position e' = None
  /\ forall e1 pos,
       bar_loop C (Engine_init strat capital) data (seq 0 (length data))
       = Ok e1 ->
       current_position e1 = Some pos ->
       exists bar t,
         nth_error data (length data - 1) = Some bar
         /\ trades e' = trades e1 ++ [t]
         /\ exit_reason t = Some "end_of_data"%string
         /\ exit_price t = close bar
         /\ exit_time t = name bar.
Proof.
  intros H. pose proof (run_backtest_closes C _ _ _ H) as [Hnone Hlast].
  split; [| now split].
  unfold run_backtest in H. bind_inv H. rename a into e1.
  apply bar_loop_curve in Ha; [| reflexivity].
  simpl in Ha. rewrite firstn_all in Ha.
  destruct (current_position e1) as [pos0 |].
  - apply _exit_trade_Ok in H.
    destruct H as (b & p & t & _ & _ & _ & _ & _ & _ & _ & ->). exact Ha.
  - now injection H as <-.
Qed.

Lemma engine_curve_and_closure_witness :
  map timestamp (equity_curve engine_closed_run) = map name (bars61 99)
  /\ current_position engine_closed_run = None
  /\ forall e1 pos,
       bar_loop Strategy.class (Engine_init Strategy.init 100000) (bars61 99)
                (seq 0 (length (bars61 99)))
       = Ok e1 ->
       current_position e1 = Some pos ->
       exists bar t,
         nth_error (bars61 99) (length (bars61 99) - 1) = Some bar
         /\ trades engine_closed_run = trades e1 ++ [t]
         /\ exit_reason t = Some "end_of_data"%string
         /\ exit_price t = close bar
         /\ exit_time t = name bar.
Proof.
  apply (engine_curve_and_closure Strategy.class Strategy.init 100000
           (bars61 99)).
  vm_compute. reflexivity.
Defined.

(** ** Position sizing *)




(** ** The parameter grid *)

Lemma flat_map_cons_length {A : Type} (v : list A) (P : list (list A)) :
  length (flat_map (fun x => map (cons x) P) v) = (length v * length P)%nat.
Proof.
  induction v as [| x v IH]; simpl; [reflexivity |].
  rewrite length_app, length_map, IH. reflexivity.
Qed.

Lemma product_length (values : list (list Q)) :
  length (product values)
  = fold_right (fun v n => (length v * n)%nat) 1%nat values.
Proof.
  induction values as [| v rest IH]; simpl; [reflexivity |].
  rewrite flat_map_cons_length, IH. reflexivity.
Qed.

Lemma product_In (values : list (list Q)) (v : list Q) :
  In v (product values) <-> Forall2 (fun x l => In x l) v values.
Proof.
  revert v. induction values as [| l rest IH]; simpl; intros v.
  - split.
    + intros [<- | []]. constructor.
    + intros H. inversion H. now left.
  - rewrite in_flat_map. split.
    + intros (x & Hx & Hin). apply in_map_iff in Hin.
      destruct Hin as (v' & <- & Hv'). constructor; [exact Hx |].
      now apply IH.
    + intros H. inversion H as [| x l' v' rest' Hx Hrest]; subst.
      exists x. split; [exact Hx |]. apply in_map_iff.
      exists v'. split; [reflexivity |]. now apply IH.
Qed.

Lemma grid_is_exhaustive_empty (param_grid : list (string * list Q)) :
  In [] (map snd param_grid) -> _generate_param_combinations param_grid = [].
Proof.
  intros Hin. unfold _generate_param_combinations.
  assert (Hz : length (product (map snd param_grid)) = 0%nat).
  { rewrite product_length.
    induction param_grid as [| kv rest IH]; simpl in *; [contradiction |].
    destruct Hin as [Heq | Hin].
    - rewrite Heq. reflexivity.
    - rewrite (IH Hin). lia. }
  destruct (product (map snd param_grid)); [reflexivity | discriminate Hz].
Qed.

(** X9.  [_generate_param_combinations] is exhaustive: the number of
    combinations is the product of the lengths of the value lists, a
    combination is exactly a choice of one value from each list, paired
    with the keys of the grid in their order; an empty value list leaves no
    combination. *)
Theorem grid_is_exhaustive (param_grid : list (string * list Q)) :
  length (_generate_param_combinations param_grid) = grid_size param_grid
  /\ (forall ps,
        In ps (_generate_param_combinations param_grid) <->
        exists v, Forall2 (fun x l => In x l) v (map snd param_grid)
                  /\ ps = combine (map fst param_grid) v)
  /\ (forall ps, In ps (_generate_param_combinations param_grid) ->
                 map fst ps = map fst param_grid)
  /\ (In [] (map snd param_grid) ->
      _generate_param_combinations param_grid = []).
Proof.
  unfold _generate_param_combinations, grid_size.
  split; [| split; [| split]].
  - rewrite length_map, product_length.
    induction param_grid as [| kv rest IH]; simpl; [reflexivity |].
    now rewrite IH.
  - intros ps. rewrite in_map_iff. split.
    + intros (v & <- & Hv). exists v. split; [| reflexivity].
      now apply product_In.
    + intros (v & Hv & ->). exists v. split; [reflexivity |].
      now apply product_In.
  - intros ps Hin. apply in_map_iff in Hin. destruct Hin as (v & <- & Hv).
    apply product_In in Hv.
    assert (Hlen : length v = length (map snd param_grid))
      by (eapply Forall2_length; exact Hv).
    rewrite length_map in Hlen.
    clear Hv. revert v Hlen.
    induction param_grid as [| kv rest IH]; intros v Hlen.
    + reflexivity.
    + destruct v as [| x v]; [discriminate Hlen |].
      simpl. f_equal. apply IH. simpl in Hlen. lia.
  - intros Hin.
    assert (Hz : length (product (map snd param_grid)) = 0%nat).
    { rewrite product_length.
      induction param_grid as [| kv rest IH]; simpl in *; [contradiction |].
      destruct Hin as [Heq | Hin].
      - rewrite Heq. reflexivity.
      - rewrite (IH Hin). lia. }
    destruct (product (map snd param_grid)); [reflexivity | discriminate Hz].
Qed.

(** ** The choice of the grid search *)

Lemma score_gt_false (x b : Q) : score_gt x (Score b) = false -> (x <= b)%Q.
Proof.
  simpl. intros H. destruct (Qlt_le_dec b x) as [Hlt | Hle]; [| exact Hle].
  apply Qgtb_gt in Hlt. congruence.
Qed.

Lemma optimize_loop_choice {S : Type} (C : StrategyClass S) (data : DataFrame)
      (combos : list params) (ft ft' : ForwardTestEngine S)
      (b0 best : option params) (s0 sc : score) :
  optimize_loop C ft data combos (b0, s0) = Ok (best, sc, ft') ->
  exists runs,
    trial_runs C ft data combos = Ok runs
    /\ map fst runs = combos
    /\ ((best = b0 /\ sc = s0
         /\ Forall (fun x => score_gt (snd x) s0 = false) runs)
        \/ exists ps q pre post,
             best = Some ps /\ sc = Score q
             /\ runs = pre ++ (ps, q) :: post
             /\ score_gt q s0 = true
             /\ Forall (fun x => (snd x < q)%Q) pre
             /\ Forall (fun x => (snd x <= q)%Q) post).
Proof.
  revert ft b0 s0.
  induction combos as [| c rest IH];
    cbn [optimize_loop trial_runs]; intros ft b0 s0 H.
  - injection H as <- <- _. exists []. split; [reflexivity |].
    split; [reflexivity |]. left. repeat split. constructor.
  - bind_inv H. destruct a as [r ft1]. rewrite Ha. cbn [bind].
    cbv zeta in H. cbn [snd] in H.
    set (x := _calculate_fitness_score r) in *.
    destruct (score_gt x s0) eqn:Hgt.
    + apply IH in H. destruct H as (runs & -> & Hkeys & Hcase).
      cbn [bind]. exists ((c, x) :: runs). split; [reflexivity |].
      split; [simpl; now rewrite Hkeys |]. right.
      destruct Hcase as [(-> & -> & Hall)
                        | (ps & q & pre & post & -> & -> & -> & Hq & Hpre
                           & Hpost)].
      * exists c, x, [], runs. repeat split; auto.
        eapply Forall_impl; [| exact Hall].
        intros y Hy. now apply score_gt_false.
      * apply Qgtb_gt in Hq.
        exists ps, q, ((c, x) :: pre), post. repeat split; auto.
        destruct s0 as [| b]; [reflexivity |].
        simpl in *. apply Qgtb_gt. apply Qgtb_gt in Hgt. lra.
    + apply IH in H. destruct H as (runs & -> & Hkeys & Hcase).
      cbn [bind]. exists ((c, x) :: runs). split; [reflexivity |].
      split; [simpl; now rewrite Hkeys |].
      destruct Hcase as [(-> & -> & Hall)
                        | (ps & q & pre & post & -> & -> & -> & Hq & Hpre
                           & Hpost)].
      * left. repeat split. constructor; [exact Hgt | exact Hall].
      * right. exists ps, q, ((c, x) :: pre), post. repeat split; auto.
        constructor; [| exact Hpre].
        destruct s0 as [| b]; [discriminate Hgt |].
        apply score_gt_false in Hgt. simpl in Hq. apply Qgtb_gt in Hq.
        simpl. lra.
Qed.

(** X10.  [_optimize_parameters] returns the first combination of the
    grid with the greatest fitness: every earlier trial scored strictly
    less and every later one no more.  It returns no parameters, with the
    score at minus infinity, exactly when the grid has no combination. *)
Theorem optimizer_picks_first_best {S : Type} (C : StrategyClass S)
        (ft ft' : ForwardTestEngine S) (data : DataFrame)
        (param_grid : list (string * list Q)) (best : option params)
        (sc : score) :
  _optimize_parameters C ft data param_grid = Ok (best, sc, ft') ->
  exists runs,
    trial_runs C ft data (_generate_param_combinations param_grid) = Ok runs
    /\ map fst runs = _generate_param_combinations param_grid
    /\ match best with
       | None => _generate_param_combinations param_grid = [] /\ sc = NegInf
       | Some ps =>
           exists q pre post,
             sc = Score q
             /\ runs = pre ++ (ps, q) :: post
             /\ Forall (fun x => (snd x < q)%Q) pre
             /\ Forall (fun x => (snd x <= q)%Q) post
       end.
Proof.
  unfold _optimize_parameters. intros H.
  apply optimize_loop_choice in H.
  destruct H as (runs & Hruns & Hkeys & Hcase).
  exists runs. split; [exact Hruns |]. split; [exact Hkeys |].
  destruct Hcase as [(-> & -> & Hall)
                    | (ps & q & pre & post & -> & -> & -> & _ & Hpre & Hpost)].
  - split; [| reflexivity].
    destruct runs as [| x runs]; [now rewrite <- Hkeys |].
    inversion Hall as [| ? ? Hx _]. discriminate Hx.
  - exists q, pre, post. repeat split; auto.
Qed.

Lemma optimizer_picks_first_best_witness :
  exists runs,
    trial_runs Strategy.class wf0 (bars61 97)
               (_generate_param_combinations risk_grid) = Ok runs
    /\ map fst runs = _generate_param_combinations risk_grid
    /\ match fst (fst risk_search) with
       | None => _generate_param_combinations risk_grid = []
                 /\ snd (fst risk_search) = NegInf
       | Some ps =>
           exists q pre post,
             snd (fst risk_search) = Score q
             /\ runs = pre ++ (ps, q) :: post
             /\ Forall (fun x => (snd x < q)%Q) pre
             /\ Forall (fun x => (snd x <= q)%Q) post
       end.
Proof.
  apply (optimizer_picks_first_best Strategy.class wf0 (snd risk_search)
           (bars61 97) risk_grid).
  vm_compute. reflexivity.
Defined.

(** ** Slices of the frame *)

Lemma iloc_slice_length (data : DataFrame) (a b : nat) :
  (a <= b <= length data)%nat -> length (iloc_slice data a b) = (b - a)%nat.
Proof.
  intros H. unfold iloc_slice. rewrite length_firstn, length_skipn. lia.
Qed.

Lemma iloc_slice_nth (data : DataFrame) (a b i : nat) :
  (i < b - a)%nat ->
  nth_error (iloc_slice data a b) i = nth_error data (a + i).
Proof.
  intros H. unfold iloc_slice.
  rewrite nth_error_firstn.
  destruct (i <? b - a)%nat eqn:Hlt.
  - apply nth_error_skipn.
  - apply Nat.ltb_ge in Hlt. lia.
Qed.

Lemma index_first_Ok (data : DataFrame) (t : Z) :
  index_first data = Ok t ->
  exists bar, nth_error data 0 = Some bar /\ t = name bar.
Proof.
  destruct data as [| b rest]; simpl; [discriminate |].
  intros [= <-]. now exists b.
Qed.

Lemma index_last_Ok (data : DataFrame) (t : Z) :
  index_last data = Ok t ->
  exists bar, nth_error data (length data - 1) = Some bar /\ t = name bar.
Proof.
  intros H.
  destruct (nth_error data (length data - 1)) as [bar |] eqn:Hn.
  - exists bar. split; [reflexivity |].
    rewrite (index_last_nth _ _ Hn) in H. now injection H as <-.
  - apply nth_error_None in Hn.
    destruct data as [| b rest]; [discriminate H | simpl in Hn; lia].
Qed.

(** ** The walk-forward loop *)

Section WalkForward.
Context {S : Type} (C : StrategyClass S).

Lemma _run_single_backtest_setup (ft ft' : ForwardTestEngine S) data ps r :
  _run_single_backtest C ft data ps = Ok (r, ft') -> same_setup ft ft'.
Proof.
  intros H. apply _run_single_backtest_Ok in H.
  destruct H as (e & _ & _ & _ & _ & ->). repeat split.
Qed.

Lemma optimize_loop_setup (combos : list params) (ft ft' : ForwardTestEngine S)
      data best best' :
  optimize_loop C ft data combos best = Ok (best', ft') -> same_setup ft ft'.
Proof.
  revert ft best. induction combos as [| c rest IH];
    cbn [optimize_loop]; intros ft best H.
  - injection H as _ <-. repeat split.
  - bind_inv H. destruct a as [r ft1].
    apply _run_single_backtest_setup in Ha. apply IH in H.
    unfold same_setup in *.
    destruct Ha as (A1 & A2 & A3 & A4 & A5 & A6).
    destruct H as (B1 & B2 & B3 & B4 & B5 & B6).
    repeat split; congruence.
Qed.

Lemma window_step_Ok (ft ft' : ForwardTestEngine S) (data : DataFrame)
      (grid : list (string * list Q)) (a num : nat) :
  (a + in_sample_bars ft + out_sample_bars ft <= length data)%nat ->
  window_step C ft data grid a num = Ok ft' ->
  in_sample_bars ft' = in_sample_bars ft
  /\ out_sample_bars ft' = out_sample_bars ft
  /\ step_size ft' = step_size ft
  /\ exists w,
       all_windows ft' = all_windows ft ++ [w]
       /\ oos_trades ft' = oos_trades ft ++ result_trades (oos_results w)
       /\ produced C (oos_results w)
       /\ window_at data ft a num w.
Proof.
  intros Hfit H. unfold window_step in H. cbv zeta in H.
  bind_inv H. rename a0 into t1. bind_inv H. rename a0 into t2.
  bind_inv H. rename a0 into t3. bind_inv H. rename a0 into t4.
  bind_inv H. destruct a0 as [[best best_score] ft1].
  destruct best as [bp |]; [| discriminate H].
  bind_inv H. destruct a0 as [r ft2]. injection H as <-.
  apply optimize_loop_setup in Ha3.
  assert (Htt : produced C r) by (eexists _, _, _, _; exact Ha4).
  apply _run_single_backtest_setup in Ha4.
  destruct Ha3 as (Hi1 & Ho1 & Hs1 & Hw1 & Ht1 & _).
  destruct Ha4 as (Hi2 & Ho2 & Hs2 & Hw2 & Ht2 & _).
  cbn [in_sample_bars out_sample_bars step_size all_windows oos_trades].
  split; [congruence |]. split; [congruence |]. split; [congruence |].
  eexists. split; [rewrite Hw2, Hw1; reflexivity |].
  cbn [oos_results result_trades].
  split; [rewrite Ht2, Ht1; reflexivity |]. split; [exact Htt |].
  set (n := in_sample_bars ft) in *. set (o := out_sample_bars ft) in *.
  apply index_first_Ok in Ha. destruct Ha as (b1 & Hb1 & ->).
  apply index_last_Ok in Ha0. destruct Ha0 as (b2 & Hb2 & ->).
  apply index_first_Ok in Ha1. destruct Ha1 as (b3 & Hb3 & ->).
  apply index_last_Ok in Ha2. destruct Ha2 as (b4 & Hb4 & ->).
  assert (Hn : (0 < n)%nat).
  { destruct n; [| lia]. unfold iloc_slice in Hb1.
    replace (a + 0 - a)%nat with 0%nat in Hb1 by lia. discriminate Hb1. }
  assert (Ho : (0 < o)%nat).
  { destruct o; [| lia]. unfold iloc_slice in Hb3.
    replace (a + n + 0 - (a + n))%nat with 0%nat in Hb3 by lia.
    discriminate Hb3. }
  rewrite iloc_slice_length in Hb2 by lia.
  rewrite iloc_slice_length in Hb4 by lia.
  rewrite iloc_slice_nth in Hb1 by lia.
  rewrite iloc_slice_nth in Hb2 by lia.
  rewrite iloc_slice_nth in Hb3 by lia.
  rewrite iloc_slice_nth in Hb4 by lia.
  unfold window_at. cbn.
  split; [reflexivity |]. split; [exact Hn |]. split; [exact Ho |].
  exists b1, b2, b3, b4.
  replace (a + 0)%nat with a in Hb1 by lia.
  replace (a + (a + n - a - 1))%nat with (a + n - 1)%nat in Hb2 by lia.
  replace (a + n + 0)%nat with (a + n)%nat in Hb3 by lia.
  replace (a + n + (a + n + o - (a + n) - 1))%nat
    with (a + n + o - 1)%nat in Hb4 by lia.
  repeat split; auto.
Qed.

Lemma walk_loop_windows (data : DataFrame) (grid : list (string * list Q))
      (fuel : nat) (ft ft' : ForwardTestEngine S) (a num : nat) :
  walk_loop C fuel ft data grid a num = Some (Ok ft') ->
  in_sample_bars ft' = in_sample_bars ft
  /\ out_sample_bars ft' = out_sample_bars ft
  /\ step_size ft' = step_size ft
  /\ exists ws,
       all_windows ft' = all_windows ft ++ ws
       /\ oos_trades ft' = oos_trades ft ++ window_trades ws
       /\ (forall j w, nth_error ws j = Some w ->
             window_at data ft (a + j * step_size ft) (num + j) w
             /\ (a + j * step_size ft + in_sample_bars ft + out_sample_bars ft
                 <= length data)%nat
             /\ produced C (oos_results w))
       /\ (length data
           < a + length ws * step_size ft + in_sample_bars ft
             + out_sample_bars ft)%nat.
Proof.
  revert ft a num. induction fuel as [| fuel IH];
    cbn [walk_loop]; intros ft a num H; [discriminate H |].
  destruct (a + in_sample_bars ft + out_sample_bars ft <=? length data)%nat
    eqn:Hfit.
  - apply Nat.leb_le in Hfit.
    destruct (window_step C ft data grid a num) as [ft1 | x] eqn:Hstep;
      [| discriminate H].
    apply (window_step_Ok _ _ _ _ _ _ Hfit) in Hstep.
    destruct Hstep as (Hi & Ho & Hs & w & Hw & Ht & Htt & Hat).
    apply IH in H.
    destruct H as (Hi' & Ho' & Hs' & ws & Hws & Hts & Hall & Hend).
    assert (Hsame : forall a' n' w',
               window_at data ft1 a' n' w' -> window_at data ft a' n' w').
    { intros a' n' w'. unfold window_at. rewrite Hi, Ho. auto. }
    rewrite Hs, Hi, Ho in Hend.
    split; [congruence |]. split; [congruence |]. split; [congruence |].
    exists (w :: ws).
    split; [rewrite Hws, Hw, <- app_assoc; reflexivity |].
    split.
    { rewrite Hts, Ht, <- app_assoc. reflexivity. }
    split.
    + intros j w' Hj. destruct j as [| j]; simpl in Hj.
      * injection Hj as <-. rewrite Nat.mul_0_l, !Nat.add_0_r.
        split; [exact Hat |]. split; [exact Hfit | exact Htt].
      * specialize (Hall j w' Hj).
        replace (a + Datatypes.S j * step_size ft)%nat
          with (a + step_size ft + j * step_size ft)%nat by lia.
        replace (num + Datatypes.S j)%nat
          with (Datatypes.S num + j)%nat by lia.
        destruct Hall as (Hwa & Hfitj & Httj).
        rewrite Hs in Hwa. rewrite Hs, Hi, Ho in Hfitj.
        split; [now apply Hsame |]. now split.
    + simpl. lia.
  - injection H as <-. apply Nat.leb_gt in Hfit.
    split; [reflexivity |]. split; [reflexivity |]. split; [reflexivity |].
    exists []. unfold window_trades. simpl. rewrite !app_nil_r.
    split; [reflexivity |]. split; [reflexivity |]. split.
    + intros j w Hj. destruct j; discriminate Hj.
    + lia.
Qed.


End WalkForward.

(** ** The results of a single backtest *)

Lemma winners_losers_length (ts : list Trade) :
  (length (winners ts) + length (losers ts) = length ts)%nat.
Proof.
  unfold winners, losers. induction ts as [| t ts IH]; simpl; [reflexivity |].
  assert (Heq : Qgtb (pnl t) 0 = negb (Qle_bool (pnl t) 0)) by reflexivity.
  rewrite Heq. destruct (Qle_bool (pnl t) 0); simpl; lia.
Qed.

Lemma fold_Qplus_acc (l : list Q) (acc : Q) :
  (fold_left Qplus l acc == acc + fold_left Qplus l 0)%Q.
Proof.
  revert acc. induction l as [| x l IH]; simpl; intros acc; [ring |].
  rewrite (IH (acc + x)%Q), (IH (0 + x)%Q). ring.
Qed.

Lemma sum_pnl_app (a b : list Trade) :
  (sum_pnl (a ++ b) == sum_pnl a + sum_pnl b)%Q.
Proof.
  unfold sum_pnl. rewrite map_app, fold_left_app. apply fold_Qplus_acc.
Qed.

Lemma compute_total_pnl_sum (ts : list Trade) :
  compute_total_pnl ts = sum_pnl ts.
Proof. destruct ts; reflexivity. Qed.

Lemma compute_win_rate_bounds (ts : list Trade) (wr : Q) :
  compute_win_rate ts = Ok wr ->
  (wr == len (winners ts) / len ts * 100)%Q /\ (0 <= wr <= 100)%Q.
Proof.
  unfold compute_win_rate. destruct ts as [| t0 ts0] eqn:Hts.
  { intros [= <-]. split; [reflexivity |].
    split; unfold Qle; simpl; lia. }
  rewrite <- Hts.
  assert (Hl : (0 < length ts)%nat) by (subst; simpl; lia).
  replace (0 <? length ts)%nat with true by (symmetry; now apply Nat.ltb_lt).
  rewrite pydiv_nonzero by now apply len_nonzero.
  cbn [bind]. intros [= <-]. split; [reflexivity |].
  pose proof (winners_losers_length ts) as Hp.
  assert (Hb : (0 < len ts)%Q).
  { unfold len, Qlt. simpl. lia. }
  assert (Hw0 : (0 <= len (winners ts))%Q).
  { unfold len, Qle. simpl. lia. }
  assert (Hw1 : (len (winners ts) <= len ts)%Q).
  { unfold len, Qle. simpl. lia. }
  assert (H0 : (0 <= len (winners ts) / len ts)%Q).
  { apply Qle_shift_div_l; [exact Hb | lra]. }
  assert (H1 : (len (winners ts) / len ts <= 1)%Q).
  { apply Qle_shift_div_r; [exact Hb | lra]. }
  lra.
Qed.

Lemma compute_profit_factor_nonneg (ts : list Trade) (pf : Q) :
  compute_profit_factor ts = Ok pf -> (0 <= pf)%Q.
Proof.
  unfold compute_profit_factor. destruct ts as [| t0 ts0] eqn:Hts.
  { intros [= <-]. lra. }
  rewrite <- Hts. intros H. bind_inv H. bind_inv H.
  destruct (_ && _).
  - bind_inv H. injection H as <-. apply Qabs_nonneg.
  - injection H as <-. lra.
Qed.

Lemma results_facts {S : Type} (C : StrategyClass S) (r : Results) :
  produced C r ->
  total_trades r = length (result_trades r)
  /\ total_pnl r = sum_pnl (result_trades r)
  /\ (win_rate r
      == len (winners (result_trades r)) / len (result_trades r) * 100)%Q
  /\ (0 <= win_rate r <= 100)%Q
  /\ (0 <= profit_factor r)%Q.
Proof.
  intros (ft & data & ps & ft' & H). unfold _run_single_backtest in H.
  bind_inv H. destruct a as [e ts]. bind_inv H. bind_inv H.
  injection H as <- _. cbn.
  apply compute_win_rate_bounds in Ha0. destruct Ha0 as [Hw Hb].
  apply compute_profit_factor_nonneg in Ha1.
  rewrite compute_total_pnl_sum. repeat split; auto; apply Hb.
Qed.

(** X11.  The figures of a result of [_run_single_backtest]: the trade
    count is the length of the trade list, winners (PnL above zero) and
    losers (PnL at most zero) share it out, the win rate is the percentage
    of winners and lies between 0 and 100, the total PnL is the sum of the
    PnL of the trades, the profit factor is not negative, and the final
    capital is the account value the engine is left with. *)
Theorem backtest_results_metrics {S : Type} (C : StrategyClass S)
        (ft ft' : ForwardTestEngine S) (data : DataFrame) (ps : params)
        (r : Results) :
  _run_single_backtest C ft data ps = Ok (r, ft') ->
  total_trades r = length (result_trades r)
  /\ (length (winners (result_trades r)) + length (losers (result_trades r))
      = total_trades r)%nat
  /\ total_pnl r = sum_pnl (result_trades r)
  /\ (win_rate r
      == len (winners (result_trades r)) / len (result_trades r) * 100)%Q
  /\ (0 <= win_rate r <= 100)%Q
  /\ (0 <= profit_factor r)%Q
  /\ final_capital r = account_value (base ft').
Proof.
  intros H.
  assert (Hp : produced C r) by (eexists _, _, _, _; exact H).
  apply results_facts in Hp. destruct Hp as (Ht & Hs & Hw & Hb & Hpf).
  split; [exact Ht |].
  split; [rewrite Ht; apply winners_losers_length |].
  split; [exact Hs |]. split; [exact Hw |]. split; [exact Hb |].
  split; [exact Hpf |].
  apply _run_single_backtest_Ok in H.
  destruct H as (e & _ & Hf & _ & _ & ->). exact Hf.
Qed.

Lemma backtest_results_metrics_witness :
  total_trades (fst (fst three_trials_result))
  = length (result_trades (fst (fst three_trials_result)))
  /\ (length (winners (result_trades (fst (fst three_trials_result))))
      + length (losers (result_trades (fst (fst three_trials_result))))
      = total_trades (fst (fst three_trials_result)))%nat
  /\ total_pnl (fst (fst three_trials_result))
     = sum_pnl (result_trades (fst (fst three_trials_result)))
  /\ (win_rate (fst (fst three_trials_result))
      == len (winners (result_trades (fst (fst three_trials_result))))
         / len (result_trades (fst (fst three_trials_result))) * 100)%Q
  /\ (0 <= win_rate (fst (fst three_trials_result)) <= 100)%Q
  /\ (0 <= profit_factor (fst (fst three_trials_result)))%Q
  /\ final_capital (fst (fst three_trials_result))
     = account_value (base (snd three_trials_result)).
Proof.
  apply (backtest_results_metrics Strategy.class
           (snd (fst three_trials_result)) (snd three_trials_result)
           (bars61 97) (risk (3 # 100))).
  vm_compute. reflexivity.
Defined.

(** X12.  The windows of a completed walk-forward run: window j (counted
    from 0) is numbered j + 1, its in-sample span starts at position
    j * step_size and has in_sample_bars bars, its out-of-sample span
    starts on the bar right after and has out_sample_bars bars, all inside
    the frame, and its four timestamps are those of the first and last bar
    of the two spans.  No further window fits the frame, and the
    out-of-sample trade log grows by the trades of the windows in their
    order. *)
Theorem walk_forward_windows {S : Type} (C : StrategyClass S)
        (ft ft' : ForwardTestEngine S) (data : DataFrame)
        (param_grid : option (list (string * list Q))) :
  run_walk_forward C ft data param_grid = Some (Ok ft') ->
  exists ws,
    all_windows ft' = all_windows ft ++ ws
    /\ oos_trades ft' = oos_trades ft ++ window_trades ws
    /\ (forall j w, nth_error ws j = Some w ->
          window_at data ft (j * step_size ft) (1 + j) w
          /\ (j * step_size ft + in_sample_bars ft + out_sample_bars ft
              <= length data)%nat)
    /\ (length data
        < length ws * step_size ft + in_sample_bars ft
          + out_sample_bars ft)%nat
    /\ in_sample_bars ft' = in_sample_bars ft
    /\ out_sample_bars ft' = out_sample_bars ft
    /\ step_size ft' = step_size ft.
Proof.
  unfold run_walk_forward. intros H.
  destruct (index_first data); [| discriminate H].
  apply walk_loop_windows in H.
  destruct H as (Hi & Ho & Hs & ws & Hw & Ht & Hall & Hend).
  exists ws. split; [exact Hw |]. split; [exact Ht |].
  split; [| now repeat split].
  intros j w Hj. destruct (Hall j w Hj) as (Hat & Hfit & _).
  now split.
Qed.

Lemma walk_forward_windows_witness :
  exists ws,
    all_windows walked = all_windows wf61 ++ ws
    /\ oos_trades walked = oos_trades wf61 ++ window_trades ws
    /\ (forall j w, nth_error ws j = Some w ->
          window_at (bars122 97) wf61 (j * step_size wf61) (1 + j) w
          /\ (j * step_size wf61 + in_sample_bars wf61 + out_sample_bars wf61
              <= length (bars122 97))%nat)
    /\ (length (bars122 97)
        < length ws * step_size wf61 + in_sample_bars wf61
          + out_sample_bars wf61)%nat
    /\ in_sample_bars walked = in_sample_bars wf61
    /\ out_sample_bars walked = out_sample_bars wf61
    /\ step_size walked = step_size wf61.
Proof.
  apply (walk_forward_windows Strategy.class wf61 walked (bars122 97)
           (Some risk_grid)).
  vm_compute. reflexivity.
Defined.



Lemma fold_add_acc (l : list nat) (acc : nat) :
  fold_left Nat.add l acc = (acc + fold_left Nat.add l 0)%nat.
Proof.
  revert acc. induction l as [| x l IH]; simpl; intros acc; [lia |].
  rewrite (IH (acc + x)%nat), (IH x). lia.
Qed.

Lemma window_totals {S : Type} (C : StrategyClass S) (ws : list Window) :
  Forall (fun w => produced C (oos_results w)) ws ->
  fold_left Nat.add (map (fun w => total_trades (oos_results w)) ws) 0%nat
  = length (window_trades ws)
  /\ (fold_left Qplus (map (fun w => total_pnl (oos_results w)) ws) 0
      == sum_pnl (window_trades ws))%Q.
Proof.
  unfold window_trades.
  induction 1 as [| w ws Hw _ [IHn IHq]]; simpl; [split; reflexivity |].
  apply results_facts in Hw. destruct Hw as (Ht & Hp & _).
  split.
  - rewrite fold_add_acc, IHn, length_app, <- Ht. lia.
  - rewrite fold_Qplus_acc, IHq, sum_pnl_app, Hp. ring.
Qed.

(** X14.  The totals that [_print_summary] reports after a walk-forward
    run started with no window and an empty out-of-sample log agree with
    the log: the total of the windows' trade counts is the number of
    trades in [oos_trades] and the total of their PnL is the PnL of those
    trades. *)
Theorem walk_forward_summary_consistent {S : Type} (C : StrategyClass S)
        (ft ft' : ForwardTestEngine S) (data : DataFrame)
        (param_grid : option (list (string * list Q))) :
  all_windows ft = [] -> oos_trades ft = [] ->
  run_walk_forward C ft data param_grid = Some (Ok ft') ->
  total_oos_trades ft' = length (oos_trades ft')
  /\ (total_oos_pnl ft' == sum_pnl (oos_trades ft'))%Q.
Proof.
  intros Hw0 Ht0 H. unfold run_walk_forward in H.
  destruct (index_first data); [| discriminate H].
  apply walk_loop_windows in H.
  destruct H as (_ & _ & _ & ws & Hw & Ht & Hall & _).
  rewrite Hw0 in Hw. rewrite Ht0 in Ht. simpl in Hw, Ht.
  unfold total_oos_trades, total_oos_pnl. rewrite Hw, Ht.
  apply (window_totals C). apply Forall_forall. intros w Hin.
  apply In_nth_error in Hin. destruct Hin as [j Hj].
  now destruct (Hall j w Hj) as (_ & _ & Hp).
Qed.

Lemma walk_forward_summary_consistent_witness :
  total_oos_trades walked = length (oos_trades walked)
  /\ (total_oos_pnl walked == sum_pnl (oos_trades walked))%Q.
Proof.
  apply (walk_forward_summary_consistent Strategy.class wf61 walked
           (bars122 97) (Some risk_grid)).
  - reflexivity.
  - reflexivity.
  - vm_compute. reflexivity.
Defined.

Lemma index_first_slice (data : DataFrame) (a b : nat) :
  (a < b <= length data)%nat ->
  exists t, index_first (iloc_slice data a b) = Ok t.
Proof.
  intros H. pose proof (iloc_slice_length data a b) as Hl.
  destruct (iloc_slice data a b) as [| x l]; simpl in *.
  - lia.
  - now eexists.
Qed.

Lemma index_last_slice (data : DataFrame) (a b : nat) :
  (a < b <= length data)%nat ->
  exists t, index_last (iloc_slice data a b) = Ok t.
Proof.
  intros H. pose proof (iloc_slice_length data a b) as Hl.
  unfold index_last.
  destruct (rev (iloc_slice data a b)) as [| x l] eqn:Hr.
  - apply (f_equal (@length Bar)) in Hr. rewrite length_rev in Hr.
    simpl in Hr. lia.
  - now eexists.
Qed.

(** X15.  A grid in which some parameter has no candidate value has no
    combination, so the grid search of the first window returns no
    parameters and [run_walk_forward] fails with AttributeError when it
    goes on to read them. *)
Theorem hollow_grid_fails {S : Type} (C : StrategyClass S)
        (ft : ForwardTestEngine S) (data : DataFrame)
        (param_grid : list (string * list Q)) :
  In [] (map snd param_grid) ->
  (0 < in_sample_bars ft)%nat -> (0 < out_sample_bars ft)%nat ->
  (in_sample_bars ft + out_sample_bars ft <= length data)%nat ->
  _optimize_parameters C ft data param_grid = Ok (None, NegInf, ft)
  /\ run_walk_forward C ft data (Some param_grid)
     = Some (Raise AttributeError).
Proof.
  intros Hin Hi Ho Hfit.
  assert (Hc : _generate_param_combinations param_grid = []).
  { now apply grid_is_exhaustive_empty. }
  split.
  { unfold _optimize_parameters. rewrite Hc. reflexivity. }
  unfold run_walk_forward.
  destruct data as [| b rest] eqn:Hd; [simpl in Hfit; lia |].
  rewrite <- Hd in *. cbn [index_first].
  replace (index_first data) with (Ok (name b) : result Z)
    by (rewrite Hd; reflexivity).
  cbn [walk_loop].
  replace (0 + in_sample_bars ft + out_sample_bars ft <=? length data)%nat
    with true by (symmetry; apply Nat.leb_le; lia).
  unfold window_step. cbv zeta.
  destruct (index_first_slice data 0 (0 + in_sample_bars ft)) as [t1 ->];
    [lia |].
  destruct (index_last_slice data 0 (0 + in_sample_bars ft)) as [t2 ->];
    [lia |].
  destruct (index_first_slice data (0 + in_sample_bars ft)
              (0 + in_sample_bars ft + out_sample_bars ft)) as [t3 ->];
    [lia |].
  destruct (index_last_slice data (0 + in_sample_bars ft)
              (0 + in_sample_bars ft + out_sample_bars ft)) as [t4 ->];
    [lia |].
  cbn [bind]. unfold _optimize_parameters. rewrite Hc. reflexivity.
Qed.

Lemma hollow_grid_fails_witness :
  _optimize_parameters Strategy.class wf61 (bars122 97) hollow_grid
  = Ok (None, NegInf, wf61)
  /\ run_walk_forward Strategy.class wf61 (bars122 97) (Some hollow_grid)
     = Some (Raise AttributeError).
Proof.
  apply (hollow_grid_fails Strategy.class wf61 (bars122 97) hollow_grid).
  - right. left. reflexivity.
  - vm_compute. lia.
  - vm_compute. lia.
  - vm_compute. lia.
Defined.

(** ** The trade log of a ForwardTestEngine *)

Section ForwardBooks.
Context {S : Type} (C : StrategyClass S).

Lemma single_step_log (e e' : Engine S) (ts ts' : list Trade) data idx :
  single_step C (e, ts) data idx = Ok (e', ts') ->
  initial_capital e' = initial_capital e
  /\ exists new, ts' = ts ++ new /\ trades e' = trades e ++ new.
Proof.
  unfold single_step. intros H. bind_inv H.
  destruct (current_position e) as [pos |].
  - bind_inv H. destruct a0 as [[ex reason] s']. destruct ex.
    + bind_inv H. destruct a0 as [t e2]. injection H as <- <-.
      apply BacktestEngine_exit_trade_Ok in Ha1. destruct Ha1 as [_ ->].
      split; [reflexivity |]. exists [t]. now split.
    + injection H as <- <-. split; [reflexivity |].
      exists []. now rewrite !app_nil_r.
  - bind_inv H. destruct a0 as [en s']. destruct en.
    + bind_inv H. injection H as <- <-. apply _enter_trade_Ok in Ha1.
      destruct Ha1 as (b & p & _ & _ & _ & _ & ->).
      split; [reflexivity |]. exists []. now rewrite !app_nil_r.
    + injection H as <- <-. split; [reflexivity |].
      exists []. now rewrite !app_nil_r.
Qed.

Lemma single_loop_log (idxs : list nat) (e e' : Engine S)
      (ts ts' : list Trade) data :
  single_loop C (e, ts) data idxs = Ok (e', ts') ->
  initial_capital e' = initial_capital e
  /\ exists new, ts' = ts ++ new /\ trades e' = trades e ++ new.
Proof.
  revert e ts. induction idxs as [| idx rest IH];
    cbn [single_loop]; intros e ts H.
  - injection H as <- <-. split; [reflexivity |].
    exists []. now rewrite !app_nil_r.
  - bind_inv H. destruct a as [e1 ts1].
    apply single_step_log in Ha. destruct Ha as (Hi & n1 & -> & Ht1).
    apply IH in H. destruct H as (Hi' & n2 & -> & Ht2).
    split; [congruence |]. exists (n1 ++ n2).
    rewrite Ht2, Ht1, !app_assoc. now split.
Qed.

End ForwardBooks.

(** X16.  The books of a ForwardTestEngine over a run of
    [_run_single_backtest]: the engine's own trade log grows by exactly the
    trades the run returns and the initial capital is never touched; the
    final capital reported is the account value the run started from plus
    the PnL of its trades; so the account stays equal to the initial
    capital plus the PnL of the whole log, over any number of runs. *)
Theorem forward_test_books {S : Type} (C : StrategyClass S)
        (ft ft' : ForwardTestEngine S) (data : DataFrame) (ps : params)
        (r : Results) :
  _run_single_backtest C ft data ps = Ok (r, ft') ->
  trades (base ft') = trades (base ft) ++ result_trades r
  /\ initial_capital (base ft') = initial_capital (base ft)
  /\ (final_capital r
      == account_value (base ft) + sum_pnl (result_trades r))%Q
  /\ (conserved (base ft) -> conserved (base ft')).
Proof.
  intros H.
  pose proof (single_backtest_conserved_from_start C _ _ _ _ _ H)
    as [Hfin Hacc].
  apply _run_single_backtest_Ok in H.
  destruct H as (e & Hl & Hf & _ & _ & ->).
  apply single_loop_log in Hl. destruct Hl as (Hi & new & Hnew & Ht).
  simpl in Hnew, Ht, Hi. subst new.
  split; [exact Ht |]. split; [exact Hi |]. split; [exact Hfin |].
  unfold conserved. simpl. intros Hc.
  rewrite Ht, Hi, sum_pnl_app, <- Hf, Hfin, Hc. ring.
Qed.

Lemma forward_test_books_witness :
  trades (base (snd three_trials_result))
  = trades (base (snd (fst three_trials_result)))
    ++ result_trades (fst (fst three_trials_result))
  /\ initial_capital (base (snd three_trials_result))
     = initial_capital (base (snd (fst three_trials_result)))
  /\ (final_capital (fst (fst three_trials_result))
      == account_value (base (snd (fst three_trials_result)))
         + sum_pnl (result_trades (fst (fst three_trials_result))))%Q
  /\ (conserved (base (snd (fst three_trials_result))) ->
      conserved (base (snd three_trials_result))).
Proof.
  apply (forward_test_books Strategy.class (snd (fst three_trials_result))
           (snd three_trials_result) (bars61 97) (risk (3 # 100))).
  vm_compute. reflexivity.
Defined.

(** ** The SMA golden-cross strategy (strategy_sma.py) *)

(** X17.  [should_enter] of the SMA strategy signals only from bar
    max(fast, slow) + 5 on, on a bar of the frame where the 20 SMA is above
    the 50 SMA, was at or under it on the bar before, and the close is
    above both; the ATR of the bar is not looked at.  The instance is never
    changed. *)
Theorem sma_entry_signal (s s' : StrategySMA.t) (data : DataFrame)
        (idx : nat) (b : bool) :
  StrategySMA.should_enter s data idx = Ok (b, s') ->
  s' = s
  /\ (b = true ->
      (Nat.max (StrategySMA.fast_sma_period s) (StrategySMA.slow_sma_period s)
       + 5 <= idx < length data)%nat
      /\ exists cur prev f20 f50,
           nth_error data idx = Some cur
           /\ nth_error data (idx - 1) = Some prev
           /\ sma_20 cur = Some f20 /\ sma_50 cur = Some f50
           /\ (f50 < f20)%Q /\ (f20 < close cur)%Q
           /\ fle (sma_20 prev) (sma_50 prev) = true).
Proof.
  unfold StrategySMA.should_enter. intros H.
  destruct (idx <? _)%nat eqn:Hidx.
  { injection H as <- <-. split; [reflexivity | discriminate]. }
  apply Nat.ltb_ge in Hidx.
  bind_inv H. rename a into cur. bind_inv H. rename a into prev.
  cbv zeta in H.
  destruct (isna_cell (sma_20 cur) || isna_cell (sma_50 cur)) eqn:Hna.
  { injection H as <- <-. split; [reflexivity | discriminate]. }
  destruct (negb (fle (sma_20 prev) (sma_50 prev)
                  && fgt (sma_20 cur) (sma_50 cur))) eqn:Hgc.
  { injection H as <- <-. split; [reflexivity | discriminate]. }
  destruct (negb (fgt (Some (close cur)) (sma_20 cur)
                  && fgt (Some (close cur)) (sma_50 cur))) eqn:Hpa;
    injection H as <- <-; (split; [reflexivity |]); [discriminate |].
  intros _.
  apply negb_false_iff, andb_true_iff in Hgc. destruct Hgc as [Hwas His].
  apply negb_false_iff, andb_true_iff in Hpa. destruct Hpa as [Hp20 _].
  destruct (sma_20 cur) as [f20 |] eqn:H20; [| discriminate Hna].
  destruct (sma_50 cur) as [f50 |] eqn:H50;
    [| rewrite orb_true_r in Hna; discriminate Hna].
  simpl in His, Hp20. apply Qgtb_gt in His. apply Qgtb_gt in Hp20.
  apply iloc_nat in Ha.
  assert (Hlt : (idx < length data)%nat).
  { apply nth_error_Some. congruence. }
  split; [lia |]. exists cur, prev, f20, f50.
  repeat split; auto.
  replace (Z.of_nat idx - 1) with (Z.of_nat (idx - 1)) in Ha0 by lia.
  now apply iloc_nat.
Qed.

Lemma sma_entry_signal_witness :
  StrategySMA.init = StrategySMA.init
  /\ (true = true ->
      (Nat.max (StrategySMA.fast_sma_period StrategySMA.init)
               (StrategySMA.slow_sma_period StrategySMA.init)
       + 5 <= 55 < length (sma_bars None))%nat
      /\ exists cur prev f20 f50,
           nth_error (sma_bars None) 55 = Some cur
           /\ nth_error (sma_bars None) (55 - 1) = Some prev
           /\ sma_20 cur = Some f20 /\ sma_50 cur = Some f50
           /\ (f50 < f20)%Q /\ (f20 < close cur)%Q
           /\ fle (sma_20 prev) (sma_50 prev) = true).
Proof.
  apply (sma_entry_signal StrategySMA.init StrategySMA.init (sma_bars None)
           55 true).
  vm_compute. reflexivity.
Defined.

(** X18.  [should_exit] of the SMA strategy never changes the instance and
    reports one of ['stop_loss'], ['take_profit'], ['death_cross'] and
    ['sma_breakdown'].  With [use_take_profit] off, as the class has it,
    it never reports ['take_profit'], however far the high runs; with
    [use_stop_loss] on it reports ['stop_loss'] exactly when the low is at
    or under the stop. *)
Theorem sma_exit_decision (s s' : StrategySMA.t) (data : DataFrame)
        (idx : nat) (pos : Position) (ex : bool) (r : option string) :
  StrategySMA.should_exit s data idx pos = Ok (ex, r, s') ->
  s' = s
  /\ (ex = false <-> r = None)
  /\ (ex = true ->
      r = Some "stop_loss"%string \/ r = Some "take_profit"%string
      \/ r = Some "death_cross"%string \/ r = Some "sma_breakdown"%string)
  /\ (StrategySMA.use_take_profit s = false ->
      r <> Some "take_profit"%string)
  /\ exists cur,
       nth_error data idx = Some cur
       /\ (StrategySMA.use_stop_loss s = true ->
           ((low cur <= p_stop_loss pos)%Q <-> r = Some "stop_loss"%string)).
Proof.
  unfold StrategySMA.should_exit. intros H. cbv zeta in H.
  bind_inv H. rename a into cur. bind_inv H.
  apply iloc_nat in Ha.
  destruct (StrategySMA.use_stop_loss s
            && Qle_bool (low cur) (p_stop_loss pos)) eqn:Hsl.
  { injection H as <- <- <-. apply andb_true_iff in Hsl.
    destruct Hsl as [_ Hle]. apply Qle_bool_iff in Hle.
    split; [reflexivity |]. split; [split; discriminate |].
    split; [auto |]. split; [discriminate |].
    exists cur. split; [exact Ha |]. intros _. now split. }
  assert (Hns : StrategySMA.use_stop_loss s = true ->
                ~ (low cur <= p_stop_loss pos)%Q).
  { intros Hu Hle. apply Qle_bool_iff in Hle. rewrite Hu, Hle in Hsl.
    discriminate Hsl. }
  destruct (StrategySMA.use_take_profit s
            && Qgeb (high cur) (p_take_profit pos)) eqn:Htp.
  { injection H as <- <- <-. apply andb_true_iff in Htp.
    destruct Htp as [Hu _].
    split; [reflexivity |]. split; [split; discriminate |].
    split; [auto |]. split; [congruence |].
    exists cur. split; [exact Ha |]. intros Hus.
    split; [intros Hle; now elim (Hns Hus) | discriminate]. }
  match type of H with
  | (if ?c then _ else _) = _ => destruct c
  end.
  { injection H as <- <- <-.
    split; [reflexivity |]. split; [split; discriminate |].
    split; [auto |]. split; [discriminate |].
    exists cur. split; [exact Ha |]. intros Hus.
    split; [intros Hle; now elim (Hns Hus) | discriminate]. }
  match type of H with
  | (if ?c then _ else _) = _ => destruct c
  end; injection H as <- <- <-.
  - split; [reflexivity |]. split; [split; discriminate |].
    split; [auto 6 |]. split; [discriminate |].
    exists cur. split; [exact Ha |]. intros Hus.
    split; [intros Hle; now elim (Hns Hus) | discriminate].
  - split; [reflexivity |]. split; [split; reflexivity |].
    split; [discriminate |]. split; [discriminate |].
    exists cur. split; [exact Ha |]. intros Hus.
    split; [intros Hle; now elim (Hns Hus) | discriminate].
Qed.

Lemma sma_exit_decision_witness :
  StrategySMA.init = StrategySMA.init
  /\ (true = false <-> Some "stop_loss"%string = None)
  /\ (true = true ->
      Some "stop_loss"%string = Some "stop_loss"%string
      \/ Some "stop_loss"%string = Some "take_profit"%string
      \/ Some "stop_loss"%string = Some "death_cross"%string
      \/ Some "stop_loss"%string = Some "sma_breakdown"%string)
  /\ (StrategySMA.use_take_profit StrategySMA.init = false ->
      Some "stop_loss"%string <> Some "take_profit"%string)
  /\ exists cur,
       nth_error bars62 61 = Some cur
       /\ (StrategySMA.use_stop_loss StrategySMA.init = true ->
           ((low cur <= p_stop_loss position_in_trade)%Q
            <-> Some "stop_loss"%string = Some "stop_loss"%string)).
Proof.
  apply (sma_exit_decision StrategySMA.init StrategySMA.init bars62 61
           position_in_trade true (Some "stop_loss"%string)).
  vm_compute. reflexivity.
Defined.

(** ** The mean-reversion pullback strategy (strategy_mrp.py) *)

(** X19.  [should_enter] of the pullback strategy signals only from bar 60
    on, on a bar of the frame whose close is above the 50 SMA, at or under
    the 21 EMA and within two ATR of it, with the RSI under [rsi_oversold];
    so the ATR of an entry bar is positive.  The instance is never
    changed. *)
Theorem mrp_entry_signal (s s' : StrategyMRP.t) (data : DataFrame)
        (idx : nat) (b : bool) :
  StrategyMRP.should_enter s data idx = Ok (b, s') ->
  s' = s
  /\ (b = true ->
      (60 <= idx < length data)%nat
      /\ exists cur e21 s50 atr r,
           nth_error data idx = Some cur
           /\ ema_21 cur = Some e21 /\ sma_50 cur = Some s50
           /\ atr_14 cur = Some atr /\ rsi cur = Some r
           /\ (s50 < close cur)%Q /\ (close cur <= e21)%Q
           /\ (e21 - 2 * atr < close cur)%Q
           /\ (0 < atr)%Q
           /\ (r < StrategyMRP.rsi_oversold s)%Q).
Proof.
  unfold StrategyMRP.should_enter. intros H.
  destruct (idx <? 60)%nat eqn:Hidx.
  { injection H as <- <-. split; [reflexivity | discriminate]. }
  apply Nat.ltb_ge in Hidx.
  bind_inv H. rename a into cur. bind_inv H. rename a into prev.
  destruct (ema_9 cur) as [e9 |];
    [| injection H as <- <-; split; [reflexivity | discriminate]].
  destruct (ema_21 cur) as [e21 |] eqn:He21;
    [| injection H as <- <-; split; [reflexivity | discriminate]].
  destruct (sma_50 cur) as [s50 |] eqn:Hs50;
    [| injection H as <- <-; split; [reflexivity | discriminate]].
  destruct (atr_14 cur) as [atr |] eqn:Hatr;
    [| injection H as <- <-; split; [reflexivity | discriminate]].
  destruct (rsi cur) as [r |] eqn:Hrsi;
    [| injection H as <- <-; split; [reflexivity | discriminate]].
  cbv zeta in H.
  destruct (negb (Qgtb (close cur) s50)) eqn:Hup.
  { injection H as <- <-. split; [reflexivity | discriminate]. }
  destruct (negb (Qle_bool (close cur) e21
                  && Qgtb (close cur) (e21 - 2 * atr))) eqn:Hpb.
  { injection H as <- <-. split; [reflexivity | discriminate]. }
  destruct (negb (Qltb r (StrategyMRP.rsi_oversold s))) eqn:Hos.
  { injection H as <- <-. split; [reflexivity | discriminate]. }
  match type of H with
  | (if ?c then _ else _) = _ => destruct c
  end; injection H as <- <-; (split; [reflexivity |]); [discriminate |].
  intros _.
  apply negb_false_iff, Qgtb_gt in Hup.
  apply negb_false_iff, andb_true_iff in Hpb. destruct Hpb as [Hle Hfar].
  apply Qle_bool_iff in Hle. apply Qgtb_gt in Hfar.
  apply negb_false_iff, Qltb_lt in Hos.
  apply iloc_nat in Ha.
  assert (Hlt : (idx < length data)%nat).
  { apply nth_error_Some. congruence. }
  split; [lia |]. exists cur, e21, s50, atr, r.
  repeat split; auto. lra.
Qed.

Lemma mrp_entry_signal_witness :
  StrategyMRP.init = StrategyMRP.init
  /\ (true = true ->
      (60 <= 60 < length mrp_bars)%nat
      /\ exists cur e21 s50 atr r,
           nth_error mrp_bars 60 = Some cur
           /\ ema_21 cur = Some e21 /\ sma_50 cur = Some s50
           /\ atr_14 cur = Some atr /\ rsi cur = Some r
           /\ (s50 < close cur)%Q /\ (close cur <= e21)%Q
           /\ (e21 - 2 * atr < close cur)%Q
           /\ (0 < atr)%Q
           /\ (r < StrategyMRP.rsi_oversold StrategyMRP.init)%Q).
Proof.
  apply (mrp_entry_signal StrategyMRP.init StrategyMRP.init mrp_bars 60 true).
  vm_compute. reflexivity.
Defined.

(** X20.  [should_exit] of the pullback strategy never changes the
    instance; the stop-loss comes first and is reported exactly when the
    low is at or under the stop; otherwise, with [use_ema_target] on, a
    high at or above the 9 EMA is reported as ['ema_target'].  With
    [use_fixed_target] off, as the class has it, ['take_profit'] is never
    reported. *)
Theorem mrp_exit_decision (s s' : StrategyMRP.t) (data : DataFrame)
        (idx : nat) (pos : Position) (ex : bool) (r : option string) :
  StrategyMRP.should_exit s data idx pos = Ok (ex, r, s') ->
  s' = s
  /\ (ex = false <-> r = None)
  /\ (StrategyMRP.use_fixed_target s = false ->
      r <> Some "take_profit"%string)
  /\ exists cur,
       nth_error data idx = Some cur
       /\ ((low cur <= p_stop_loss pos)%Q <-> r = Some "stop_loss"%string)
       /\ (StrategyMRP.use_ema_target s = true ->
           ~ (low cur <= p_stop_loss pos)%Q ->
           fge (Some (high cur)) (ema_9 cur) = true ->
           r = Some "ema_target"%string).
Proof.
  unfold StrategyMRP.should_exit. intros H.
  bind_inv H. rename a into cur. apply iloc_nat in Ha.
  destruct (Qle_bool (low cur) (p_stop_loss pos)) eqn:Hsl.
  { injection H as <- <- <-. apply Qle_bool_iff in Hsl.
    split; [reflexivity |]. split; [split; discriminate |].
    split; [discriminate |]. exists cur. split; [exact Ha |].
    split; [now split |]. intros _ Hn. contradiction. }
  assert (Hns : ~ (low cur <= p_stop_loss pos)%Q).
  { intros Hle. apply Qle_bool_iff in Hle. congruence. }
  destruct (StrategyMRP.use_ema_target s
            && fge (Some (high cur)) (ema_9 cur)) eqn:Het.
  { injection H as <- <- <-.
    split; [reflexivity |]. split; [split; discriminate |].
    split; [discriminate |]. exists cur. split; [exact Ha |].
    split; [split; [contradiction | discriminate] |]. reflexivity. }
  assert (Hne : StrategyMRP.use_ema_target s = true ->
                fge (Some (high cur)) (ema_9 cur) = true -> False).
  { intros Hu Hf. rewrite Hu, Hf in Het. discriminate Het. }
  destruct (StrategyMRP.use_fixed_target s
            && Qgeb (high cur) (p_take_profit pos)) eqn:Hft.
  { injection H as <- <- <-. apply andb_true_iff in Hft.
    destruct Hft as [Hu _].
    split; [reflexivity |]. split; [split; discriminate |].
    split; [congruence |]. exists cur. split; [exact Ha |].
    split; [split; [contradiction | discriminate] |].
    intros Hu' _ Hf. now elim (Hne Hu' Hf). }
  match type of H with
  | (if ?c then _ else _) = _ => destruct c
  end.
  { injection H as <- <- <-.
    split; [reflexivity |]. split; [split; discriminate |].
    split; [discriminate |]. exists cur. split; [exact Ha |].
    split; [split; [contradiction | discriminate] |].
    intros Hu' _ Hf. now elim (Hne Hu' Hf). }
  match type of H with
  | (if ?c then _ else _) = _ => destruct c
  end; injection H as <- <- <-.
  - split; [reflexivity |]. split; [split; discriminate |].
    split; [discriminate |]. exists cur. split; [exact Ha |].
    split; [split; [contradiction | discriminate] |].
    intros Hu' _ Hf. now elim (Hne Hu' Hf).
  - split; [reflexivity |]. split; [split; reflexivity |].
    split; [discriminate |]. exists cur. split; [exact Ha |].
    split; [split; [contradiction | discriminate] |].
    intros Hu' _ Hf. now elim (Hne Hu' Hf).
Qed.

Lemma mrp_exit_decision_witness :
  StrategyMRP.init = StrategyMRP.init
  /\ (true = false <-> Some "ema_target"%string = None)
  /\ (StrategyMRP.use_fixed_target StrategyMRP.init = false ->
      Some "ema_target"%string <> Some "take_profit"%string)
  /\ exists cur,
       nth_error (bars61 99) 60 = Some cur
       /\ ((low cur <= p_stop_loss position_in_trade)%Q
           <-> Some "ema_target"%string = Some "stop_loss"%string)
       /\ (StrategyMRP.use_ema_target StrategyMRP.init = true ->
           ~ (low cur <= p_stop_loss position_in_trade)%Q ->
           fge (Some (high cur)) (ema_9 cur) = true ->
           Some "ema_target"%string = Some "ema_target"%string).
Proof.
  apply (mrp_exit_decision StrategyMRP.init StrategyMRP.init (bars61 99) 60
           position_in_trade true (Some "ema_target"%string)).
  vm_compute. reflexivity.
Defined.

(** ** Entries the engine cannot size *)

(** X21.  When a strategy signals an entry on a bar whose ATR is NaN, the
    sizing of the position raises ValueError and the bar step of the engine
    fails with it; when the ATR times the stop multiplier times the point
    value is zero, it fails with OverflowError (ValueError when the risk
    amount is zero as well).  The SMA strategy, which never looks at the
    ATR, can signal such an entry. *)
Theorem entry_without_stop_distance_fails {S : Type} (C : StrategyClass S)
        (e : Engine S) (data : DataFrame) (idx : nat) (bar : Bar) (s' : S)
        (pv : Q) :
  current_position e = None ->
  iloc data (Z.of_nat idx) = Ok bar ->
  should_enter C (strategy e) data idx = Ok (true, s') ->
  symbol_point_value (symbol C s') = Ok pv ->
  (atr_14 bar = None -> bar_step C e data idx = Raise ValueError)
  /\ (forall atr,
        atr_14 bar = Some atr ->
        (atr * atr_stop_multiplier C s' * pv == 0)%Q ->
        bar_step C e data idx
        = Raise (if Qeq_bool (account_value e * risk_per_trade C s') 0
                 then ValueError else OverflowError)).
Proof.
  intros Hp Hb Hn Hpv.
  assert (Hstep : bar_step C e data idx
                  = _enter_trade C
                      (mkEngine s' (initial_capital e) (account_value e)
                         (trades e)
                         (equity_curve e
                          ++ [mkEquityPoint (name bar) (account_value e) 0])
                         None)
                      data idx).
  { unfold bar_step. rewrite Hb. cbn [bind]. cbv zeta.
    cbn [current_position strategy]. rewrite Hp, Hn. reflexivity. }
  rewrite Hstep. unfold _enter_trade, calculate_position_size.
  rewrite Hb. cbn [bind strategy account_value]. rewrite Hpv. cbn [bind].
  split.
  - intros ->. reflexivity.
  - intros atr -> Hz. apply Qeq_bool_iff in Hz. rewrite Hz.
    destruct (Qeq_bool (account_value e * risk_per_trade C s') 0);
      reflexivity.
Qed.

Lemma entry_without_stop_distance_fails_witness :
  (atr_14 (cross_bar None 55) = None ->
   bar_step StrategySMA.class (Engine_init StrategySMA.init 100000)
            (sma_bars None) 55
   = Raise ValueError)
  /\ (forall atr,
        atr_14 (cross_bar None 55) = Some atr ->
        (atr * atr_stop_multiplier StrategySMA.class StrategySMA.init * 10
         == 0)%Q ->
        bar_step StrategySMA.class (Engine_init StrategySMA.init 100000)
                 (sma_bars None) 55
        = Raise (if Qeq_bool
                      (account_value (Engine_init StrategySMA.init 100000)
                       * risk_per_trade StrategySMA.class StrategySMA.init) 0
                 then ValueError else OverflowError)).
Proof.
  apply (entry_without_stop_distance_fails StrategySMA.class
           (Engine_init StrategySMA.init 100000) (sma_bars None) 55
           (cross_bar None 55) StrategySMA.init 10).
  - reflexivity.
  - vm_compute. reflexivity.
  - vm_compute. reflexivity.
  - reflexivity.
Defined.

Example sma_run_on_flat_atr_fails :
  run_backtest StrategySMA.class (Engine_init StrategySMA.init 100000)
               (sma_bars (Some 0%Q))
  = Raise OverflowError.
Proof. vm_compute. reflexivity. Qed.

(** ** The indicator columns (data_pipeline.py) *)

Lemma nth_error_Some_lt {A : Type} (l : list A) (n : nat) (a : A) :
  nth_error l n = Some a -> (n < length l)%nat.
Proof. intros H. apply nth_error_Some. now rewrite H. Qed.

Lemma rolling_mean_length (w : nat) (xs : list cell) :
  length (rolling_mean w xs) = length xs.
Proof. unfold rolling_mean. now rewrite length_map, length_seq. Qed.

Lemma rolling_mean_nth (w i : nat) (xs : list cell) (c : cell) :
  nth_error (rolling_mean w xs) i = Some c ->
  (i < length xs)%nat
  /\ c = if (Datatypes.S i <? w)%nat then None
         else mean_cells (window_cells w i xs).
Proof.
  unfold rolling_mean. intros H.
  rewrite nth_error_map in H.
  destruct (nth_error (seq 0 (length xs)) i) as [k |] eqn:Hk;
    [| discriminate H].
  assert (Hi : (i < length xs)%nat).
  { apply nth_error_Some_lt in Hk. now rewrite length_seq in Hk. }
  rewrite nth_error_seq in Hk.
  replace (i <? length xs)%nat with true in Hk
    by (symmetry; now apply Nat.ltb_lt).
  injection Hk as <-. simpl in H. injection H as <-. now split.
Qed.

Lemma all_cells_None (l : list cell) :
  all_cells l = None <-> In None l.
Proof.
  induction l as [| c l IH]; simpl.
  - split; [discriminate | intros []].
  - destruct c as [x |].
    + destruct (all_cells l); split.
      * discriminate.
      * intros [H | H]; [discriminate H |]. now apply IH in H.
      * intros _. right. now apply IH.
      * reflexivity.
    + split; [now left | reflexivity].
Qed.

Lemma mean_cells_None (l : list cell) :
  mean_cells l = None <-> In None l.
Proof.
  unfold mean_cells. rewrite <- all_cells_None.
  destruct (all_cells l); split; intros H; try discriminate; auto.
Qed.

Lemma window_cells_In (w i : nat) (xs : list cell) (c : cell) :
  In c (window_cells w i xs) <->
  exists j, (Datatypes.S i - w <= j < Datatypes.S i - w + w)%nat
            /\ nth_error xs j = Some c.
Proof.
  unfold window_cells. set (k := (Datatypes.S i - w)%nat). split.
  - intros H. apply In_nth_error in H. destruct H as [n Hn].
    assert (Hlt : (n < w)%nat).
    { apply nth_error_Some_lt in Hn. rewrite length_firstn in Hn. lia. }
    rewrite nth_error_firstn in Hn.
    replace (n <? w)%nat with true in Hn by (symmetry; now apply Nat.ltb_lt).
    rewrite nth_error_skipn in Hn. exists (k + n)%nat. split; [lia | exact Hn].
  - intros (j & Hj & Hn). apply (nth_error_In _ (j - k)).
    rewrite nth_error_firstn.
    replace (j - k <? w)%nat with true by (symmetry; apply Nat.ltb_lt; lia).
    rewrite nth_error_skipn. replace (k + (j - k))%nat with j by lia.
    exact Hn.
Qed.

(** The rolling mean of a column whose NaN cells are its first [k] has
    its first [k + w - 1] cells NaN and no other. *)
Lemma rolling_mean_nan_prefix (w k : nat) (xs : list cell) :
  (1 <= w)%nat -> nan_prefix k xs ->
  nan_prefix (k + w - 1) (rolling_mean w xs).
Proof.
  intros Hw Hxs j c Hj. apply rolling_mean_nth in Hj.
  destruct Hj as [Hlen ->].
  destruct (Datatypes.S j <? w)%nat eqn:Hs.
  - apply Nat.ltb_lt in Hs. split; [lia | reflexivity].
  - apply Nat.ltb_ge in Hs. rewrite mean_cells_None, window_cells_In. split.
    + intros (i & Hi & Hn). apply Hxs in Hn.
      assert (i < k)%nat by now apply Hn. lia.
    + intros Hlt. exists (Datatypes.S j - w)%nat. split; [lia |].
      destruct (nth_error xs (Datatypes.S j - w)) as [c |] eqn:Hn.
      * f_equal. apply (Hxs _ _ Hn). lia.
      * apply nth_error_None in Hn. lia.
Qed.

Lemma nan_prefix_full (xs : list cell) :
  Forall (fun c => c <> None) xs -> nan_prefix 0 xs.
Proof.
  intros H j c Hn. rewrite Forall_forall in H.
  apply nth_error_In in Hn. apply H in Hn. split; [contradiction | lia].
Qed.

Lemma shift_length (k : nat) (xs : list cell) :
  length (shift k xs) = length xs.
Proof.
  unfold shift. rewrite length_app, repeat_length, length_firstn. lia.
Qed.

Lemma shift_nan_prefix (k : nat) (xs : list cell) :
  Forall (fun c => c <> None) xs -> nan_prefix k (shift k xs).
Proof.
  intros H j c Hn. unfold shift in Hn.
  destruct (Nat.lt_ge_cases j (Nat.min k (length xs))) as [Hlt | Hge].
  - rewrite nth_error_app1 in Hn by (rewrite repeat_length; exact Hlt).
    apply nth_error_In, repeat_spec in Hn. subst c.
    split; [lia | reflexivity].
  - rewrite nth_error_app2 in Hn by (rewrite repeat_length; exact Hge).
    rewrite repeat_length in Hn.
    assert (Hin : In c xs).
    { apply nth_error_In in Hn.
      rewrite <- (firstn_skipn (length xs - k) xs).
      apply in_or_app. now left. }
    rewrite Forall_forall in H. apply H in Hin.
    assert (Hlen : (j - Nat.min k (length xs) < length xs - k)%nat).
    { apply nth_error_Some_lt in Hn. rewrite length_firstn in Hn. lia. }
    split; [contradiction | lia].
Qed.

Lemma zip_with_length {A B D : Type} (f : A -> B -> D) (l1 : list A)
      (l2 : list B) :
  length (zip_with f l1 l2) = Nat.min (length l1) (length l2).
Proof. unfold zip_with. now rewrite length_map, length_combine. Qed.

Lemma zip_with_nth {A B D : Type} (f : A -> B -> D) (l1 : list A)
      (l2 : list B) (i : nat) (d : D) :
  nth_error (zip_with f l1 l2) i = Some d ->
  exists a b, nth_error l1 i = Some a /\ nth_error l2 i = Some b
              /\ d = f a b.
Proof.
  unfold zip_with. revert l2 i.
  induction l1 as [| a l1 IH]; intros l2 i H.
  - destruct i; discriminate H.
  - destruct l2 as [| b l2]; [destruct i; discriminate H |].
    destruct i as [| i]; simpl in *.
    + injection H as <-. now exists a, b.
    + now apply IH.
Qed.

Lemma zip_with_full {f : cell -> cell -> cell} (l1 l2 : list cell) :
  (forall a b, a <> None -> b <> None -> f a b <> None) ->
  full l1 -> full l2 -> full (zip_with f l1 l2).
Proof.
  intros Hf H1. revert l2. unfold zip_with.
  induction H1 as [| a l1 Ha H1 IH]; intros l2 H2; [constructor |].
  destruct H2 as [| b l2 Hb H2]; [constructor |].
  simpl. constructor; [now apply Hf | now apply IH].
Qed.

Lemma zip_with_full_l {f : cell -> cell -> cell} (l1 l2 : list cell) :
  (forall a b, a <> None -> f a b <> None) ->
  full l1 -> full (zip_with f l1 l2).
Proof.
  intros Hf H1. revert l2. unfold zip_with.
  induction H1 as [| a l1 Ha H1 IH]; intros l2; [constructor |].
  destruct l2 as [| b l2]; [constructor |].
  simpl. constructor; [now apply Hf | now apply IH].
Qed.

Lemma map_Some_full {A : Type} (f : A -> Q) (l : list A) :
  full (map (fun r => Some (f r)) l).
Proof. induction l; simpl; constructor; [discriminate | assumption]. Qed.

Lemma cell_max_Some (a b : cell) : a <> None -> cell_max a b <> None.
Proof. destruct a, b; simpl; intros H; congruence. Qed.

Lemma cell_op_Some (f : Q -> Q -> Q) (a b : cell) :
  a <> None -> b <> None -> cell_op f a b <> None.
Proof. destruct a, b; simpl; intros H1 H2; congruence. Qed.

Lemma nth_cell_nan_prefix (k i : nat) (xs : list cell) :
  nan_prefix k xs -> (i < length xs)%nat ->
  (nth_cell xs i = None <-> (i < k)%nat).
Proof.
  intros Hp Hi. unfold nth_cell.
  destruct (nth_error xs i) as [c |] eqn:Hn.
  - exact (Hp _ _ Hn).
  - apply nth_error_None in Hn. lia.
Qed.

Lemma ewm_from_length (a prev : Q) (xs : list Q) :
  length (ewm_from a prev xs) = length xs.
Proof.
  revert prev. induction xs as [| x xs IH]; intros prev; simpl;
    [reflexivity | now rewrite IH].
Qed.

Lemma ewm_length (span : Z) (xs : list Q) : length (ewm span xs) = length xs.
Proof.
  destruct xs as [| x xs]; simpl; [reflexivity | now rewrite ewm_from_length].
Qed.

Lemma nth_cell_map_Some (l : list Q) (i : nat) :
  (i < length l)%nat -> nth_cell (map Some l) i <> None.
Proof.
  intros Hi. unfold nth_cell. rewrite nth_error_map.
  destruct (nth_error l i) eqn:Hn; simpl; [discriminate |].
  apply nth_error_None in Hn. lia.
Qed.

Lemma combine_seq_nth {A : Type} (l : list A) (s i : nat) :
  nth_error (combine (seq s (length l)) l) i
  = option_map (fun r => ((s + i)%nat, r)) (nth_error l i).
Proof.
  revert s i. induction l as [| a l IH]; intros s i; simpl.
  - now destruct i.
  - destruct i as [| i]; simpl.
    + now rewrite Nat.add_0_r.
    + rewrite IH. now rewrite Nat.add_succ_r.
Qed.

Lemma momentum_nan_prefix (k : nat) (xs : list cell) :
  full xs -> nan_prefix k (zip_with (cell_op Qminus) xs (shift k xs)).
Proof.
  intros Hf j c Hn. apply zip_with_nth in Hn.
  destruct Hn as (a & b & Ha & Hb & ->).
  pose proof (shift_nan_prefix k xs Hf j b Hb) as Hs.
  apply nth_error_In in Ha. unfold full in Hf. rewrite Forall_forall in Hf.
  apply Hf in Ha. destruct a as [x |]; [| contradiction].
  destruct b as [y |]; simpl.
  - split; [discriminate | intros Hlt; now apply Hs in Hlt].
  - split; [intros _; now apply Hs | reflexivity].
Qed.

(** The NaN cells of the two ATR columns. *)
Lemma add_indicators_atr (rows : list Row) (i : nat) (b : Bar) :
  nth_error (_add_indicators rows) i = Some b ->
  (atr_14 b = None <-> (i < 13)%nat)
  /\ (atr_avg b = None <-> (i < 62)%nat).
Proof.
  intros H. unfold _add_indicators in H. cbv zeta in H.
  rewrite nth_error_map, combine_seq_nth in H.
  destruct (nth_error rows i) as [r |] eqn:Hr; [| discriminate H].
  cbn [option_map fst snd Nat.add] in H. injection H as <-.
  assert (Hi : (i < length rows)%nat) by (eapply nth_error_Some_lt; eauto).
  cbn [atr_14 atr_avg].
  set (close_c := map (fun r => Some (row_close r)) rows).
  set (high_c := map (fun r => Some (row_high r)) rows).
  set (low_c := map (fun r => Some (row_low r)) rows).
  assert (Hclose : full close_c) by apply map_Some_full.
  assert (Hhigh : full high_c) by apply map_Some_full.
  assert (Hlow : full low_c) by apply map_Some_full.
  set (true_range := zip_with cell_max _ _).
  assert (Htr : full true_range).
  { apply zip_with_full_l; [apply cell_max_Some |].
    apply zip_with_full_l; [apply cell_max_Some |].
    apply zip_with_full; [apply cell_op_Some | assumption | assumption]. }
  assert (Ltr : length true_range = length rows).
  { unfold true_range.
    rewrite !zip_with_length, !length_map, !zip_with_length, !shift_length.
    unfold high_c, low_c, close_c. rewrite !length_map. lia. }
  assert (Hatr : nan_prefix 13 (rolling_mean 14 true_range)).
  { apply (rolling_mean_nan_prefix 14 0); [lia |].
    now apply nan_prefix_full. }
  split.
  - apply nth_cell_nan_prefix; [exact Hatr |].
    now rewrite rolling_mean_length, Ltr.
  - apply nth_cell_nan_prefix.
    + apply (rolling_mean_nan_prefix 50 13); [lia | exact Hatr].
    + now rewrite !rolling_mean_length, Ltr.
Qed.

Lemma iloc_nth (data : DataFrame) (idx : nat) (bar : Bar) :
  nth_error data idx = Some bar -> iloc data (Z.of_nat idx) = Ok bar.
Proof.
  intros H. pose proof (nth_error_Some_lt _ _ _ H) as Hlt. unfold iloc.
  replace (Z.of_nat idx <? 0) with false by (symmetry; apply Z.ltb_ge; lia).
  replace (0 <=? Z.of_nat idx) with true by (symmetry; apply Z.leb_le; lia).
  replace (Z.of_nat idx <? Z.of_nat (length data)) with true
    by (symmetry; apply Z.ltb_lt; lia).
  cbn [andb]. now rewrite Nat2Z.id, H.
Qed.

(** X22.  [_add_indicators] of data_pipeline.py: the frame has one bar per
    input row, with the row's timestamp and prices unchanged; its
    indicator cells are NaN exactly during the warm-up of each
    indicator: atr_14 on the first 13 bars, atr_avg on the first 62,
    sma_20 on the first 19, sma_50 on the first 49, momentum_10 on the
    first 10; ema_9 and ema_21 are never NaN. *)
Theorem add_indicators_warm_up (rows : list Row) (i : nat) (b : Bar) :
  nth_error (_add_indicators rows) i = Some b ->
  length (_add_indicators rows) = length rows
  /\ (exists r, nth_error rows i = Some r
                /\ name b = row_name r /\ close b = row_close r
                /\ high b = row_high r /\ low b = row_low r
                /\ open b = row_open r /\ volume b = row_volume r)
  /\ (atr_14 b = None <-> (i < 13)%nat)
  /\ (atr_avg b = None <-> (i < 62)%nat)
  /\ (sma_20 b = None <-> (i < 19)%nat)
  /\ (sma_50 b = None <-> (i < 49)%nat)
  /\ (momentum_10 b = None <-> (i < 10)%nat)
  /\ ema_9 b <> None /\ ema_21 b <> None.
Proof.
  intros H. split.
  { unfold _add_indicators. cbv zeta.
    rewrite length_map, length_combine, length_seq. lia. }
  destruct (add_indicators_atr rows i b H) as [Hatr Havg].
  unfold _add_indicators in H. cbv zeta in H.
  rewrite nth_error_map, combine_seq_nth in H.
  destruct (nth_error rows i) as [r |] eqn:Hr; [| discriminate H].
  cbn [option_map fst snd Nat.add] in H. injection H as Hb. subst b.
  assert (Hi : (i < length rows)%nat) by (eapply nth_error_Some_lt; eauto).
  cbn [atr_14 atr_avg] in Hatr, Havg.
  cbn [name close high low open volume atr_14 atr_avg ema_9 ema_21 sma_20
       sma_50 momentum_10].
  set (close_c := map (fun r => Some (row_close r)) rows).
  assert (Hclose : full close_c) by apply map_Some_full.
  split; [exists r; repeat split; reflexivity |].
  split; [exact Hatr |]. split; [exact Havg |].
  split.
  { apply nth_cell_nan_prefix.
    - apply (rolling_mean_nan_prefix 20 0); [lia |].
      now apply nan_prefix_full.
    - rewrite rolling_mean_length. unfold close_c. now rewrite length_map. }
  split.
  { apply nth_cell_nan_prefix.
    - apply (rolling_mean_nan_prefix 50 0); [lia |].
      now apply nan_prefix_full.
    - rewrite rolling_mean_length. unfold close_c. now rewrite length_map. }
  split.
  { apply nth_cell_nan_prefix.
    - now apply momentum_nan_prefix.
    - rewrite zip_with_length, shift_length. unfold close_c.
      rewrite length_map. lia. }
  split; apply nth_cell_map_Some; now rewrite ewm_length, length_map.
Qed.

Lemma add_indicators_warm_up_witness :
  nth_error (_add_indicators rising_rows) 62 = Some (rising_bar 62)
  /\ length (_add_indicators rising_rows) = length rising_rows
  /\ atr_avg (rising_bar 62) <> None
  /\ atr_avg (rising_bar 61) = None.
Proof.
  assert (H62 : nth_error (_add_indicators rising_rows) 62
                = Some (rising_bar 62)) by (vm_compute; reflexivity).
  assert (H61 : nth_error (_add_indicators rising_rows) 61
                = Some (rising_bar 61)) by (vm_compute; reflexivity).
  destruct (add_indicators_warm_up rising_rows 62 (rising_bar 62) H62)
    as (Hlen & _ & _ & Havg & _).
  destruct (add_indicators_warm_up rising_rows 61 (rising_bar 61) H61)
    as (_ & _ & _ & Havg' & _).
  split; [exact H62 |]. split; [exact Hlen |]. split.
  - intros Hn. apply Havg in Hn. lia.
  - apply Havg'. lia.
Defined.

(** X23.  [Strategy.should_enter] on a frame of [_add_indicators]: the
    strategy takes no entry on any of the first 62 bars of a frame built
    by the pipeline.  Its own guard only covers the first 60; on bars 60
    and 61 the 50-bar average of the 14-bar ATR is still NaN and the
    indicator check rejects the bar. *)
Theorem ema_no_entry_during_warm_up (s : Strategy.t) (rows : list Row)
        (idx : nat) :
  (idx < 62)%nat -> (idx < length rows)%nat ->
  Strategy.should_enter s (_add_indicators rows) idx = Ok (false, s).
Proof.
  intros H62 Hlen. unfold Strategy.should_enter.
  destruct (idx <? 60)%nat eqn:H60; [reflexivity |].
  apply Nat.ltb_ge in H60.
  assert (Hl : length (_add_indicators rows) = length rows).
  { unfold _add_indicators. cbv zeta.
    rewrite length_map, length_combine, length_seq. lia. }
  destruct (nth_error (_add_indicators rows) idx) as [cur |] eqn:Hc;
    [| apply nth_error_None in Hc; lia].
  destruct (nth_error (_add_indicators rows) (idx - 1)) as [prev |] eqn:Hp;
    [| apply nth_error_None in Hp; lia].
  cbv zeta.
  rewrite (iloc_nth _ _ _ Hc). cbn [bind].
  replace (Z.of_nat idx - 1) with (Z.of_nat (idx - 1)) by lia.
  rewrite (iloc_nth _ _ _ Hp). cbn [bind].
  destruct (add_indicators_atr rows idx cur Hc) as [_ Havg].
  assert (Hn : atr_avg cur = None) by (apply Havg; exact H62).
  rewrite Hn.
  destruct (ema_9 cur), (ema_21 cur), (atr_14 cur), (sma_50 cur);
    reflexivity.
Qed.

Lemma ema_no_entry_during_warm_up_witness :
  (61 < 62)%nat /\ (61 < length rising_rows)%nat
  /\ Strategy.should_enter Strategy.init (_add_indicators rising_rows) 61
     = Ok (false, Strategy.init).
Proof.
  assert (H1 : (61 < 62)%nat) by lia.
  assert (H2 : (61 < length rising_rows)%nat) by (vm_compute; lia).
  split; [exact H1 |]. split; [exact H2 |].
  exact (ema_no_entry_during_warm_up Strategy.init rising_rows 61 H1 H2).
Defined.

(** ** The ranges of RSI and of the EMAs *)

Lemma all_cells_Some (l : list cell) (xs : list Q) :
  all_cells l = Some xs -> l = map Some xs.
Proof.
  revert xs. induction l as [| c l IH]; simpl; intros xs H.
  - injection H as <-. reflexivity.
  - destruct c as [x |]; [| discriminate H].
    destruct (all_cells l) as [ys |]; [| discriminate H].
    injection H as <-. simpl. now rewrite (IH ys eq_refl).
Qed.

Lemma fold_Qplus_nonneg (xs : list Q) (acc : Q) :
  (0 <= acc)%Q -> Forall (fun x => (0 <= x)%Q) xs ->
  (0 <= fold_left Qplus xs acc)%Q.
Proof.
  intros Ha H. revert acc Ha.
  induction H as [| x xs Hx _ IH]; simpl; intros acc Ha; [exact Ha |].
  apply IH. lra.
Qed.

Lemma Qdiv_nonneg (a b : Q) : (0 <= a)%Q -> (0 <= b)%Q -> (0 <= a / b)%Q.
Proof.
  intros Ha Hb. unfold Qdiv. apply Qmult_le_0_compat; [exact Ha |].
  now apply Qinv_le_0_compat.
Qed.

Lemma mean_cells_nonneg (l : list cell) (m : Q) :
  nonneg_col l -> mean_cells l = Some m -> (0 <= m)%Q.
Proof.
  intros Hl H. unfold mean_cells in H.
  destruct (all_cells l) as [xs |] eqn:Hxs; [| discriminate H].
  injection H as <-. apply all_cells_Some in Hxs. subst l.
  apply Qdiv_nonneg.
  - apply fold_Qplus_nonneg; [lra |].
    unfold nonneg_col in Hl. rewrite Forall_forall in *.
    intros x Hx. destruct (Hl (Some x)) as (y & Hy & Hle).
    + now apply in_map.
    + injection Hy as ->. exact Hle.
  - change 0%Q with (inject_Z 0). rewrite <- Zle_Qle. lia.
Qed.

Lemma rolling_mean_nonneg (w i : nat) (xs : list cell) (m : Q) :
  nonneg_col xs -> nth_error (rolling_mean w xs) i = Some (Some m) ->
  (0 <= m)%Q.
Proof.
  intros Hxs H. apply rolling_mean_nth in H. destruct H as [_ H].
  destruct (Datatypes.S i <? w)%nat; [discriminate H |].
  symmetry in H. apply (mean_cells_nonneg _ _) in H; [exact H |].
  unfold nonneg_col in *. rewrite Forall_forall in *.
  intros c Hc. apply window_cells_In in Hc. destruct Hc as (j & _ & Hj).
  apply Hxs. eapply nth_error_In. exact Hj.
Qed.

Lemma rsi_cell_range (g l v : Q) :
  (0 <= g)%Q -> (0 <= l)%Q -> rsi_cell (Some g) (Some l) = Some v ->
  (0 <= v <= 100)%Q.
Proof.
  intros Hg Hl H. unfold rsi_cell in H.
  destruct (Qeq_bool l 0) eqn:Hz.
  - destruct (Qeq_bool g 0); [discriminate H |].
    injection H as <-. split; lra.
  - injection H as <-.
    assert (Hr : (0 <= g / l)%Q) by now apply Qdiv_nonneg.
    set (r := (g / l)%Q) in *.
    assert (Hd : (0 < 1 + r)%Q) by lra.
    assert (H1 : (100 / (1 + r) <= 100)%Q)
      by (apply Qle_shift_div_r; [exact Hd | lra]).
    assert (H2 : (0 <= 100 / (1 + r))%Q)
      by (apply Qle_shift_div_l; [exact Hd | lra]).
    split; lra.
Qed.

Lemma gains_nonneg (delta : list cell) :
  nonneg_col
    (map (fun d => match d with
                   | Some x => if Qgtb x 0 then Some x else Some 0%Q
                   | None => Some 0%Q
                   end) delta).
Proof.
  unfold nonneg_col. apply Forall_forall. intros c Hc.
  apply in_map_iff in Hc. destruct Hc as (d & <- & _).
  destruct d as [x |].
  - destruct (Qgtb x 0) eqn:Hx.
    + exists x. split; [reflexivity |]. apply Qgtb_gt in Hx. lra.
    + exists 0%Q. split; [reflexivity | lra].
  - exists 0%Q. split; [reflexivity | lra].
Qed.

Lemma losses_nonneg (delta : list cell) :
  nonneg_col
    (map (fun d => match d with
                   | Some x => if Qltb x 0 then Some (- x)%Q
                               else Some (- 0)%Q
                   | None => Some (- 0)%Q
                   end) delta).
Proof.
  unfold nonneg_col. apply Forall_forall. intros c Hc.
  apply in_map_iff in Hc. destruct Hc as (d & <- & _).
  destruct d as [x |].
  - destruct (Qltb x 0) eqn:Hx.
    + exists (- x)%Q. split; [reflexivity |]. apply Qltb_lt in Hx. lra.
    + exists (- 0)%Q. split; [reflexivity | lra].
  - exists (- 0)%Q. split; [reflexivity | lra].
Qed.

(** X24.  [_add_indicators] of data_pipeline.py: the RSI of a bar is NaN on
    the first 13 bars, and wherever it is a number it lies between 0 and
    100, whatever the prices of the rows are. *)
Theorem rsi_within_bounds (rows : list Row) (i : nat) (b : Bar) :
  nth_error (_add_indicators rows) i = Some b ->
  ((i < 13)%nat -> rsi b = None)
  /\ (forall v, rsi b = Some v -> (0 <= v <= 100)%Q).
Proof.
  intros H. unfold _add_indicators in H. cbv zeta in H.
  rewrite nth_error_map, combine_seq_nth in H.
  destruct (nth_error rows i) as [r |] eqn:Hr; [| discriminate H].
  cbn [option_map fst snd Nat.add] in H. injection H as <-.
  cbn [rsi].
  match goal with
  | |- context [zip_with rsi_cell (rolling_mean 14 ?g) (rolling_mean 14 ?l)] =>
      set (gains := g); set (losses := l)
  end.
  assert (Hg : nonneg_col gains) by apply gains_nonneg.
  assert (Hl : nonneg_col losses) by apply losses_nonneg.
  unfold nth_cell.
  destruct (nth_error (zip_with rsi_cell (rolling_mean 14 gains)
                                (rolling_mean 14 losses)) i)
    as [c |] eqn:Hc; [| split; [reflexivity | discriminate]].
  apply zip_with_nth in Hc. destruct Hc as (g & l & Hgi & Hli & ->).
  split.
  - intros Hi. apply rolling_mean_nth in Hgi. destruct Hgi as [_ ->].
    replace (14 <? 14)%nat with false by reflexivity.
    replace (Datatypes.S i <? 14)%nat with true
      by (symmetry; apply Nat.ltb_lt; lia).
    reflexivity.
  - intros v Hv. destruct g as [g |]; [| discriminate Hv].
    destruct l as [l |]; [| discriminate Hv].
    apply (rsi_cell_range g l v); [| | exact Hv].
    + exact (rolling_mean_nonneg _ _ _ _ Hg Hgi).
    + exact (rolling_mean_nonneg _ _ _ _ Hl Hli).
Qed.

Lemma rsi_within_bounds_witness :
  nth_error (_add_indicators rising_rows) 62 = Some (rising_bar 62)
  /\ rsi (rising_bar 62) = Some 100%Q
  /\ (0 <= 100 <= 100)%Q.
Proof.
  assert (H62 : nth_error (_add_indicators rising_rows) 62
                = Some (rising_bar 62)) by (vm_compute; reflexivity).
  assert (Hr : rsi (rising_bar 62) = Some 100%Q) by (vm_compute; reflexivity).
  split; [exact H62 |]. split; [exact Hr |].
  exact (proj2 (rsi_within_bounds rising_rows 62 (rising_bar 62) H62)
               100%Q Hr).
Defined.

Lemma ewm_from_range (a lo hi prev : Q) (xs : list Q) :
  (0 <= a <= 1)%Q -> (lo <= prev <= hi)%Q ->
  Forall (fun x => (lo <= x <= hi)%Q) xs ->
  Forall (fun x => (lo <= x <= hi)%Q) (ewm_from a prev xs).
Proof.
  intros Ha Hp H. revert prev Hp.
  induction H as [| x xs Hx _ IH]; intros prev Hp; simpl; [constructor |].
  assert (Hy : (lo <= (1 - a) * prev + a * x <= hi)%Q).
  { assert (H1 : (0 <= (1 - a) * (prev - lo))%Q)
      by (apply Qmult_le_0_compat; lra).
    assert (H2 : (0 <= a * (x - lo))%Q) by (apply Qmult_le_0_compat; lra).
    assert (H3 : (0 <= (1 - a) * (hi - prev))%Q)
      by (apply Qmult_le_0_compat; lra).
    assert (H4 : (0 <= a * (hi - x))%Q) by (apply Qmult_le_0_compat; lra).
    split; lra. }
  constructor; [exact Hy | now apply IH].
Qed.

Lemma ewm_range (span : Z) (lo hi : Q) (xs : list Q) :
  (0 <= 2 / (inject_Z span + 1) <= 1)%Q ->
  Forall (fun x => (lo <= x <= hi)%Q) xs ->
  Forall (fun x => (lo <= x <= hi)%Q) (ewm span xs).
Proof.
  intros Ha H. destruct H as [| x xs Hx H]; simpl; [constructor |].
  constructor; [exact Hx |]. now apply ewm_from_range.
Qed.

Lemma nth_cell_ewm_range (span : Z) (lo hi e : Q) (xs : list Q) (i : nat) :
  (0 <= 2 / (inject_Z span + 1) <= 1)%Q ->
  Forall (fun x => (lo <= x <= hi)%Q) xs ->
  nth_cell (map Some (ewm span xs)) i = Some e -> (lo <= e <= hi)%Q.
Proof.
  intros Ha H He. unfold nth_cell in He. rewrite nth_error_map in He.
  destruct (nth_error (ewm span xs) i) as [y |] eqn:Hy; [| discriminate He].
  simpl in He. injection He as <-.
  pose proof (ewm_range span lo hi xs Ha H) as Hr.
  rewrite Forall_forall in Hr. apply Hr. eapply nth_error_In. exact Hy.
Qed.

Lemma closes_within_In (lo hi : Q) (rows : list Row) :
  closes_within lo hi rows = true ->
  forall r, In r rows -> (lo <= row_close r <= hi)%Q.
Proof.
  unfold closes_within. rewrite forallb_forall. intros H r Hr.
  apply H in Hr. apply andb_true_iff in Hr. destruct Hr as [H1 H2].
  split; now apply Qle_bool_iff.
Qed.

(** X25.  [_add_indicators] of data_pipeline.py: ema_9 and ema_21 never
    leave the range of the closing prices: when every close of the rows
    lies between lo and hi, so does every value of the two EMA columns. *)
Theorem ema_within_price_range (rows : list Row) (lo hi : Q) (i : nat)
        (b : Bar) :
  (forall r, In r rows -> (lo <= row_close r <= hi)%Q) ->
  nth_error (_add_indicators rows) i = Some b ->
  (forall e, ema_9 b = Some e -> (lo <= e <= hi)%Q)
  /\ (forall e, ema_21 b = Some e -> (lo <= e <= hi)%Q).
Proof.
  intros Hrows H. unfold _add_indicators in H. cbv zeta in H.
  rewrite nth_error_map, combine_seq_nth in H.
  destruct (nth_error rows i) as [r |] eqn:Hr; [| discriminate H].
  cbn [option_map fst snd Nat.add] in H. injection H as <-.
  cbn [ema_9 ema_21].
  assert (Hc : Forall (fun x => (lo <= x <= hi)%Q) (map row_close rows)).
  { apply Forall_forall. intros x Hx. apply in_map_iff in Hx.
    destruct Hx as (r' & <- & Hin). now apply Hrows. }
  split; intros e He.
  - apply (nth_cell_ewm_range 9 lo hi e (map row_close rows) i);
      [| exact Hc | exact He].
    split; apply Qle_bool_iff; reflexivity.
  - apply (nth_cell_ewm_range 21 lo hi e (map row_close rows) i);
      [| exact Hc | exact He].
    split; apply Qle_bool_iff; reflexivity.
Qed.

Lemma ema_within_price_range_witness :
  (forall r, In r rising_rows -> (100 <= row_close r <= 169)%Q)
  /\ nth_error (_add_indicators rising_rows) 62 = Some (rising_bar 62)
  /\ (forall e, ema_9 (rising_bar 62) = Some e -> (100 <= e <= 169)%Q).
Proof.
  assert (Hrows : forall r, In r rising_rows
                            -> (100 <= row_close r <= 169)%Q)
    by (apply closes_within_In; vm_compute; reflexivity).
  assert (H62 : nth_error (_add_indicators rising_rows) 62
                = Some (rising_bar 62)) by (vm_compute; reflexivity).
  split; [exact Hrows |]. split; [exact H62 |].
  exact (proj1 (ema_within_price_range rising_rows 100 169 62
                                       (rising_bar 62) Hrows H62)).
Defined.

(** ** The streaks of diagnostics.py *)

Lemma streaks_loop_sum (is_win : list bool) (prev : bool) (cur : nat)
      (streaks : list nat) :
  let '(streaks', cur') := streaks_loop is_win prev cur streaks in
  (list_sum streaks' + cur' = list_sum streaks + cur + length is_win)%nat
  /\ ((1 <= cur)%nat -> Forall (fun s => (1 <= s)%nat) streaks ->
      (1 <= cur')%nat /\ Forall (fun s => (1 <= s)%nat) streaks').
Proof.
  revert prev cur streaks.
  induction is_win as [| w rest IH]; intros prev cur streaks; simpl.
  - split; [lia | tauto].
  - destruct (Bool.eqb w prev).
    + specialize (IH w (Datatypes.S cur) streaks).
      destruct (streaks_loop rest w (Datatypes.S cur) streaks) as [st c].
      destruct IH as [Hs Hf]. split; [lia |].
      intros Hc HF. apply Hf; [lia | exact HF].
    + specialize (IH w 1%nat (streaks ++ [cur])).
      destruct (streaks_loop rest w 1%nat (streaks ++ [cur])) as [st c].
      destruct IH as [Hs Hf]. rewrite list_sum_app in Hs. simpl in Hs.
      split; [lia |].
      intros Hc HF. apply Hf; [lia |].
      apply Forall_app. split; [exact HF | now constructor].
Qed.

Lemma streaks_loop_same (w : bool) (n cur : nat) (streaks : list nat) :
  streaks_loop (repeat w n) w cur streaks = (streaks, (cur + n)%nat).
Proof.
  revert cur. induction n as [| n IH]; intros cur; simpl.
  - now rewrite Nat.add_0_r.
  - rewrite Bool.eqb_reflx, IH. f_equal. lia.
Qed.

Lemma map_constant {A B : Type} (f : A -> B) (v : B) (l : list A) :
  (forall a, In a l -> f a = v) -> map f l = repeat v (length l).
Proof.
  induction l as [| a l IH]; simpl; intros H; [reflexivity |].
  rewrite (H a) by now left. f_equal. apply IH. intros x Hx. apply H.
  now right.
Qed.

Lemma streak_report_constant (trades : list Trade) (w : bool) :
  trades <> [] ->
  (forall t, In t trades -> Qgtb (pnl t) 0 = w) ->
  streaks_of (map (fun t => Qgtb (pnl t) 0) trades) = [length trades]
  /\ streak_report trades = Raise ValueError.
Proof.
  intros Hne Hall. unfold streak_report. cbv zeta.
  rewrite (map_constant _ w trades Hall).
  destruct trades as [| t trades]; [congruence |].
  cbn [length repeat streaks_of]. rewrite streaks_loop_same.
  cbn [app Nat.add]. split; [reflexivity |].
  cbn [select_streaks nth_error bind].
  destruct w; reflexivity.
Qed.

(** X26.  The consistency check of [run_diagnostics] (diagnostics.py): the
    streak lengths the loop collects are all at least 1 and add up to
    the number of trades; and when the trades are all winners, or all
    losers, the check raises ValueError, one of the two lists given to
    max being empty. *)
Theorem streak_report_one_sided (trades : list Trade) :
  trades <> [] ->
  (list_sum (streaks_of (map (fun t => Qgtb (pnl t) 0) trades))
   = length trades
   /\ Forall (fun s => (1 <= s)%nat)
             (streaks_of (map (fun t => Qgtb (pnl t) 0) trades)))
  /\ ((forall t, In t trades -> (0 < pnl t)%Q) ->
      streak_report trades = Raise ValueError)
  /\ ((forall t, In t trades -> (pnl t <= 0)%Q) ->
      streak_report trades = Raise ValueError).
Proof.
  intros Hne. split; [| split].
  - destruct trades as [| t trades]; [congruence |].
    cbn [map streaks_of].
    pose proof (streaks_loop_sum (map (fun t => Qgtb (pnl t) 0) trades)
                                 (Qgtb (pnl t) 0) 1 []) as H.
    destruct (streaks_loop _ _ _ _) as [st c]. destruct H as [Hs Hf].
    rewrite length_map in Hs. simpl in Hs.
    destruct (Hf (le_n 1) (Forall_nil _)) as [Hc HF].
    split.
    + rewrite list_sum_app. simpl. lia.
    + apply Forall_app. split; [exact HF | now constructor].
  - intros Hall. apply (streak_report_constant trades true Hne).
    intros t Ht. apply Qgtb_gt. now apply Hall.
  - intros Hall. apply (streak_report_constant trades false Hne).
    intros t Ht. destruct (Qgtb (pnl t) 0) eqn:Hg; [| reflexivity].
    apply Qgtb_gt in Hg. apply Hall in Ht. lra.
Qed.

Lemma streak_report_one_sided_witness :
  [trade_of_pnl 50; trade_of_pnl 20] <> []
  /\ (forall t, In t [trade_of_pnl 50; trade_of_pnl 20] -> (0 < pnl t)%Q)
  /\ streak_report [trade_of_pnl 50; trade_of_pnl 20] = Raise ValueError.
Proof.
  assert (Hne : [trade_of_pnl 50; trade_of_pnl 20] <> []) by discriminate.
  assert (Hall : forall t, In t [trade_of_pnl 50; trade_of_pnl 20]
                           -> (0 < pnl t)%Q).
  { intros t [<- | [<- | []]]; reflexivity. }
  split; [exact Hne |]. split; [exact Hall |].
  exact (proj1 (proj2 (streak_report_one_sided _ Hne)) Hall).
Defined.

(** Two winners followed by a loser: the streaks are 2 and 1, both are
    attributed to winners (trades 0 and 1) and the losing list is empty. *)
Example streak_report_mixed_fails :
  streaks_of [true; true; false] = [2; 1]%nat
  /\ streak_report [trade_of_pnl 50; trade_of_pnl 20; trade_of_pnl (-30)]
     = Raise ValueError.
Proof. split; reflexivity. Qed.
